(** * The HTTP gateway of nsqd: package [nsqd] (the older http.go) and
    package [nsqdserver] (the reworked http.go)

    The two files carry the same handlers under the same names.  Each
    package is embedded in a module of its own; what the two files share
    word for word (the text loop of [doMPUB], [doStats], [doConfig],
    [getOptByCfgName]) is defined once and used by both.

    Handlers are functions in a small state-and-error monad over a [World]:
    the process-wide options snapshot with the store behind its slices, the
    bytes taken off the request body, the buffer and reader pools, and the
    calls made to the queue engine and the other collaborators.  The answers
    of the collaborators are fields of a [context] record. *)

From Stdlib Require Import ZArith Lia List Strings.Byte Ascii String Bool DecimalString.
From stdpp Require Import base list strings gmap.
Import ListNotations.
Local Open Scope Z_scope.

(** ** Go values *)

#[global] Instance byte_eq_decision : EqDecision byte := byte_eq_dec.

(** The byte ['\n']. *)
Definition nl : byte := x0a.

(** [int64] arithmetic wraps around: the value of a sum as an int64. *)
Definition int64 (z : Z) : Z := (z + 2 ^ 63) mod 2 ^ 64 - 2 ^ 63.

(** [len(x)] as a Go int. *)
Definition len {A : Type} (l : list A) : Z := Z.of_nat (length l).

(** [http_api.Err{Code, Text}]. *)
Record Err : Type := mkErr { Code : Z; Text : string }.

(** What a handler hands back: a value with a nil error, an error, or a
    run-time panic (an index or a slice bound out of range). *)
Inductive Result (A : Type) : Type :=
| Ok (a : A)
| Fail (e : Err)
| Panic.
Arguments Ok {A} a.
Arguments Fail {A} e.
Arguments Panic {A}.

(** The errors a read can report. *)
Inductive error : Type :=
| io_EOF
| io_ErrUnexpectedEOF
| io_other.

(** ** Readers

    A reader is the bytes it still holds and the way it ends once they are
    gone: a clean end of stream ([io.EOF]); a stream cut short, whose own
    read reports [io.ErrUnexpectedEOF], as the body of a request does when
    the connection ends before the declared length has come; or another
    transport error. *)
Inductive Ending : Type :=
| CleanEnd
| UnexpectedEnd
| BrokenEnd.

Record Reader : Type := mkReader { data : list byte; ending : Ending }.

(** [io.LimitReader(r, n)]: the first [n] bytes of [r], then [io.EOF]
    (the "fake" EOF of the comments); nothing at all when [n <= 0]. *)
Definition LimitReader (r : Reader) (n : Z) : Reader :=
  {| data := take (Z.to_nat n) (data r);
     ending := if len (data r) <? n then ending r else CleanEnd |}.

(** [ioutil.ReadAll(r)]: every byte up to the end of the stream; a clean
    end is a nil error, any other end is the error of the stream. *)
Definition ReadAll (r : Reader) : list byte * option error :=
  (data r, match ending r with
           | CleanEnd => None
           | UnexpectedEnd => Some io_ErrUnexpectedEOF
           | BrokenEnd => Some io_other
           end).

(** [io.ReadFull(r, buf)] with [len(buf) = n]: the number of bytes stored
    in [buf] and the error.  A full buffer is a nil error; a stream that
    stops short with a clean end gives [io.EOF] when nothing was read and
    [io.ErrUnexpectedEOF] otherwise; one that stops short with an error
    gives that error. *)
Definition ReadFull (r : Reader) (n : nat) : nat * option error :=
  if decide (n ≤ length (data r))%nat then (n, None)
  else (length (data r),
        match ending r with
        | CleanEnd => Some (if decide (length (data r) = 0)%nat
                            then io_EOF else io_ErrUnexpectedEOF)
        | UnexpectedEnd => Some io_ErrUnexpectedEOF
        | BrokenEnd => Some io_other
        end).

(** The blocks that successive calls of [rdr.ReadBytes('\n')] return on a
    stream: the blocks that end in the delimiter (each with a nil error),
    and the last block, which is what is left when the stream runs out
    before a delimiter is found, returned together with the error of the
    stream. *)
Fixpoint ReadBytes (s : list byte) : list (list byte) * list byte :=
  match s with
  | [] => ([], [])
  | c :: s' =>
      let '(full, rest) := ReadBytes s' in
      if decide (c = nl) then ([c] :: full, rest)
      else match full with
           | [] => ([], c :: rest)
           | b :: full' => ((c :: b) :: full', rest)
           end
  end.

(** ** Topics, messages, statistics *)

(** A [*Topic], as far as the handlers look at it: [GetTopicName()] and
    [GetTopicPart()]. *)
Record Topic : Type := mkTopic { GetTopicName : string; GetTopicPart : Z }.

(** [NewMessage(id, body)]. *)
Record Message : Type := NewMessage { ID : Z; MsgBody : list byte }.

(** [ClientStats], [ChannelStats] and [TopicStats] with the fields that
    [doStats] and [printStats] read. *)
Record ClientStats : Type := mkClientStats {
  ClientVersion : string;
  ClientName : string;
  RemoteAddress : string;
  ClientState : Z;
  ClientInFlightCount : Z;
  ReadyCount : Z;
  FinishCount : Z;
  ClientRequeueCount : Z;
  ClientMessageCount : Z;
  ConnectTime : Z
}.

Record ChannelStats : Type := mkChannelStats {
  ChannelName : string;
  ChannelDepth : Z;
  ChannelBackendDepth : Z;
  InFlightCount : Z;
  DeferredCount : Z;
  RequeueCount : Z;
  TimeoutCount : Z;
  ChannelMessageCount : Z;
  Paused : bool;
  Clients : list ClientStats;
  ChannelE2eProcessingLatency : string
}.

Record TopicStats : Type := mkTopicStats {
  TopicName : string;
  Channels : list ChannelStats;
  Depth : Z;
  BackendDepth : Z;
  MessageCount : Z;
  E2eProcessingLatency : string
}.

(** [topicStats.Channels = ...] on the loop's copy of the entry. *)
Definition setChannels (t : TopicStats) (cs : list ChannelStats) : TopicStats :=
  {| TopicName := TopicName t; Channels := cs; Depth := Depth t;
     BackendDepth := BackendDepth t; MessageCount := MessageCount t;
     E2eProcessingLatency := E2eProcessingLatency t |}.

(** ** Options

    A [[]string] is a slice header over a backing array that lives in a
    store; copying an [Options] struct copies the header, not the array. *)
Record StringSlice : Type := mkSlice { array : option nat; slen : nat }.

Abbreviation Store := (list (list string)).

(** The backing array of a slice; its length is the capacity of the slice. *)
Definition backing (h : Store) (v : StringSlice) : list string :=
  match array v with
  | Some p => default [] (h !! p)
  | None => []
  end.

(** The elements of a slice. *)
Definition elements (h : Store) (v : StringSlice) : list string :=
  take (slen v) (backing h v).

(** The fields of [Options] that the handlers use. *)
Record Options : Type := mkOptions {
  MaxMsgSize : Z;
  MaxBodySize : Z;
  NSQLookupdTCPAddresses : StringSlice;
  Verbose : bool;
  LogLevel : Z;
  BroadcastAddress : string
}.

Definition setNSQLookupdTCPAddresses (o : Options) (v : StringSlice) : Options :=
  {| MaxMsgSize := MaxMsgSize o; MaxBodySize := MaxBodySize o;
     NSQLookupdTCPAddresses := v; Verbose := Verbose o;
     LogLevel := LogLevel o; BroadcastAddress := BroadcastAddress o |}.

Definition setVerbose (o : Options) (b : bool) : Options :=
  {| MaxMsgSize := MaxMsgSize o; MaxBodySize := MaxBodySize o;
     NSQLookupdTCPAddresses := NSQLookupdTCPAddresses o; Verbose := b;
     LogLevel := LogLevel o; BroadcastAddress := BroadcastAddress o |}.

Definition setLogLevel (o : Options) (l : Z) : Options :=
  {| MaxMsgSize := MaxMsgSize o; MaxBodySize := MaxBodySize o;
     NSQLookupdTCPAddresses := NSQLookupdTCPAddresses o; Verbose := Verbose o;
     LogLevel := l; BroadcastAddress := BroadcastAddress o |}.

(** An [interface{}] holding the value of an option. *)
Inductive Value : Type :=
| VInt (z : Z)
| VBool (b : bool)
| VString (s : string)
| VStrings (v : StringSlice).

(** One field of the [Options] struct as [reflect] shows it: its name, its
    [flag] and [cfg] tags and the value [FieldByName(field.Name).Interface()]
    reads. *)
Record StructField : Type := mkField {
  FieldName : string;
  flagTag : string;
  cfgTag : string;
  Interface : Options → Value
}.

(** ** What [json.Unmarshal] makes of a body

    For a scalar target: an error (bad syntax or a value of the wrong
    type; the target is left alone), the JSON null (a nil error, the target
    left alone), or a value. *)
Inductive JsonScalar (A : Type) : Type :=
| JError
| JNull
| JValue (a : A).
Arguments JError {A}.
Arguments JNull {A}.
Arguments JValue {A} a.

(** For a [[]string] target: an error met before anything is stored (bad
    syntax, or a value that is not an array), the JSON null, or an array,
    each element of which is a string ([JValue]), a null ([JNull]: the
    element is left alone) or a value of another type ([JError]: the
    element is left alone and the call ends with an error). *)
Inductive JsonStrings : Type :=
| JSError
| JSNull
| JSArray (elems : list (JsonScalar string)).

(** The decoder of [encoding/json] grows a slice that is full to this
    capacity before it stores one more element. *)
Definition growCap (c : nat) : nat := Nat.max 4 (c + c / 2).

(** [json.Unmarshal] at element [i] of an array, into the slice [v]: the
    slice is grown when [i] has reached its capacity (a new backing array
    with the elements copied), its length is raised to [i + 1] when [i] has
    reached it, and the element is decoded into [v[i]] in place. *)
Definition unmarshalElem (i : nat) (e : JsonScalar string)
    (hv : Store * StringSlice) : Store * StringSlice :=
  let '(h, v) := hv in
  let '(h, v) :=
    if decide (length (backing h v) ≤ i)%nat
    then (h ++ [elements h v
                ++ replicate (growCap (length (backing h v)) - slen v) ""%string],
          {| array := Some (length h); slen := slen v |})
    else (h, v) in
  let v := if decide (slen v ≤ i)%nat then {| array := array v; slen := S i |} else v in
  match e, array v with
  | JValue s, Some p => (<[p := <[i := s]> (backing h v)]> h, v)
  | _, _ => (h, v)
  end.

Fixpoint unmarshalElems (i : nat) (es : list (JsonScalar string))
    (hv : Store * StringSlice) : Store * StringSlice :=
  match es with
  | [] => hv
  | e :: es' => unmarshalElems (S i) es' (unmarshalElem i e hv)
  end.

(** [json.Unmarshal(body, &v)] for a [[]string] once the body is parsed:
    the store and the slice afterwards, and whether the error is nil.  The
    elements are decoded one after the other, the length is cut down to
    their number, and an empty array gives a fresh empty slice. *)
Definition unmarshalStrings (j : JsonStrings) (h : Store) (v : StringSlice)
    : Store * StringSlice * bool :=
  match j with
  | JSError => (h, v, false)
  | JSNull => (h, {| array := None; slen := 0 |}, true)
  | JSArray [] => (h ++ [[]], {| array := Some (length h); slen := 0 |}, true)
  | JSArray es =>
      let '(h', v') := unmarshalElems 0 es (h, v) in
      (h', {| array := array v'; slen := length es |},
       forallb (λ e, match e with JError => false | _ => true end) es)
  end.

(** ** The world of a request *)

(** Calls to the collaborators, as the handlers make them. *)
Inductive Call : Type :=
| CallGetTopic (name : string) (part : Z)
| CallGetTopicIgnPart (name : string)
| CallTopicPutMessage (t : Topic) (msg : Message)
| CallPutMessage (t : Topic) (body : list byte)
| CallPutMessages (t : Topic) (msgs : list Message)
| CallForwardPutMessage (name : string) (part : Z) (body : list byte)
| CallSetHealth (err : option string)
| CallSwapOpts (o : Options)
| CallTriggerOptsNotification.

Record World : Type := mkWorld {
  opts : Options;        (* the snapshot [getOpts()] returns *)
  store : Store;         (* the backing arrays of the slices *)
  consumed : nat;        (* bytes taken off [req.Body] *)
  buffersOut : Z;        (* buffers checked out of the buffer pool *)
  readersOut : Z;        (* readers checked out of the bufio pool *)
  calls : list Call      (* calls to the collaborators, oldest first *)
}.

(** Is this call a write to the local queue engine? *)
Definition isLocalPut (c : Call) : bool :=
  match c with
  | CallTopicPutMessage _ _ | CallPutMessage _ _ | CallPutMessages _ _ => true
  | _ => false
  end.

(** Is this call a forward to another node? *)
Definition isForward (c : Call) : bool :=
  match c with
  | CallForwardPutMessage _ _ _ => true
  | _ => false
  end.

(** ** The handler monad *)

Definition M (A : Type) : Type := World → Result A * World.

Definition ret {A : Type} (a : A) : M A := λ w, (Ok a, w).

Definition fail {A : Type} (e : Err) : M A := λ w, (Fail e, w).

Definition panic {A : Type} : M A := λ w, (Panic, w).

Definition bind {A B : Type} (m : M A) (k : A → M B) : M B :=
  λ w, match m w with
       | (Ok a, w') => k a w'
       | (Fail e, w') => (Fail e, w')
       | (Panic, w') => (Panic, w')
       end.

Notation "x <-- m ;; k" := (bind m (λ x, k))
  (at level 100, m at next level, right associativity, only parsing).

(** [defer f()]: [f] runs when the rest of the function is over, whatever
    the way it ends. *)
Definition defer {A : Type} (f : World → World) (rest : M A) : M A :=
  λ w, let '(r, w') := rest w in (r, f w').

(** An effect on the world that returns nothing. *)
Definition effect (f : World → World) : M unit := λ w, (Ok tt, f w).

Definition getOpts : M Options := λ w, (Ok (opts w), w).

Definition call (c : Call) : World → World :=
  λ w, {| opts := opts w; store := store w; consumed := consumed w;
          buffersOut := buffersOut w; readersOut := readersOut w;
          calls := calls w ++ [c] |}.

Definition consume (n : nat) : World → World :=
  λ w, {| opts := opts w; store := store w; consumed := (consumed w + n)%nat;
          buffersOut := buffersOut w; readersOut := readersOut w;
          calls := calls w |}.

(** [topic.BufferPoolGet(n)] and [topic.BufferPoolPut(b)]. *)
Definition BufferPoolGet : World → World :=
  λ w, {| opts := opts w; store := store w; consumed := consumed w;
          buffersOut := buffersOut w + 1; readersOut := readersOut w;
          calls := calls w |}.

Definition BufferPoolPut : World → World :=
  λ w, {| opts := opts w; store := store w; consumed := consumed w;
          buffersOut := buffersOut w - 1; readersOut := readersOut w;
          calls := calls w |}.

(** [nsqd.NewBufioReader(r)] and [nsqd.PutBufioReader(rdr)]. *)
Definition NewBufioReader : World → World :=
  λ w, {| opts := opts w; store := store w; consumed := consumed w;
          buffersOut := buffersOut w; readersOut := readersOut w + 1;
          calls := calls w |}.

Definition PutBufioReader : World → World :=
  λ w, {| opts := opts w; store := store w; consumed := consumed w;
          buffersOut := buffersOut w; readersOut := readersOut w - 1;
          calls := calls w |}.

(** [swapOpts(&o)]: the process-wide snapshot becomes [o]. *)
Definition swapOpts (o : Options) : World → World :=
  λ w, {| opts := o; store := store w; consumed := consumed w;
          buffersOut := buffersOut w; readersOut := readersOut w;
          calls := calls w ++ [CallSwapOpts o] |}.

(** A store written to without a swap. *)
Definition setStore (h : Store) : World → World :=
  λ w, {| opts := opts w; store := h; consumed := consumed w;
          buffersOut := buffersOut w; readersOut := readersOut w;
          calls := calls w |}.

(** ** Requests *)

(** [url.Values]. *)
Abbreviation Values := (gmap string (list string)).

(** [Values.Get(key)]: the first value of the key, or the empty string. *)
Definition Get (q : Values) (key : string) : string :=
  match q !! key with
  | Some (v :: _) => v
  | _ => ""%string
  end.

(** [httprouter.Params] and [ps.ByName(name)]. *)
Definition Params : Type := list (string * string).

Fixpoint ByName (ps : Params) (name : string) : string :=
  match ps with
  | [] => ""%string
  | (k, v) :: ps' => if decide (k = name) then v else ByName ps' name
  end.

(** A [*http.Request]: [ContentLength] is -1 when the length is not known,
    and [Query] is what [url.ParseQuery(req.URL.RawQuery)] returns ([None]
    when it fails). *)
Record Request : Type := mkRequest {
  Method : string;
  ContentLength : Z;
  Body : Reader;
  Query : option Values
}.

(** What the two packages ask of the rest of the process in the same way:
    statistics, health and start time, the rendering of [printStats] (left
    abstract: it depends on the clock), the [Options] struct as [reflect]
    lists it, and [json.Unmarshal] on the three writable options. *)
Record Common : Type := mkCommon {
  GetStats : list TopicStats;
  GetHealth : string;
  GetStartTime : Z;
  uptime : Z;
  versionBinary : string;
  renderStats : list TopicStats → string → Z → Z → list byte;
  OptionsType : list StructField;
  jsonStrings : list byte → JsonStrings;
  jsonBool : list byte → JsonScalar bool;
  jsonLogLevel : list byte → JsonScalar Z
}.

(** ** The text loop of [doMPUB] (the same in both files) *)

(** [if len(block) > 0 && block[len(block)-1] == '\n' { block = block[:len(block)-1] }]. *)
Definition chomp (block : list byte) : list byte :=
  if (0 <? len block) && bool_decide (last block = Some nl)
  then removelast block else block.

(** The body of the loop from [total += len(block)] on, for a block that
    [ReadBytes] returned: an error, or the total and the messages the next
    round starts with. *)
Definition mpubStep (maxMsgSize readMax : Z) (block : list byte)
    (total : Z) (msgs : list Message) : Err + Z * list Message :=
  let total := total + len block in
  if total =? readMax then inl (mkErr 413 "BODY_TOO_BIG")
  else
    let block := chomp block in
    (* silently discard 0 length messages *)
    if len block =? 0 then inr (total, msgs)
    else if maxMsgSize <? len block then inl (mkErr 413 "MSG_TOO_BIG")
    else inr (total, msgs ++ [NewMessage 0 block]).

(** [for !exit { ... }] over the blocks of the reader: first those that end
    in a newline, then the block read at the end of the stream, where an
    error other than [io.EOF] is an INTERNAL_ERROR and a clean end sets
    [exit]. *)
Fixpoint mpubLoop (maxMsgSize readMax : Z) (full : list (list byte))
    (rest : list byte) (e : Ending) (total : Z) (msgs : list Message)
    : Result (list Message) :=
  match full with
  | block :: full' =>
      match mpubStep maxMsgSize readMax block total msgs with
      | inl err => Fail err
      | inr (total', msgs') => mpubLoop maxMsgSize readMax full' rest e total' msgs'
      end
  | [] =>
      match e with
      | UnexpectedEnd | BrokenEnd => Fail (mkErr 500 "INTERNAL_ERROR")
      | CleanEnd =>
          match mpubStep maxMsgSize readMax rest total msgs with
          | inl err => Fail err
          | inr (_, msgs') => Ok msgs'
          end
      end
  end.

(** The loop started on a reader: the messages it leaves in [msgs] when it
    runs to its end, or the error it returns with. *)
Definition mpubDecode (maxMsgSize readMax : Z) (rdr : Reader) : Result (list Message) :=
  let '(full, rest) := ReadBytes (data rdr) in
  mpubLoop maxMsgSize readMax full rest (ending rdr) 0 [].

(** The [else] branch of [doMPUB], with what follows it in the function
    ([rest]): the loop on a pooled reader over
    [io.LimitReader(req.Body, readMax)]; the deferred [PutBufioReader] runs
    when the function returns.  The pooled reader reads ahead, so
    [consumed] is raised by all the bytes the limited reader holds: a bound
    on what is taken off the body when the loop stops early. *)
Definition mpubText {A : Type} (req : Request) (rest : list Message → M A) : M A :=
  o <-- getOpts ;;
  let readMax := int64 (MaxBodySize o + 1) in
  let rdr := LimitReader (Body req) readMax in
  _ <-- effect NewBufioReader ;;
  defer PutBufioReader
    (_ <-- effect (consume (length (data rdr))) ;;
     msgs <-- (λ w, (mpubDecode (MaxMsgSize o) readMax rdr, w)) ;;
     rest msgs).

(** ** [doStats] (the same in both files but for the parsing of the
    query, which is handed in) *)

(** The answer of [doStats]: the bytes of [printStats], or the struct that
    is encoded as JSON. *)
Inductive StatsReply : Type :=
| StatsText (text : list byte)
| StatsJSON (Version Health : string) (StartTime : Z) (Topics : list TopicStats).

(** [for _, channelStats := range topicStats.Channels]: the entry whose
    [Channels] is cut down to the first channel of that name, if there is
    one. *)
Fixpoint filterChannel (channelName : string) (cs : list ChannelStats)
    (topicStats : TopicStats) : TopicStats :=
  match cs with
  | [] => topicStats
  | channelStats :: cs' =>
      if decide (ChannelName channelStats = channelName)
      then setChannels topicStats [channelStats]
      else filterChannel channelName cs' topicStats
  end.

(** [for _, topicStats := range stats]: [stats] cut down to the first topic
    of that name, if there is one; [all] is the value [stats] keeps
    otherwise. *)
Fixpoint filterTopic (topicName channelName : string) (ts all : list TopicStats)
    : list TopicStats :=
  match ts with
  | [] => all
  | topicStats :: ts' =>
      if decide (TopicName topicStats = topicName)
      then
        let topicStats :=
          if decide (0 < String.length channelName)%nat
          then filterChannel channelName (Channels topicStats) topicStats
          else topicStats in
        [topicStats]
      else filterTopic topicName channelName ts' all
  end.

Definition doStats (c : Common) (reqParams : option Values) : M StatsReply :=
  match reqParams with
  | None => fail (mkErr 400 "INVALID_REQUEST")
  | Some reqParams =>
      let formatString := Get reqParams "format" in
      let topicName := Get reqParams "topic" in
      let channelName := Get reqParams "channel" in
      let jsonFormat := bool_decide (formatString = "json"%string) in
      let stats := GetStats c in
      let health := GetHealth c in
      let startTime := GetStartTime c in
      let stats :=
        if decide (0 < String.length topicName)%nat
        then filterTopic topicName channelName stats stats
        else stats in
      if negb jsonFormat
      then ret (StatsText (renderStats c stats health startTime (uptime c)))
      else ret (StatsJSON (versionBinary c) health startTime stats)
  end.

(** ** [getOptByCfgName] and [doConfig] (the same in both files) *)

(** [strings.Replace(s, "-", "_", -1)]. *)
Fixpoint dashesToUnderscores (s : string) : string :=
  match s with
  | EmptyString => EmptyString
  | String a s' =>
      String (if decide (a = "-"%char) then "_"%char else a) (dashesToUnderscores s')
  end.

(** The loop over the fields of the struct; [None] is the [false] of the
    second result. *)
Fixpoint getOptByCfgName (fields : list StructField) (o : Options) (name : string)
    : option Value :=
  match fields with
  | [] => None
  | field :: fields' =>
      let flagName := flagTag field in
      let cfgName := cfgTag field in
      if decide (flagName = ""%string) then getOptByCfgName fields' o name
      else
        let cfgName :=
          if decide (cfgName = ""%string) then dashesToUnderscores flagName
          else cfgName in
        if decide (name ≠ cfgName) then getOptByCfgName fields' o name
        else Some (Interface field o)
  end.

(** The [switch opt] of [doConfig] on the copy [opts := *s.ctx.getOpts()]:
    the copy after [json.Unmarshal], or INVALID_VALUE, or INVALID_OPTION.
    Decoding into [opts.NSQLookupdTCPAddresses] goes through the slice
    header of the copy into the store. *)
Definition unmarshalOption (c : Common) (opt : string) (body : list byte)
    (o : Options) : M Options :=
  if decide (opt = "nsqlookupd_tcp_addresses"%string) then
    λ w,
      let '(h, v, ok) :=
        unmarshalStrings (jsonStrings c body) (store w) (NSQLookupdTCPAddresses o) in
      if ok then (Ok (setNSQLookupdTCPAddresses o v), setStore h w)
      else (Fail (mkErr 400 "INVALID_VALUE"), setStore h w)
  else if decide (opt = "verbose"%string) then
    match jsonBool c body with
    | JError => fail (mkErr 400 "INVALID_VALUE")
    | JNull => ret o
    | JValue b => ret (setVerbose o b)
    end
  else if decide (opt = "log_level"%string) then
    match jsonLogLevel c body with
    | JError => fail (mkErr 400 "INVALID_VALUE")
    | JNull => ret o
    | JValue l => ret (setLogLevel o l)
    end
  else fail (mkErr 400 "INVALID_OPTION").

Definition doConfig (c : Common) (req : Request) (ps : Params) : M Value :=
  let opt := ByName ps "opt" in
  _ <-- (if decide (Method req = "PUT"%string) then
           o <-- getOpts ;;
           let readMax := int64 (MaxMsgSize o + 1) in
           let '(body, err) := ReadAll (LimitReader (Body req) readMax) in
           _ <-- effect (consume (length body)) ;;
           match err with
           | Some _ => fail (mkErr 500 "INTERNAL_ERROR")
           | None =>
               if (len body =? readMax) || (len body =? 0)
               then fail (mkErr 413 "INVALID_VALUE")
               else
                 opts <-- getOpts ;;
                 opts <-- unmarshalOption c opt body opts ;;
                 _ <-- effect (swapOpts opts) ;;
                 effect (call CallTriggerOptsNotification)
           end
         else ret tt) ;;
  o <-- getOpts ;;
  match getOptByCfgName (OptionsType c) o opt with
  | None => fail (mkErr 400 "INVALID_OPTION")
  | Some v => ret v
  end.

(** ** Responses written by [ServeHTTP] *)

(** The double quote. *)
Definition dq : string := String (ascii_of_nat 34) EmptyString.

(** [%d]. *)
Definition decimal (z : Z) : string := NilZero.string_of_int (Z.to_int z).

(** What [http_api.Respond(w, code, text, data)] is called with. *)
Record Response : Type := mkResponse {
  statusCode : Z;
  statusTxt : string;
  responseData : string
}.

(** The 413 that carries [Code[2:]] of the [FatalClientErr] that [readMPUB]
    returned; the slice expression panics on a code shorter than two bytes. *)
Definition fatalCode {A : Type} (code : string) : M A :=
  if decide (String.length code < 2)%nat then panic
  else fail (mkErr 413 (substring 2 (String.length code - 2) code)).

(** * Package [nsqd] *)
Module Nsqd.

(** What [readMPUB(req.Body, tmp, topic, maxMsgSize)] returns: the messages
    when the error is nil, the code of the [FatalClientErr] otherwise, and
    the number of bytes it took off the body. *)
Record MPUB : Type := mkMPUB {
  mpubMsgs : list Message;
  mpubErr : option string;
  mpubRead : nat
}.

(** [s.ctx.nsqd] and the helpers of the other packages.
    [http_api.NewReqParams], whose code is not part of these sources, is
    taken as the values it parses off the request; what it reads of the
    body on the way is not counted in [consumed], which follows the reads
    that the handlers make themselves. *)
Record context : Type := mkContext {
  common : Common;
  RealHTTPSAddrPort : Z;
  NewReqParams : Request → option Values;
  IsValidTopicName : string → bool;
  Atoi : string → option Z;
  GetTopicIgnPart : string → Topic;
  GetTopic : string → Z → Topic;
  PutMessage : Topic → Message → option string;
  PutMessages : Topic → list Message → option string;
  readMPUB : Reader → Topic → Z → MPUB
}.

Record httpServer : Type := mkServer {
  ctx : context;
  tlsEnabled : bool;
  tlsRequired : bool;
  router : Request → World → Response * World
}.

Definition ServeHTTP (s : httpServer) (req : Request) : World → Response * World :=
  if negb (tlsEnabled s) && tlsRequired s then
    let resp :=
      ("{" +:+ dq +:+ "message" +:+ dq +:+ ": " +:+ dq +:+ "TLS_REQUIRED" +:+ dq
       +:+ ", " +:+ dq +:+ "https_port" +:+ dq +:+ ": "
       +:+ decimal (RealHTTPSAddrPort (ctx s)) +:+ "}")%string in
    λ w, (mkResponse 403 "" resp, w)
  else router s req.

Definition getTopicFromQuery (s : httpServer) (req : Request) : M (Values * Topic) :=
  match Query req with
  | None => fail (mkErr 400 "INVALID_REQUEST")
  | Some reqParams =>
      match reqParams !! "topic"%string with
      | None => fail (mkErr 400 "MISSING_ARG_TOPIC")
      | Some [] => panic
      | Some (topicName :: _) =>
          if negb (IsValidTopicName (ctx s) topicName)
          then fail (mkErr 400 "INVALID_TOPIC")
          else
            match reqParams !! "partition"%string with
            | None =>
                _ <-- effect (call (CallGetTopicIgnPart topicName)) ;;
                ret (reqParams, GetTopicIgnPart (ctx s) topicName)
            | Some [] => panic
            | Some (part :: _) =>
                match Atoi (ctx s) part with
                | None => fail (mkErr 400 "INVALID_ARG_TOPIC_PARTITION")
                | Some topicPart =>
                    _ <-- effect (call (CallGetTopic topicName topicPart)) ;;
                    ret (reqParams, GetTopic (ctx s) topicName topicPart)
                end
            end
      end
  end.

Definition doPUB (s : httpServer) (req : Request) : M string :=
  o <-- getOpts ;;
  if MaxMsgSize o <? ContentLength req then fail (mkErr 413 "MSG_TOO_BIG")
  else
    o <-- getOpts ;;
    let readMax := int64 (MaxMsgSize o + 1) in
    let '(body, err) := ReadAll (LimitReader (Body req) readMax) in
    _ <-- effect (consume (length body)) ;;
    match err with
    | Some _ => fail (mkErr 500 "INTERNAL_ERROR")
    | None =>
        if len body =? readMax then fail (mkErr 413 "MSG_TOO_BIG")
        else if len body =? 0 then fail (mkErr 400 "MSG_EMPTY")
        else
          rt <-- getTopicFromQuery s req ;;
          let topic := rt.2 in
          let msg := NewMessage 0 body in
          _ <-- effect (call (CallTopicPutMessage topic msg)) ;;
          match PutMessage (ctx s) topic msg with
          | Some _ => fail (mkErr 503 "EXITING")
          | None => ret "OK"%string
          end
    end.

Definition doMPUB (s : httpServer) (req : Request) : M string :=
  o <-- getOpts ;;
  if MaxBodySize o <? ContentLength req then fail (mkErr 413 "BODY_TOO_BIG")
  else
    rt <-- getTopicFromQuery s req ;;
    let '(reqParams, topic) := rt in
    let commit (msgs : list Message) : M string :=
      _ <-- effect (call (CallPutMessages topic msgs)) ;;
      match PutMessages (ctx s) topic msgs with
      | Some _ => fail (mkErr 503 "EXITING")
      | None => ret "OK"%string
      end in
    if bool_decide (is_Some (reqParams !! "binary"%string)) then
      o <-- getOpts ;;
      let r := readMPUB (ctx s) (Body req) topic (MaxMsgSize o) in
      _ <-- effect (consume (mpubRead r)) ;;
      match mpubErr r with
      | Some code => fatalCode code
      | None => commit (mpubMsgs r)
      end
    else mpubText req commit.

Definition doStats (s : httpServer) (req : Request) : M StatsReply :=
  doStats (common (ctx s)) (NewReqParams (ctx s) req).

Definition doConfig (s : httpServer) (req : Request) (ps : Params) : M Value :=
  doConfig (common (ctx s)) req ps.

End Nsqd.

(** * Package [nsqdserver] *)
Module NsqdServer.

(** What [readMPUB(req.Body, tmp, topic, maxMsgSize)] returns: the
    messages, the buffers it hands over for release, the code of the
    [FatalClientErr] when the error is not nil; and what it did on the way:
    the number of buffers it took from [topic.BufferPoolGet] and the number
    of bytes it took off the body. *)
Record MPUB : Type := mkMPUB {
  mpubMsgs : list Message;
  mpubBuffers : list nat;
  mpubErr : option string;
  mpubLeased : nat;
  mpubRead : nat
}.

(** [s.ctx] and the helpers of the other packages. *)
Record context : Type := mkContext {
  common : Common;
  GetTopicPartitionArgs : Values → string * Z + string;
  getExistingTopic : string → Topic + string;
  checkForMasterWrite : Topic → bool;
  PutMessage : Topic → list byte → option string;
  forwardPutMessage : string → Z → list byte → option string;
  PutMessages : Topic → list Message → option string;
  readMPUB : Reader → Topic → Z → MPUB
}.

Record httpServer : Type := mkServer {
  ctx : context;
  tlsEnabled : bool;
  tlsRequired : bool;
  router : Request → World → Response * World
}.

Definition ServeHTTP (s : httpServer) (req : Request) : World → Response * World :=
  if negb (tlsEnabled s) && tlsRequired s then
    let resp :=
      ("{" +:+ dq +:+ "message" +:+ dq +:+ ": " +:+ dq +:+ "TLS_REQUIRED" +:+ dq
       +:+ "}")%string in
    λ w, (mkResponse 403 "" resp, w)
  else router s req.

Definition getExistingTopicFromQuery (s : httpServer) (req : Request)
    : M (Values * Topic) :=
  match Query req with
  | None => fail (mkErr 400 "INVALID_REQUEST")
  | Some reqParams =>
      match GetTopicPartitionArgs (ctx s) reqParams with
      | inr e => fail (mkErr 400 e)
      | inl (topicName, topicPart) =>
          match getExistingTopic (ctx s) topicName with
          | inr e => fail (mkErr 400 e)
          | inl topic =>
              if decide (topicPart ≠ GetTopicPart topic)
              then fail (mkErr 404 "Topic partition not exist")
              else ret (reqParams, topic)
          end
      end
  end.

Definition doPUB (s : httpServer) (req : Request) : M string :=
  o <-- getOpts ;;
  if MaxMsgSize o <? ContentLength req then fail (mkErr 413 "MSG_TOO_BIG")
  else if ContentLength req <=? 0 then fail (mkErr 400 "MSG_EMPTY")
  else
    rt <-- getExistingTopicFromQuery s req ;;
    let topic := rt.2 in
    let readMax := int64 (ContentLength req + 1) in
    _ <-- effect BufferPoolGet ;;
    defer BufferPoolPut
      (let rdr := LimitReader (Body req) readMax in
       let '(n, err) := ReadFull rdr (Z.to_nat (ContentLength req)) in
       _ <-- effect (consume n) ;;
       let body := take n (data rdr) in
       body <-- match err with
                | None => ret body
                | Some io_EOF | Some io_ErrUnexpectedEOF => ret body
                | Some io_other => fail (mkErr 500 "INTERNAL_ERROR")
                end ;;
       if len body =? 0 then fail (mkErr 400 "MSG_EMPTY")
       else
         _ <-- (if checkForMasterWrite (ctx s) topic then
                  _ <-- effect (call (CallPutMessage topic body)) ;;
                  match PutMessage (ctx s) topic body with
                  | Some e => fail (mkErr 503 e)
                  | None => ret tt
                  end
                else
                  (* forward to master of topic *)
                  _ <-- effect (call (CallForwardPutMessage (GetTopicName topic)
                                        (GetTopicPart topic) body)) ;;
                  match forwardPutMessage (ctx s) (GetTopicName topic)
                          (GetTopicPart topic) body with
                  | Some e => fail (mkErr 500 e)
                  | None => ret tt
                  end) ;;
         ret "OK"%string).

(** [for _, b := range buffers { topic.BufferPoolPut(b) }]. *)
Fixpoint putBuffers (buffers : list nat) (w : World) : World :=
  match buffers with
  | [] => w
  | _ :: buffers' => putBuffers buffers' (BufferPoolPut w)
  end.

(** The [BufferPoolGet] calls made inside [readMPUB]. *)
Fixpoint leaseBuffers (n : nat) (w : World) : World :=
  match n with
  | O => w
  | S n' => leaseBuffers n' (BufferPoolGet w)
  end.

Definition doMPUB (s : httpServer) (req : Request) : M string :=
  o <-- getOpts ;;
  if MaxBodySize o <? ContentLength req then fail (mkErr 413 "BODY_TOO_BIG")
  else
    rt <-- getExistingTopicFromQuery s req ;;
    let '(reqParams, topic) := rt in
    let commit (msgs : list Message) : M string :=
      _ <-- effect (call (CallPutMessages topic msgs)) ;;
      let err := PutMessages (ctx s) topic msgs in
      _ <-- effect (call (CallSetHealth err)) ;;
      match err with
      | Some _ => fail (mkErr 503 "EXITING")
      | None => ret "OK"%string
      end in
    if bool_decide (is_Some (reqParams !! "binary"%string)) then
      o <-- getOpts ;;
      let r := readMPUB (ctx s) (Body req) topic (MaxMsgSize o) in
      _ <-- effect (consume (mpubRead r)) ;;
      _ <-- effect (leaseBuffers (mpubLeased r)) ;;
      defer (putBuffers (mpubBuffers r))
        match mpubErr r with
        | Some code => fatalCode code
        | None => commit (mpubMsgs r)
        end
    else mpubText req commit.

Definition doStats (s : httpServer) (req : Request) : M StatsReply :=
  doStats (common (ctx s)) (Query req).

Definition doConfig (s : httpServer) (req : Request) (ps : Params) : M Value :=
  doConfig (common (ctx s)) req ps.

End NsqdServer.

(** * A concrete process, to run the handlers on *)
Module Example.

Definition lookupd : list string := ["10.0.0.1:4160"; "10.0.0.2:4160"]%string.

Definition options : Options :=
  {| MaxMsgSize := 1024; MaxBodySize := 5120;
     NSQLookupdTCPAddresses := {| array := Some 0%nat; slen := 2 |};
     Verbose := false; LogLevel := 2; BroadcastAddress := "10.0.0.9" |}.

Definition world : World :=
  {| opts := options; store := [lookupd]; consumed := 0; buffersOut := 0;
     readersOut := 0; calls := [] |}.

(** The same process with ceilings of one byte a message and two bytes a
    body. *)
Definition tight : World :=
  {| opts := {| MaxMsgSize := 1; MaxBodySize := 2;
                NSQLookupdTCPAddresses := {| array := Some 0%nat; slen := 2 |};
                Verbose := false; LogLevel := 2; BroadcastAddress := "10.0.0.9" |};
     store := [lookupd]; consumed := 0; buffersOut := 0; readersOut := 0;
     calls := [] |}.

Definition optionsType : list StructField :=
  [ mkField "Logger" "" "" (λ _, VString "");
    mkField "BroadcastAddress" "broadcast-address" "" (λ o, VString (BroadcastAddress o));
    mkField "NSQLookupdTCPAddresses" "lookupd-tcp-address" "nsqlookupd_tcp_addresses"
      (λ o, VStrings (NSQLookupdTCPAddresses o));
    mkField "MaxMsgSize" "max-msg-size" "" (λ o, VInt (MaxMsgSize o));
    mkField "MaxBodySize" "max-body-size" "" (λ o, VInt (MaxBodySize o));
    mkField "Verbose" "verbose" "" (λ o, VBool (Verbose o));
    mkField "LogLevel" "log-level" "" (λ o, VInt (LogLevel o)) ]%string.

(** Bodies of config requests. *)
Definition bodyTrue : list byte := ["t"; "r"; "u"; "e"]%byte.
Definition bodyThree : list byte := ["3"]%byte.
(** The JSON array of the one string [10.0.0.3:4160]. *)
Definition bodyOneAddress : list byte :=
  ["["; x22; "1"; "0"; "."; "0"; "."; "0"; "."; "3"; ":"; "4"; "1"; "6"; "0"; x22; "]"]%byte.
(** The JSON array of the string [10.0.0.3:4160] and the number 1. *)
Definition bodyAddressAndNumber : list byte :=
  ["["; x22; "1"; "0"; "."; "0"; "."; "0"; "."; "3"; ":"; "4"; "1"; "6"; "0"; x22;
   ","; "1"; "]"]%byte.

(** [json.Unmarshal] on the bodies above; every other body counts as
    malformed here. *)
Definition decodeStrings (body : list byte) : JsonStrings :=
  if decide (body = bodyOneAddress) then JSArray [JValue "10.0.0.3:4160"%string]
  else if decide (body = bodyAddressAndNumber)
       then JSArray [JValue "10.0.0.3:4160"%string; JError]
  else JSError.

Definition decodeBool (body : list byte) : JsonScalar bool :=
  if decide (body = bodyTrue) then JValue true else JError.

Definition decodeLogLevel (body : list byte) : JsonScalar Z :=
  if decide (body = bodyThree) then JValue 3 else JError.

Definition channel (name : string) (depth : Z) : ChannelStats :=
  {| ChannelName := name; ChannelDepth := depth; ChannelBackendDepth := 0;
     InFlightCount := 1; DeferredCount := 0; RequeueCount := 0; TimeoutCount := 0;
     ChannelMessageCount := depth; Paused := false; Clients := [];
     ChannelE2eProcessingLatency := "" |}.

Definition orders : TopicStats :=
  {| TopicName := "orders"; Channels := [channel "billing" 3; channel "audit" 5];
     Depth := 8; BackendDepth := 0; MessageCount := 20; E2eProcessingLatency := "" |}.

Definition clicks : TopicStats :=
  {| TopicName := "clicks"; Channels := [channel "audit" 1];
     Depth := 1; BackendDepth := 0; MessageCount := 7; E2eProcessingLatency := "" |}.

Definition common : Common :=
  {| GetStats := [orders; clicks]; GetHealth := "OK"; GetStartTime := 1460000000;
     uptime := 60; versionBinary := "0.3.7";
     renderStats := λ _ _ _ _, [];
     OptionsType := optionsType;
     jsonStrings := decodeStrings; jsonBool := decodeBool;
     jsonLogLevel := decodeLogLevel |}.

Definition topic : Topic := {| GetTopicName := "orders"; GetTopicPart := 0 |}.

Definition noResponse : Response := mkResponse 404 "" "".

(** A server of package [nsqd] whose engine accepts every write; plain
    HTTP while TLS is required. *)
Definition nsqd : Nsqd.httpServer :=
  {| Nsqd.ctx :=
       {| Nsqd.common := common; Nsqd.RealHTTPSAddrPort := 4152;
          Nsqd.NewReqParams := Query;
          Nsqd.IsValidTopicName := λ _, true;
          Nsqd.Atoi := λ _, Some 0;
          Nsqd.GetTopicIgnPart := λ name, mkTopic name 0;
          Nsqd.GetTopic := mkTopic;
          Nsqd.PutMessage := λ _ _, None;
          Nsqd.PutMessages := λ _ _, None;
          Nsqd.readMPUB := λ _ _ _, Nsqd.mkMPUB [] None 0 |};
     Nsqd.tlsEnabled := false; Nsqd.tlsRequired := true;
     Nsqd.router := λ _ w, (noResponse, w) |}.

(** A server of package [nsqdserver] that is not the master of [topic];
    its engine and the forwarding accept every write; plain HTTP while TLS
    is required. *)
Definition nsqdserver : NsqdServer.httpServer :=
  {| NsqdServer.ctx :=
       {| NsqdServer.common := common;
          NsqdServer.GetTopicPartitionArgs := λ q, inl (Get q "topic", 0);
          NsqdServer.getExistingTopic :=
            λ name, if decide (name = "orders"%string) then inl topic
                    else inr "topic not exist"%string;
          NsqdServer.checkForMasterWrite := λ _, false;
          NsqdServer.PutMessage := λ _ _, None;
          NsqdServer.forwardPutMessage := λ _ _ _, None;
          NsqdServer.PutMessages := λ _ _, None;
          NsqdServer.readMPUB :=
            λ _ _ _, NsqdServer.mkMPUB [NewMessage 0 ["a"%byte]] [0%nat] None 1 9 |};
     NsqdServer.tlsEnabled := false; NsqdServer.tlsRequired := true;
     NsqdServer.router := λ _ w, (noResponse, w) |}.

(** Requests on the topic [orders]. *)
Definition query : Values := {[ "topic"%string := ["orders"%string] ]}.

Definition post (declared : Z) (body : list byte) : Request :=
  {| Method := "POST"; ContentLength := declared;
     Body := {| data := body; ending := CleanEnd |}; Query := Some query |}.

Definition postBinary (declared : Z) (body : list byte) : Request :=
  {| Method := "POST"; ContentLength := declared;
     Body := {| data := body; ending := CleanEnd |};
     Query := Some (<[ "binary"%string := ["true"%string] ]> query) |}.

Definition put (body : list byte) : Request :=
  {| Method := "PUT"; ContentLength := len body;
     Body := {| data := body; ending := CleanEnd |}; Query := Some ∅ |}.

Definition get (q : Values) : Request :=
  {| Method := "GET"; ContentLength := 0;
     Body := {| data := []; ending := CleanEnd |}; Query := Some q |}.

End Example.

(** * Notions the statements use *)

(** The bytes taken off the request body between two worlds. *)
Definition bytesRead (w w' : World) : Z := Z.of_nat (consumed w') - Z.of_nat (consumed w).

(** The calls made between two worlds are [cs]. *)
Definition newCalls (w w' : World) (cs : list Call) : Prop := calls w' = calls w ++ cs.

(** An [int64] that is not negative. *)
Definition sizeOK (z : Z) : Prop := 0 ≤ z < 2 ^ 63.

(** The blocks the loop of [doMPUB] reads on a stream, in order. *)
Definition blocksOf (s : list byte) : list (list byte) :=
  let '(full, rest) := ReadBytes s in full ++ [rest].

(** The bytes in a list of blocks: the [total] of the loop after them. *)
Fixpoint totalLen (bs : list (list byte)) : Z :=
  match bs with
  | [] => 0
  | b :: bs' => len b + totalLen bs'
  end.

(** The rounds of the loop on a list of blocks. *)
Fixpoint runBlocks (maxMsgSize readMax : Z) (bs : list (list byte))
    (total : Z) (msgs : list Message) : Err + Z * list Message :=
  match bs with
  | [] => inr (total, msgs)
  | b :: bs' =>
      match mpubStep maxMsgSize readMax b total msgs with
      | inl err => inl err
      | inr (total', msgs') => runBlocks maxMsgSize readMax bs' total' msgs'
      end
  end.

(** The messages of a list of blocks: the chunks that are not empty. *)
Definition messagesOf (bs : list (list byte)) : list Message :=
  NewMessage 0 <$> filter (λ c, c ≠ []) (chomp <$> bs).

(** The text sub-format in the words of the specification: the body is cut
    at every newline, and the chunks that are not empty are the messages,
    in order. *)
Fixpoint chunks (s : list byte) : list (list byte) :=
  match s with
  | [] => [[]]
  | c :: s' =>
      if decide (c = nl) then [] :: chunks s'
      else match chunks s' with
           | [] => [[c]]
           | chunk :: cs => (c :: chunk) :: cs
           end
  end.

Definition textBatch (body : list byte) : list Message :=
  NewMessage 0 <$> filter (λ c, c ≠ []) (chunks body).

(** Does the text [s] contain [sub]? *)
Definition mentions (sub s : string) : bool :=
  match String.index 0 sub s with
  | Some _ => true
  | None => false
  end.

(** The first entry of a snapshot with a given topic name, and the first
    channel of an entry with a given channel name. *)
Definition findTopic (name : string) (stats : list TopicStats) : option TopicStats :=
  find (λ t, bool_decide (TopicName t = name)) stats.

Definition findChannel (name : string) (cs : list ChannelStats) : option ChannelStats :=
  find (λ c, bool_decide (ChannelName c = name)) cs.

(** The answer of [doStats] for a snapshot, in the encoding the query asks
    for. *)
Definition statsReply (c : Common) (q : Values) (topics : list TopicStats) : StatsReply :=
  if bool_decide (Get q "format" = "json"%string)
  then StatsJSON (versionBinary c) (GetHealth c) (GetStartTime c) topics
  else StatsText (renderStats c topics (GetHealth c) (GetStartTime c) (uptime c)).





(** * The topic and channel handlers

    These handlers read no body.  They look a topic or a channel up and ask
    the engine for one operation; what they ask of it is returned with the
    result, in the order of the calls. *)

(** The operations on the engine that change it. *)
Inductive Action : Type :=
| ActGetChannel (t : Topic) (channel : string)
| ActDeleteExistingChannel (t : Topic) (channel : string)
| ActPause (t : Topic) (channel : string)
| ActUnPause (t : Topic) (channel : string)
| ActEmpty (t : Topic)
| ActDeleteExistingTopic (name : string)
| ActLock
| ActPersistMetadata
| ActUnlock.

(** The answers of the engine and of [http_api] to these handlers.
    [GetTopicChannelArgs] and [GetTopicArg] read the arguments off a query,
    or return the text of their error.  [GetExistingTopic] is
    [s.ctx.nsqd.GetExistingTopic] of package [nsqd]; package [nsqdserver]
    asks [getExistingTopic] of its context.  [GetExistingChannel] tells
    whether [topic.GetExistingChannel] finds the channel.  The other fields
    are the error, if any, of the operation of that name on a channel of a
    topic, on a topic, or on the engine. *)
Record Engine : Type := mkEngine {
  GetTopicChannelArgs : Values → string * string + string;
  GetTopicArg : Values → string + string;
  GetExistingTopic : string → option Topic;
  GetExistingChannel : Topic → string → bool;
  DeleteExistingChannel : Topic → string → option string;
  Pause : Topic → string → option string;
  UnPause : Topic → string → option string;
  Empty : Topic → option string;
  DeleteExistingTopic : string → option string
}.

(** ** Package [nsqdserver] *)
Module NsqdServerAdmin.

Definition getExistingTopicChannelFromQuery (s : NsqdServer.httpServer) (e : Engine)
    (req : Request) : Result (Values * Topic * string) :=
  match Query req with
  | None => Fail (mkErr 400 "INVALID_REQUEST")
  | Some reqParams =>
      match GetTopicChannelArgs e reqParams with
      | inr err => Fail (mkErr 400 err)
      | inl (topicName, channelName) =>
          match NsqdServer.getExistingTopic (NsqdServer.ctx s) topicName with
          | inr _ => Fail (mkErr 404 "TOPIC_NOT_FOUND")
          | inl topic => Ok (reqParams, topic, channelName)
          end
      end
  end.

Definition doEmptyTopic (s : NsqdServer.httpServer) (e : Engine) (req : Request)
    : Result unit * list Action :=
  match Query req with
  | None => (Fail (mkErr 400 "INVALID_REQUEST"), [])
  | Some reqParams =>
      match GetTopicArg e reqParams with
      | inr err => (Fail (mkErr 400 err), [])
      | inl topicName =>
          match NsqdServer.getExistingTopic (NsqdServer.ctx s) topicName with
          | inr _ => (Fail (mkErr 404 "TOPIC_NOT_FOUND"), [])
          | inl topic =>
              match Empty e topic with
              | Some _ => (Fail (mkErr 500 "INTERNAL_ERROR"), [ActEmpty topic])
              | None => (Ok tt, [ActEmpty topic])
              end
          end
      end
  end.

Definition doDeleteTopic (s : NsqdServer.httpServer) (e : Engine) (req : Request)
    : Result unit * list Action :=
  match Query req with
  | None => (Fail (mkErr 400 "INVALID_REQUEST"), [])
  | Some reqParams =>
      match GetTopicArg e reqParams with
      | inr err => (Fail (mkErr 400 err), [])
      | inl topicName =>
          match DeleteExistingTopic e topicName with
          | Some _ => (Fail (mkErr 404 "TOPIC_NOT_FOUND"), [ActDeleteExistingTopic topicName])
          | None => (Ok tt, [ActDeleteExistingTopic topicName])
          end
      end
  end.

Definition doCreateChannel (s : NsqdServer.httpServer) (e : Engine) (req : Request)
    : Result unit * list Action :=
  match getExistingTopicChannelFromQuery s e req with
  | Fail err => (Fail err, [])
  | Panic => (Panic, [])
  | Ok (_, topic, channelName) => (Ok tt, [ActGetChannel topic channelName])
  end.

Definition doDeleteChannel (s : NsqdServer.httpServer) (e : Engine) (req : Request)
    : Result unit * list Action :=
  match getExistingTopicChannelFromQuery s e req with
  | Fail err => (Fail err, [])
  | Panic => (Panic, [])
  | Ok (_, topic, channelName) =>
      match DeleteExistingChannel e topic channelName with
      | Some _ => (Fail (mkErr 404 "CHANNEL_NOT_FOUND"),
                   [ActDeleteExistingChannel topic channelName])
      | None => (Ok tt, [ActDeleteExistingChannel topic channelName])
      end
  end.

(** [path] is [req.URL.Path]. *)
Definition doPauseChannel (s : NsqdServer.httpServer) (e : Engine) (req : Request)
    (path : string) : Result unit * list Action :=
  match getExistingTopicChannelFromQuery s e req with
  | Fail err => (Fail err, [])
  | Panic => (Panic, [])
  | Ok (_, topic, channelName) =>
      if negb (GetExistingChannel e topic channelName)
      then (Fail (mkErr 404 "CHANNEL_NOT_FOUND"), [])
      else
        let '(err, act) :=
          if mentions "unpause" path
          then (UnPause e topic channelName, ActUnPause topic channelName)
          else (Pause e topic channelName, ActPause topic channelName) in
        match err with
        | Some _ => (Fail (mkErr 500 "INTERNAL_ERROR"), [act])
        | None =>
            (* pro-actively persist metadata so in case of process failure *)
            (Ok tt, [act; ActPersistMetadata])
        end
  end.

End NsqdServerAdmin.

(** ** Package [nsqd] *)
Module NsqdAdmin.

Definition getExistingTopicFromQuery (s : Nsqd.httpServer) (e : Engine)
    (req : Request) : Result (Values * Topic * string) :=
  match Nsqd.NewReqParams (Nsqd.ctx s) req with
  | None => Fail (mkErr 400 "INVALID_REQUEST")
  | Some reqParams =>
      match GetTopicChannelArgs e reqParams with
      | inr err => Fail (mkErr 400 err)
      | inl (topicName, channelName) =>
          match GetExistingTopic e topicName with
          | None => Fail (mkErr 404 "TOPIC_NOT_FOUND")
          | Some topic => Ok (reqParams, topic, channelName)
          end
      end
  end.

(** [_, _, err := s.getTopicFromQuery(req); return nil, err]. *)
Definition doCreateTopic (s : Nsqd.httpServer) (req : Request) : M unit :=
  _ <-- Nsqd.getTopicFromQuery s req ;;
  ret tt.

Definition doEmptyTopic (s : Nsqd.httpServer) (e : Engine) (req : Request)
    : Result unit * list Action :=
  match Nsqd.NewReqParams (Nsqd.ctx s) req with
  | None => (Fail (mkErr 400 "INVALID_REQUEST"), [])
  | Some reqParams =>
      match reqParams !! "topic"%string with
      | None => (Fail (mkErr 400 "MISSING_ARG_TOPIC"), [])
      | Some [] => (Panic, [])
      | Some (topicName :: _) =>
          if negb (Nsqd.IsValidTopicName (Nsqd.ctx s) topicName)
          then (Fail (mkErr 400 "INVALID_TOPIC"), [])
          else
            match GetExistingTopic e topicName with
            | None => (Fail (mkErr 404 "TOPIC_NOT_FOUND"), [])
            | Some topic =>
                match Empty e topic with
                | Some _ => (Fail (mkErr 500 "INTERNAL_ERROR"), [ActEmpty topic])
                | None => (Ok tt, [ActEmpty topic])
                end
            end
      end
  end.

Definition doDeleteTopic (s : Nsqd.httpServer) (e : Engine) (req : Request)
    : Result unit * list Action :=
  match Nsqd.NewReqParams (Nsqd.ctx s) req with
  | None => (Fail (mkErr 400 "INVALID_REQUEST"), [])
  | Some reqParams =>
      match reqParams !! "topic"%string with
      | None => (Fail (mkErr 400 "MISSING_ARG_TOPIC"), [])
      | Some [] => (Panic, [])
      | Some (topicName :: _) =>
          match DeleteExistingTopic e topicName with
          | Some _ => (Fail (mkErr 404 "TOPIC_NOT_FOUND"), [ActDeleteExistingTopic topicName])
          | None => (Ok tt, [ActDeleteExistingTopic topicName])
          end
      end
  end.

Definition doCreateChannel (s : Nsqd.httpServer) (e : Engine) (req : Request)
    : Result unit * list Action :=
  match getExistingTopicFromQuery s e req with
  | Fail err => (Fail err, [])
  | Panic => (Panic, [])
  | Ok (_, topic, channelName) => (Ok tt, [ActGetChannel topic channelName])
  end.

Definition doDeleteChannel (s : Nsqd.httpServer) (e : Engine) (req : Request)
    : Result unit * list Action :=
  match getExistingTopicFromQuery s e req with
  | Fail err => (Fail err, [])
  | Panic => (Panic, [])
  | Ok (_, topic, channelName) =>
      match DeleteExistingChannel e topic channelName with
      | Some _ => (Fail (mkErr 404 "CHANNEL_NOT_FOUND"),
                   [ActDeleteExistingChannel topic channelName])
      | None => (Ok tt, [ActDeleteExistingChannel topic channelName])
      end
  end.

(** [path] is [req.URL.Path]. *)
Definition doPauseChannel (s : Nsqd.httpServer) (e : Engine) (req : Request)
    (path : string) : Result unit * list Action :=
  match getExistingTopicFromQuery s e req with
  | Fail err => (Fail err, [])
  | Panic => (Panic, [])
  | Ok (_, topic, channelName) =>
      if negb (GetExistingChannel e topic channelName)
      then (Fail (mkErr 404 "CHANNEL_NOT_FOUND"), [])
      else
        let '(err, act) :=
          if mentions "unpause" path
          then (UnPause e topic channelName, ActUnPause topic channelName)
          else (Pause e topic channelName, ActPause topic channelName) in
        match err with
        | Some _ => (Fail (mkErr 500 "INTERNAL_ERROR"), [act])
        | None =>
            (* pro-actively persist metadata so in case of process failure
               nsqd won't suddenly (un)pause a channel *)
            (Ok tt, [act; ActLock; ActPersistMetadata; ActUnlock])
        end
  end.

End NsqdAdmin.

(** ** More notions for the statements *)

(** A text body that carries the given payloads: each one followed by a
    newline. *)
Definition encodeText (bodies : list (list byte)) : list byte :=
  concat ((λ b, b ++ [nl]) <$> bodies).

(** The name under which [getOptByCfgName] knows a field that has a flag
    tag: its [cfg] tag, or its flag tag with underscores for dashes. *)
Definition cfgNameOf (field : StructField) : string :=
  if decide (cfgTag field = ""%string) then dashesToUnderscores (flagTag field)
  else cfgTag field.

(** Does the string contain the character? *)
Fixpoint hasChar (a : ascii) (s : string) : bool :=
  match s with
  | EmptyString => false
  | String b s' => bool_decide (a = b) || hasChar a s'
  end.


(** * Arithmetic and readers *)

Ltac run :=
  unfold bind, ret, fail, panic, effect, defer, getOpts, fatalCode in *; simpl in *.

Ltac zbool :=
  repeat match goal with
  | H : (_ =? _) = true |- _ => apply Z.eqb_eq in H
  | H : (_ =? _) = false |- _ => apply Z.eqb_neq in H
  | H : (_ <? _) = true |- _ => apply Z.ltb_lt in H
  | H : (_ <? _) = false |- _ => apply Z.ltb_ge in H
  | H : (_ <=? _) = true |- _ => apply Z.leb_le in H
  | H : (_ <=? _) = false |- _ => apply Z.leb_gt in H
  end.

Lemma int64_le z : 0 ≤ z → int64 z ≤ z.
Proof.
  intros Hz. unfold int64.
  assert (0 < 2 ^ 64) as Hpos by lia.
  pose proof (Z.mod_pos_bound (z + 2 ^ 63) (2 ^ 64) Hpos) as Hb.
  assert (0 ≤ z + 2 ^ 63) as Hnn by lia.
  pose proof (Z.mod_le (z + 2 ^ 63) (2 ^ 64) Hnn Hpos). lia.
Qed.

Lemma int64_small z : - 2 ^ 63 ≤ z < 2 ^ 63 → int64 z = z.
Proof.
  intros Hz. unfold int64. rewrite Z.mod_small; lia.
Qed.

Lemma int64_succ z :
  sizeOK z →
  int64 (z + 1) = z + 1 ∨ (int64 (z + 1) = - 2 ^ 63 ∧ z = 2 ^ 63 - 1).
Proof.
  unfold sizeOK. intros Hz. destruct (decide (z = 2 ^ 63 - 1)) as [->|Hne].
  - right. split; [reflexivity|lia].
  - left. apply int64_small. lia.
Qed.

Lemma ReadAll_empty r n :
  ReadAll (LimitReader r n) = ([], None) → take (Z.to_nat n) (data r) = [].
Proof.
  unfold ReadAll. simpl. congruence.
Qed.

(** * The decode of [doPUB] *)

Lemma nsqd_getTopicFromQuery_world s req w :
  (Nsqd.getTopicFromQuery s req w).2 = w ∨
  ∃ c, (Nsqd.getTopicFromQuery s req w).2 = call c w.
Proof.
  unfold Nsqd.getTopicFromQuery. run. repeat case_match; simpl; eauto.
Qed.

Lemma nsqd_getTopicFromQuery_consumed s req w :
  consumed (Nsqd.getTopicFromQuery s req w).2 = consumed w.
Proof.
  destruct (nsqd_getTopicFromQuery_world s req w) as [->|[c ->]]; reflexivity.
Qed.

Lemma nsqdserver_getExistingTopicFromQuery_world s req w :
  (NsqdServer.getExistingTopicFromQuery s req w).2 = w.
Proof.
  unfold NsqdServer.getExistingTopicFromQuery. run. repeat case_match; reflexivity.
Qed.

Lemma nsqd_doPUB_decode s req w :
  sizeOK (MaxMsgSize (opts w)) →
  let maxMsgSize := MaxMsgSize (opts w) in
  let '(r, w') := Nsqd.doPUB s req w in
  bytesRead w w' ≤ maxMsgSize + 1 ∧
  (bytesRead w w' = maxMsgSize + 1 →
     r = Fail (mkErr 413 "MSG_TOO_BIG") ∧ calls w' = calls w) ∧
  (ContentLength req ≤ maxMsgSize →
   ReadAll (LimitReader (Body req) (int64 (maxMsgSize + 1))) = ([], None) →
     r = Fail (mkErr 400 "MSG_EMPTY") ∧ calls w' = calls w).
Proof.
  intros HM. cbv zeta.
  assert (int64 (MaxMsgSize (opts w) + 1) ≤ MaxMsgSize (opts w) + 1) as Hle
    by (apply int64_le; unfold sizeOK in HM; lia).
  pose proof (int64_succ (MaxMsgSize (opts w)) HM) as Hsucc.
  unfold sizeOK in HM. unfold Nsqd.doPUB, bytesRead. run.
  destruct (MaxMsgSize (opts w) <? ContentLength req) eqn:Hcl; simpl.
  { split; [lia|]. split; [lia|]. intros; lia. }
  set (readMax := int64 (MaxMsgSize (opts w) + 1)) in *. clearbody readMax.
  set (body := take (Z.to_nat readMax) (data (Body req))).
  assert (Hbody : len body ≤ Z.max 0 readMax).
  { unfold len, body. rewrite length_take. lia. }
  assert (Hra : ∀ e, ReadAll (LimitReader (Body req) readMax) = ([], e) → len body = 0).
  { intros e He. unfold ReadAll in He. simpl in He. injection He as He _.
    fold body in He. rewrite He. reflexivity. }
  unfold len in Hbody.
  destruct (if len (data (Body req)) <? readMax then ending (Body req) else CleanEnd)
    eqn:Hend; simpl.
  2,3: (split; [lia|]; split;
        [intros Heq; exfalso;
         assert ((len (data (Body req)) <? readMax) = true) as Hlt
           by (destruct (len (data (Body req)) <? readMax); congruence);
         apply Z.ltb_lt in Hlt; unfold len, body in *; rewrite length_take in Heq; lia
        |intros _ He; unfold ReadAll in He; simpl in He; rewrite Hend in He; congruence]).
  destruct (len body =? readMax) eqn:Hfull; simpl.
  { split; [lia|]. split; [auto|]. intros _ He. apply Hra in He.
    apply Z.eqb_eq in Hfull. lia. }
  apply Z.eqb_neq in Hfull. unfold len in Hfull.
  destruct (len body =? 0) eqn:Hzero; simpl.
  { split; [lia|]. split; [intros; lia|]. auto. }
  apply Z.eqb_neq in Hzero.
  match goal with |- context [Nsqd.getTopicFromQuery s req ?w0] =>
    pose proof (nsqd_getTopicFromQuery_consumed s req w0) as Hc;
    destruct (Nsqd.getTopicFromQuery s req w0) as [[rt|e|] w1] end; simpl in *;
    [destruct (Nsqd.PutMessage _ _ _); simpl| |]; rewrite Hc;
    (split; [lia|]; split; [intros; lia|]);
    intros _ He; apply Hra in He; lia.
Qed.




(** * The text loop of [doMPUB] *)

Lemma mpubText_run {A} (req : Request) (rest : list Message → M A) (w : World) :
  mpubText req rest w =
  let readMax := int64 (MaxBodySize (opts w) + 1) in
  let rdr := LimitReader (Body req) readMax in
  let w1 := consume (length (data rdr)) (NewBufioReader w) in
  match mpubDecode (MaxMsgSize (opts w)) readMax rdr with
  | Ok msgs => let '(r, w2) := rest msgs w1 in (r, PutBufioReader w2)
  | Fail e => (Fail e, PutBufioReader w1)
  | Panic => (Panic, PutBufioReader w1)
  end.
Proof.
  unfold mpubText. run. destruct (mpubDecode _ _ _); reflexivity.
Qed.

Lemma chomp_line (chunk : list byte) : chomp (chunk ++ [nl]) = chunk.
Proof.
  unfold chomp. rewrite last_snoc, removelast_last.
  rewrite bool_decide_eq_true_2 by reflexivity.
  unfold len. rewrite length_app. simpl.
  destruct (0 <? Z.of_nat (length chunk + 1)) eqn:E; [reflexivity|]. zbool. lia.
Qed.

Lemma chomp_nil : chomp [] = [].
Proof. reflexivity. Qed.

Lemma chomp_other (block : list byte) : last block ≠ Some nl → chomp block = block.
Proof.
  intros H. unfold chomp. rewrite bool_decide_eq_false_2 by exact H.
  rewrite andb_false_r. reflexivity.
Qed.

Lemma mpubStep_skip maxMsgSize readMax block total msgs :
  total + len block ≠ readMax → chomp block = [] →
  mpubStep maxMsgSize readMax block total msgs = inr (total + len block, msgs).
Proof.
  intros Hne Hc. unfold mpubStep. rewrite Hc.
  destruct (total + len block =? readMax) eqn:E; zbool; [lia|]. reflexivity.
Qed.

Lemma mpubStep_message maxMsgSize readMax block total msgs :
  total + len block ≠ readMax → chomp block ≠ [] → len (chomp block) ≤ maxMsgSize →
  mpubStep maxMsgSize readMax block total msgs
  = inr (total + len block, msgs ++ [NewMessage 0 (chomp block)]).
Proof.
  intros Hne Hc Hfit. unfold mpubStep.
  destruct (total + len block =? readMax) eqn:E; zbool; [lia|].
  destruct (len (chomp block) =? 0) eqn:E0; zbool.
  { destruct (chomp block); [congruence|]. unfold len in E0. simpl in E0. lia. }
  destruct (maxMsgSize <? len (chomp block)) eqn:E1; zbool; [lia|]. reflexivity.
Qed.

Lemma LimitReader_all (r : Reader) (n : Z) :
  len (data r) < n → LimitReader r n = r.
Proof.
  intros H. unfold LimitReader, len in *. destruct r as [d e]; simpl in *.
  rewrite take_ge by lia. destruct (_ <? n) eqn:E; zbool; [reflexivity|lia].
Qed.

Lemma len_nonneg {A} (l : list A) : 0 ≤ len l.
Proof. unfold len. lia. Qed.

Lemma totalLen_nonneg bs : 0 ≤ totalLen bs.
Proof. induction bs as [|b bs IH]; simpl; [lia|]. pose proof (len_nonneg b). lia. Qed.

Lemma totalLen_app bs1 bs2 : totalLen (bs1 ++ bs2) = totalLen bs1 + totalLen bs2.
Proof. induction bs1 as [|b bs1 IH]; simpl; lia. Qed.

Lemma messagesOf_cons_skip b bs : chomp b = [] → messagesOf (b :: bs) = messagesOf bs.
Proof.
  intros H. unfold messagesOf. rewrite fmap_cons, H.
  rewrite filter_cons_False by (intros Hn; apply Hn; reflexivity). reflexivity.
Qed.

Lemma messagesOf_cons_message b bs :
  chomp b ≠ [] → messagesOf (b :: bs) = NewMessage 0 (chomp b) :: messagesOf bs.
Proof.
  intros H. unfold messagesOf. rewrite fmap_cons.
  rewrite filter_cons_True by exact H. reflexivity.
Qed.

Lemma mpubStep_cases maxMsgSize readMax block total msgs :
  mpubStep maxMsgSize readMax block total msgs =
  if decide (total + len block = readMax) then inl (mkErr 413 "BODY_TOO_BIG")
  else if decide (chomp block = []) then inr (total + len block, msgs)
  else if decide (maxMsgSize < len (chomp block)) then inl (mkErr 413 "MSG_TOO_BIG")
  else inr (total + len block, msgs ++ [NewMessage 0 (chomp block)]).
Proof.
  unfold mpubStep.
  destruct (total + len block =? readMax) eqn:E; zbool;
    destruct (decide (total + len block = readMax)); try lia; try reflexivity.
  destruct (len (chomp block) =? 0) eqn:E0; zbool;
    destruct (decide (chomp block = [])) as [Hc|Hc]; try reflexivity.
  - destruct (chomp block); [congruence|]. unfold len in E0. simpl in E0. lia.
  - rewrite Hc in E0. unfold len in E0. simpl in E0. lia.
  - destruct (maxMsgSize <? len (chomp block)) eqn:E1; zbool;
      destruct (decide (maxMsgSize < len (chomp block))); try lia; reflexivity.
Qed.

Lemma runBlocks_app maxMsgSize readMax bs1 bs2 total msgs :
  runBlocks maxMsgSize readMax (bs1 ++ bs2) total msgs =
  match runBlocks maxMsgSize readMax bs1 total msgs with
  | inl err => inl err
  | inr (t, m) => runBlocks maxMsgSize readMax bs2 t m
  end.
Proof.
  revert total msgs. induction bs1 as [|b bs1 IH]; intros total msgs; simpl; [reflexivity|].
  destruct (mpubStep _ _ _ _ _) as [err|[t m]]; [reflexivity|]. apply IH.
Qed.

Lemma mpubLoop_runBlocks maxMsgSize readMax full rest e total msgs :
  mpubLoop maxMsgSize readMax full rest e total msgs =
  match runBlocks maxMsgSize readMax full total msgs with
  | inl err => Fail err
  | inr (t, m) =>
      match e with
      | UnexpectedEnd | BrokenEnd => Fail (mkErr 500 "INTERNAL_ERROR")
      | CleanEnd =>
          match mpubStep maxMsgSize readMax rest t m with
          | inl err => Fail err
          | inr (_, m') => Ok m'
          end
      end
  end.
Proof.
  revert total msgs. induction full as [|b full IH]; intros total msgs; simpl; [reflexivity|].
  destruct (mpubStep _ _ b _ _) as [err|[t m]]; [reflexivity|]. apply IH.
Qed.

(** Blocks that fit run through, unless the total reaches [readMax]. *)
Lemma runBlocks_fits maxMsgSize readMax bs total msgs :
  Forall (λ b, len (chomp b) ≤ maxMsgSize) bs →
  runBlocks maxMsgSize readMax bs total msgs = inl (mkErr 413 "BODY_TOO_BIG") ∨
  runBlocks maxMsgSize readMax bs total msgs
    = inr (total + totalLen bs, msgs ++ messagesOf bs).
Proof.
  intros Hfit. revert total msgs.
  induction Hfit as [|b bs Hb Hbs IH]; intros total msgs; simpl.
  { right. unfold messagesOf. simpl. rewrite app_nil_r. f_equal. f_equal. lia. }
  rewrite mpubStep_cases. repeat case_decide; try lia; auto.
  - destruct (IH (total + len b) msgs) as [->| ->]; [auto|right].
    rewrite messagesOf_cons_skip by assumption. f_equal. f_equal. lia.
  - destruct (IH (total + len b) (msgs ++ [NewMessage 0 (chomp b)])) as [->| ->]; [auto|right].
    rewrite messagesOf_cons_message by assumption. rewrite <- app_assoc. simpl.
    f_equal. f_equal. lia.
Qed.

Lemma runBlocks_below maxMsgSize readMax bs total msgs :
  Forall (λ b, len (chomp b) ≤ maxMsgSize) bs →
  total + totalLen bs < readMax →
  runBlocks maxMsgSize readMax bs total msgs
    = inr (total + totalLen bs, msgs ++ messagesOf bs).
Proof.
  intros Hfit. revert total msgs.
  induction Hfit as [|b bs Hb Hbs IH]; intros total msgs Hlt; simpl in *.
  { unfold messagesOf. simpl. rewrite app_nil_r. f_equal. f_equal. lia. }
  pose proof (totalLen_nonneg bs). pose proof (len_nonneg b).
  rewrite mpubStep_cases. repeat case_decide; try lia.
  - rewrite IH by lia. rewrite messagesOf_cons_skip by assumption. f_equal. f_equal. lia.
  - rewrite IH by lia. rewrite messagesOf_cons_message by assumption.
    rewrite <- app_assoc. simpl. f_equal. f_equal. lia.
Qed.

Lemma ReadBytes_length s :
  totalLen (blocksOf s) = len s.
Proof.
  unfold blocksOf. induction s as [|c s IH]; simpl; [reflexivity|].
  destruct (ReadBytes s) as [full rest]. case_decide.
  - simpl in *. unfold len in *. simpl. lia.
  - destruct full as [|b full]; simpl in *; unfold len in *; simpl in *; lia.
Qed.

Lemma blocksOf_split s pre block post :
  blocksOf s = pre ++ block :: post →
  let '(full, rest) := ReadBytes s in
  (post = [] ∧ full = pre ∧ rest = block) ∨
  (∃ post', post = post' ++ [rest] ∧ full = pre ++ block :: post').
Proof.
  unfold blocksOf. destruct (ReadBytes s) as [full rest]. intros H.
  destruct post as [|x post _] using rev_ind.
  - left. change (pre ++ [block]) with (pre ++ [block]) in H.
    apply app_inj_tail in H as [-> ->]. auto.
  - right. exists post.
    replace (pre ++ block :: post ++ [x]) with ((pre ++ block :: post) ++ [x]) in H
      by (rewrite <- app_assoc; reflexivity).
    apply app_inj_tail in H as [-> ->]. auto.
Qed.

(** The loop fails at a block as soon as the round on it fails. *)
Lemma mpubDecode_fails_at maxMsgSize readMax rdr pre block post t m err :
  blocksOf (data rdr) = pre ++ block :: post →
  runBlocks maxMsgSize readMax pre 0 [] = inr (t, m) →
  mpubStep maxMsgSize readMax block t m = inl err →
  (post = [] → ending rdr = CleanEnd) →
  mpubDecode maxMsgSize readMax rdr = Fail err.
Proof.
  intros Hsplit Hpre Hstep Hend. apply blocksOf_split in Hsplit.
  unfold mpubDecode. destruct (ReadBytes (data rdr)) as [full rest].
  rewrite mpubLoop_runBlocks.
  destruct Hsplit as [(Hpost & -> & ->)|(post' & -> & ->)].
  - rewrite Hpre, (Hend Hpost), Hstep. reflexivity.
  - rewrite runBlocks_app, Hpre. simpl. rewrite Hstep. reflexivity.
Qed.

Lemma mpubDecode_fails_before maxMsgSize readMax rdr pre block post err :
  blocksOf (data rdr) = pre ++ block :: post →
  runBlocks maxMsgSize readMax pre 0 [] = inl err →
  mpubDecode maxMsgSize readMax rdr = Fail err.
Proof.
  intros Hsplit Hpre. apply blocksOf_split in Hsplit.
  unfold mpubDecode. destruct (ReadBytes (data rdr)) as [full rest].
  rewrite mpubLoop_runBlocks.
  destruct Hsplit as [(Hpost & -> & ->)|(post' & -> & ->)].
  - rewrite Hpre. reflexivity.
  - rewrite runBlocks_app, Hpre. reflexivity.
Qed.

Lemma chomp_nonempty block : chomp block ≠ [] → 1 ≤ len block.
Proof.
  intros H. destruct block as [|c block]; [contradiction|]. unfold len. simpl. lia.
Qed.

(** On the limited reader the total reaches [readMax] only at the fake
    EOF, and never goes beyond it. *)
Lemma limited_total body readMax pre block post :
  blocksOf (data (LimitReader body readMax)) = pre ++ block :: post →
  totalLen (pre ++ [block]) ≤ Z.max 0 readMax ∧
  (totalLen (pre ++ [block]) = readMax →
   ending (LimitReader body readMax) = CleanEnd).
Proof.
  intros Hsplit.
  pose proof (ReadBytes_length (data (LimitReader body readMax))) as Hlen.
  rewrite Hsplit in Hlen.
  replace (pre ++ block :: post) with ((pre ++ [block]) ++ post) in Hlen
    by (rewrite <- app_assoc; reflexivity).
  rewrite totalLen_app in Hlen. pose proof (totalLen_nonneg post) as Hpost.
  assert (Hcap : len (data (LimitReader body readMax))
                 = Z.min (Z.max 0 readMax) (len (data body))).
  { simpl. unfold len. rewrite length_take. lia. }
  split; [lia|]. intros Heq. simpl.
  pose proof (totalLen_nonneg (pre ++ [block])).
  destruct (len (data body) <? readMax) eqn:E; [|reflexivity]. zbool. lia.
Qed.

(** The decode of the text sub-format at the block [block], the blocks
    before it being within the message ceiling: the body check comes first,
    the message check second. *)
Lemma mpubDecode_size_errors maxMsgSize readMax body pre block post :
  let rdr := LimitReader body readMax in
  let total := totalLen (pre ++ [block]) in
  blocksOf (data rdr) = pre ++ block :: post →
  Forall (λ b, len (chomp b) ≤ maxMsgSize) pre →
  (total = readMax →
     mpubDecode maxMsgSize readMax rdr = Fail (mkErr 413 "BODY_TOO_BIG")) ∧
  (total ≠ readMax → chomp block ≠ [] → maxMsgSize < len (chomp block) →
   (post = [] → ending rdr = CleanEnd) →
     mpubDecode maxMsgSize readMax rdr = Fail (mkErr 413 "MSG_TOO_BIG")).
Proof.
  intros rdr total Hsplit Hfit.
  destruct (limited_total body readMax pre block post Hsplit) as [Hle Hend].
  fold rdr in Hend. fold total in Hle, Hend.
  assert (Htot : total = totalLen pre + len block).
  { unfold total. rewrite totalLen_app. simpl. lia. }
  pose proof (totalLen_nonneg pre) as Hpre0. pose proof (len_nonneg block) as Hb0.
  split.
  - intros Heq.
    destruct (runBlocks_fits maxMsgSize readMax pre 0 [] Hfit) as [Hrun|Hrun].
    + eapply mpubDecode_fails_before; eauto.
    + eapply mpubDecode_fails_at; eauto.
      rewrite mpubStep_cases. rewrite decide_True by lia. reflexivity.
  - intros Hne Hchunk Hbig Hclean. pose proof (chomp_nonempty block Hchunk).
    eapply mpubDecode_fails_at; eauto.
    + apply runBlocks_below; [assumption|lia].
    + rewrite mpubStep_cases. rewrite decide_False by lia.
      rewrite decide_False by assumption. rewrite decide_True by lia. reflexivity.
Qed.

(** What [doMPUB] does in text mode once the topic is found: it fails with
    the error of the decode, having made no call in between, or goes on to
    the put with the messages of the decode. *)
Lemma nsqdserver_doMPUB_text s req w q t :
  ContentLength req ≤ MaxBodySize (opts w) →
  NsqdServer.getExistingTopicFromQuery s req w = (Ok (q, t), w) →
  q !! "binary"%string = None →
  let readMax := int64 (MaxBodySize (opts w) + 1) in
  let rdr := LimitReader (Body req) readMax in
  let w1 := PutBufioReader (consume (length (data rdr)) (NewBufioReader w)) in
  NsqdServer.doMPUB s req w =
  match mpubDecode (MaxMsgSize (opts w)) readMax rdr with
  | Ok msgs =>
      let err := NsqdServer.PutMessages (NsqdServer.ctx s) t msgs in
      (match err with Some _ => Fail (mkErr 503 "EXITING") | None => Ok "OK"%string end,
       call (CallSetHealth err) (call (CallPutMessages t msgs) w1))
  | Fail e => (Fail e, w1)
  | Panic => (Panic, w1)
  end.
Proof.
  intros Hcl Htopic Hbin. cbv zeta. unfold NsqdServer.doMPUB.
  unfold bind at 1. unfold getOpts at 1.
  destruct (MaxBodySize (opts w) <? ContentLength req) eqn:E; zbool; [lia|].
  unfold bind at 1. rewrite Htopic. rewrite Hbin.
  rewrite bool_decide_eq_false_2 by (intros [x Hx]; discriminate).
  rewrite mpubText_run. cbv zeta.
  destruct (mpubDecode _ _ _) as [msgs|e|]; try reflexivity.
  run. destruct (NsqdServer.PutMessages _ _ _); reflexivity.
Qed.

Lemma nsqd_doMPUB_text s req w w1 q t :
  ContentLength req ≤ MaxBodySize (opts w) →
  Nsqd.getTopicFromQuery s req w = (Ok (q, t), w1) →
  q !! "binary"%string = None →
  let readMax := int64 (MaxBodySize (opts w) + 1) in
  let rdr := LimitReader (Body req) readMax in
  let w2 := PutBufioReader (consume (length (data rdr)) (NewBufioReader w1)) in
  Nsqd.doMPUB s req w =
  match mpubDecode (MaxMsgSize (opts w)) readMax rdr with
  | Ok msgs =>
      (match Nsqd.PutMessages (Nsqd.ctx s) t msgs with
       | Some _ => Fail (mkErr 503 "EXITING")
       | None => Ok "OK"%string
       end,
       call (CallPutMessages t msgs) w2)
  | Fail e => (Fail e, w2)
  | Panic => (Panic, w2)
  end.
Proof.
  intros Hcl Htopic Hbin. cbv zeta. unfold Nsqd.doMPUB.
  unfold bind at 1. unfold getOpts at 1.
  destruct (MaxBodySize (opts w) <? ContentLength req) eqn:E; zbool; [lia|].
  unfold bind at 1. rewrite Htopic. rewrite Hbin.
  rewrite bool_decide_eq_false_2 by (intros [x Hx]; discriminate).
  rewrite mpubText_run. cbv zeta.
  assert (Hopts : opts w1 = opts w).
  { pose proof (nsqd_getTopicFromQuery_world s req w) as Hw. rewrite Htopic in Hw.
    simpl in Hw. destruct Hw as [->|[c ->]]; reflexivity. }
  rewrite Hopts.
  destruct (mpubDecode _ _ _) as [msgs|e|]; try reflexivity.
  run. destruct (Nsqd.PutMessages _ _ _); reflexivity.
Qed.

(** C4, as the code has it.  A batch publish in the text sub-format (no
    [binary] argument) whose declared length is within [MaxBodySize] and
    whose topic lookup succeeds stops at the first block that fails a check.
    So take a block such that the chunk of every block before it is within
    [MaxMsgSize].  When the bytes read up to and including the block reach
    exactly [MaxBodySize + 1], [doMPUB] fails with BODY_TOO_BIG, whatever
    the size of the chunk; when they do not, the chunk is not empty and
    exceeds [MaxMsgSize] (and the stream did not break on it), [doMPUB]
    fails with MSG_TOO_BIG.  In either case no call follows the topic
    lookup: nothing of the batch is put to the engine. *)
Theorem doMPUB_text_size_errors
    (new : NsqdServer.httpServer) (old : Nsqd.httpServer) (req : Request) (w : World)
    (pre : list (list byte)) (block : list byte) (post : list (list byte)) :
  let maxMsgSize := MaxMsgSize (opts w) in
  let readMax := int64 (MaxBodySize (opts w) + 1) in
  let rdr := LimitReader (Body req) readMax in
  let total := totalLen (pre ++ [block]) in
  ContentLength req ≤ MaxBodySize (opts w) →
  blocksOf (data rdr) = pre ++ block :: post →
  Forall (λ b, len (chomp b) ≤ maxMsgSize) pre →
  ∀ e : Err,
    (total = readMax ∧ e = mkErr 413 "BODY_TOO_BIG") ∨
    (total ≠ readMax ∧ chomp block ≠ [] ∧ maxMsgSize < len (chomp block) ∧
     (post = [] → ending rdr = CleanEnd) ∧ e = mkErr 413 "MSG_TOO_BIG") →
    (∀ q t,
       NsqdServer.getExistingTopicFromQuery new req w = (Ok (q, t), w) →
       q !! "binary"%string = None →
       ∃ w', NsqdServer.doMPUB new req w = (Fail e, w') ∧ calls w' = calls w) ∧
    (∀ q t w1,
       Nsqd.getTopicFromQuery old req w = (Ok (q, t), w1) →
       q !! "binary"%string = None →
       ∃ w', Nsqd.doMPUB old req w = (Fail e, w') ∧ calls w' = calls w1).
Proof.
  intros maxMsgSize readMax rdr total Hcl Hsplit Hfit e Hcase.
  assert (Hdec : mpubDecode maxMsgSize readMax rdr = Fail e).
  { destruct (mpubDecode_size_errors maxMsgSize readMax (Body req) pre block post
                Hsplit Hfit) as [Hbody Hmsg].
    destruct Hcase as [[Heq ->]|(Hne & Hchunk & Hbig & Hclean & ->)]; auto. }
  split.
  - intros q t Htopic Hbin.
    rewrite (nsqdserver_doMPUB_text new req w q t Hcl Htopic Hbin). cbv zeta.
    fold readMax rdr maxMsgSize. rewrite Hdec. eexists; split; reflexivity.
  - intros q t w1 Htopic Hbin.
    rewrite (nsqd_doMPUB_text old req w w1 q t Hcl Htopic Hbin). cbv zeta.
    fold readMax rdr maxMsgSize. rewrite Hdec. eexists; split; reflexivity.
Qed.

Lemma doMPUB_text_size_errors_witness :
  let w := Example.tight in
  let req := Example.post (-1) ["a"; "b"]%byte in
  let req3 := Example.post (-1) ["a"; nl; "b"]%byte in
  ContentLength req ≤ MaxBodySize (opts w) ∧
  blocksOf (data (LimitReader (Body req) (int64 (MaxBodySize (opts w) + 1))))
    = [] ++ ["a"; "b"]%byte :: [] ∧
  Forall (λ b, len (chomp b) ≤ MaxMsgSize (opts w)) [] ∧
  (NsqdServer.doMPUB Example.nsqdserver req w).1 = Fail (mkErr 413 "MSG_TOO_BIG") ∧
  (Nsqd.doMPUB Example.nsqd req w).1 = Fail (mkErr 413 "MSG_TOO_BIG") ∧
  (NsqdServer.doMPUB Example.nsqdserver req3 w).1 = Fail (mkErr 413 "BODY_TOO_BIG").
Proof.
  intros w req req3.
  assert (Hbody : (NsqdServer.doMPUB Example.nsqdserver req3 w).1
                  = Fail (mkErr 413 "BODY_TOO_BIG")).
  { assert (Hcl3 : ContentLength req3 ≤ MaxBodySize (opts w)) by (vm_compute; discriminate).
    assert (Hsplit3 : blocksOf (data (LimitReader (Body req3)
                                        (int64 (MaxBodySize (opts w) + 1))))
                      = [["a"%byte; nl]] ++ ["b"%byte] :: []) by (vm_compute; reflexivity).
    assert (Hfit3 : Forall (λ b, len (chomp b) ≤ MaxMsgSize (opts w)) [["a"%byte; nl]])
      by (repeat constructor; vm_compute; discriminate).
    destruct (doMPUB_text_size_errors Example.nsqdserver Example.nsqd req3 w
                [["a"%byte; nl]] ["b"%byte] [] Hcl3 Hsplit3 Hfit3
                (mkErr 413 "BODY_TOO_BIG")) as [Hnew3 _].
    { left. split; reflexivity. }
    destruct (Hnew3 Example.query Example.topic) as (w' & -> & _); reflexivity. }
  assert (Hcl : ContentLength req ≤ MaxBodySize (opts w)) by (vm_compute; discriminate).
  assert (Hsplit : blocksOf (data (LimitReader (Body req)
                                     (int64 (MaxBodySize (opts w) + 1))))
                   = [] ++ ["a"; "b"]%byte :: []) by (vm_compute; reflexivity).
  assert (Hfit : Forall (λ b, len (chomp b) ≤ MaxMsgSize (opts w)) []) by constructor.
  destruct (doMPUB_text_size_errors Example.nsqdserver Example.nsqd req w
              [] ["a"; "b"]%byte [] Hcl Hsplit Hfit (mkErr 413 "MSG_TOO_BIG"))
    as [Hnew Hold].
  { right. repeat split; try (vm_compute; congruence). }
  split; [exact Hcl|]. split; [exact Hsplit|]. split; [exact Hfit|].
  split; [|split; [|exact Hbody]].
  - destruct (Hnew Example.query Example.topic) as (w' & -> & _); reflexivity.
  - destruct (Hold Example.query Example.topic
                (call (CallGetTopicIgnPart "orders") w)) as (w' & -> & _); reflexivity.
Defined.

(** C4 as it is stated fails: under ceilings of one byte a message and two
    bytes a body, the body [abc] is one chunk of three bytes, which is not
    empty and exceeds the message ceiling, and [doMPUB] fails with
    BODY_TOO_BIG, not with MSG_TOO_BIG. *)
Lemma doMPUB_oversize_chunk_body_too_big :
  let w := Example.tight in
  let req := Example.post (-1) ["a"; "b"; "c"]%byte in
  let rdr := LimitReader (Body req) (int64 (MaxBodySize (opts w) + 1)) in
  blocksOf (data rdr) = [["a"; "b"; "c"]%byte] ∧
  chomp ["a"; "b"; "c"]%byte ≠ [] ∧
  MaxMsgSize (opts w) < len (chomp ["a"; "b"; "c"]%byte) ∧
  (NsqdServer.doMPUB Example.nsqdserver req w).1 = Fail (mkErr 413 "BODY_TOO_BIG") ∧
  (NsqdServer.doMPUB Example.nsqdserver req w).1 ≠ Fail (mkErr 413 "MSG_TOO_BIG") ∧
  (Nsqd.doMPUB Example.nsqd req w).1 = Fail (mkErr 413 "BODY_TOO_BIG") ∧
  (Nsqd.doMPUB Example.nsqd req w).1 ≠ Fail (mkErr 413 "MSG_TOO_BIG").
Proof.
  vm_compute. repeat split; congruence.
Qed.

(** A stream that breaks on its last block is an INTERNAL_ERROR before
    either check: the two bytes [ab] followed by a transport error, under a
    message ceiling of one byte and a body ceiling of five. *)
Lemma mpubDecode_broken_stream :
  chomp ["a"; "b"]%byte ≠ [] ∧ 1 < len (chomp ["a"; "b"]%byte) ∧
  mpubDecode 1 6 (LimitReader (mkReader ["a"; "b"]%byte BrokenEnd) 6)
  = Fail (mkErr 500 "INTERNAL_ERROR").
Proof.
  vm_compute. repeat split; congruence.
Qed.

(** The first block that fails a check decides, which is why the blocks
    before the one under study are asked to be within the message ceiling:
    under a message ceiling of one byte and a body ceiling of four, the body
    [ab], newline, [cd] brings the total to five at its second block, and
    the loop has already returned MSG_TOO_BIG at the first. *)
Lemma mpubDecode_first_failure_decides :
  let body := mkReader ["a"; "b"; nl; "c"; "d"]%byte CleanEnd in
  blocksOf (data (LimitReader body 5)) = [["a"; "b"; nl]; ["c"; "d"]]%byte ∧
  totalLen [["a"; "b"; nl]; ["c"; "d"]]%byte = 5 ∧
  mpubDecode 1 5 (LimitReader body 5) = Fail (mkErr 413 "MSG_TOO_BIG").
Proof.
  vm_compute. repeat split; congruence.
Qed.

(** ** The text sub-format against the words of the specification *)

Lemma blocksOf_cons c s :
  blocksOf (c :: s) =
  if decide (c = nl) then [c] :: blocksOf s
  else match blocksOf s with
       | [] => [[c]]
       | b :: bs => (c :: b) :: bs
       end.
Proof.
  unfold blocksOf. simpl. destruct (ReadBytes s) as [full rest].
  case_decide; [reflexivity|]. destruct full; reflexivity.
Qed.

Lemma chomp_cons c b : c ≠ nl → chomp (c :: b) = c :: chomp b.
Proof.
  intros Hc. destruct b as [|c' b].
  - apply chomp_other. simpl. congruence.
  - unfold chomp. change (last (c :: c' :: b)) with (last (c' :: b)).
    assert (H0 : ∀ l : list byte, l ≠ [] → (0 <? len l) = true).
    { intros l Hl. destruct l; [contradiction|]. unfold len. simpl.
      apply Z.ltb_lt. lia. }
    rewrite !H0 by discriminate. simpl andb.
    case_bool_decide; reflexivity.
Qed.

Lemma chunks_blocksOf s : chunks s = chomp <$> blocksOf s.
Proof.
  induction s as [|c s IH]; [reflexivity|].
  rewrite blocksOf_cons. simpl. rewrite IH. case_decide as Hc.
  - subst c. reflexivity.
  - destruct (blocksOf s) as [|b bs]; simpl.
    + rewrite chomp_other by (simpl; congruence). reflexivity.
    + rewrite chomp_cons by assumption. reflexivity.
Qed.

Lemma textBatch_messagesOf s : textBatch s = messagesOf (blocksOf s).
Proof.
  unfold textBatch, messagesOf. rewrite chunks_blocksOf. reflexivity.
Qed.

Lemma messagesOf_app bs1 bs2 : messagesOf (bs1 ++ bs2) = messagesOf bs1 ++ messagesOf bs2.
Proof.
  unfold messagesOf. rewrite fmap_app, filter_app, fmap_app. reflexivity.
Qed.

(** A body below the body ceiling whose chunks are within the message
    ceiling decodes to the messages the specification describes. *)
Lemma mpubDecode_textBatch maxMsgSize readMax body :
  len body < readMax →
  Forall (λ c, len c ≤ maxMsgSize) (chunks body) →
  mpubDecode maxMsgSize readMax (LimitReader (mkReader body CleanEnd) readMax)
  = Ok (textBatch body).
Proof.
  intros Hlen Hfit. rewrite LimitReader_all by exact Hlen.
  rewrite textBatch_messagesOf. rewrite chunks_blocksOf in Hfit.
  pose proof (ReadBytes_length body) as Htotal.
  unfold mpubDecode, blocksOf in *. simpl data. simpl ending.
  destruct (ReadBytes body) as [full rest].
  rewrite fmap_app, Forall_app in Hfit. destruct Hfit as [Hfull Hrest].
  rewrite Forall_fmap in Hfull. simpl in Hrest. rewrite Forall_singleton in Hrest.
  rewrite totalLen_app in Htotal. simpl in Htotal.
  pose proof (len_nonneg rest).
  rewrite mpubLoop_runBlocks. rewrite runBlocks_below by (assumption || lia).
  rewrite mpubStep_cases. rewrite decide_False by lia.
  rewrite messagesOf_app. simpl app.
  assert (Hnil : messagesOf [] = []) by reflexivity.
  case_decide as Hc.
  - rewrite messagesOf_cons_skip, Hnil, app_nil_r by assumption. reflexivity.
  - rewrite decide_False by lia.
    rewrite messagesOf_cons_message, Hnil by assumption. reflexivity.
Qed.

(** C3.  In the text sub-format a block whose chunk is empty once its
    newline is stripped is passed over in silence: the round on it neither
    fails nor adds a message.  A body below the body ceiling whose chunks
    are within the message ceiling decodes to its chunks that are not empty,
    in order, and [doMPUB] puts exactly these to the engine and answers OK
    when the engine takes them.  So [a\n\nb\n] decodes to the two messages
    [a] and [b], and [\n\n\n] to the empty batch, which is put to the engine
    all the same. *)
Theorem doMPUB_text_skips_empty_chunks :
  (∀ maxMsgSize readMax block total msgs,
     total + len block ≠ readMax → chomp block = [] →
     mpubStep maxMsgSize readMax block total msgs = inr (total + len block, msgs)) ∧
  (∀ (new : NsqdServer.httpServer) (old : Nsqd.httpServer) req w body,
     Body req = mkReader body CleanEnd →
     ContentLength req ≤ MaxBodySize (opts w) →
     len body ≤ MaxBodySize (opts w) < 2 ^ 63 - 1 →
     Forall (λ c, len c ≤ MaxMsgSize (opts w)) (chunks body) →
     (∀ q t,
        NsqdServer.getExistingTopicFromQuery new req w = (Ok (q, t), w) →
        q !! "binary"%string = None →
        NsqdServer.PutMessages (NsqdServer.ctx new) t (textBatch body) = None →
        ∃ w', NsqdServer.doMPUB new req w = (Ok "OK"%string, w') ∧
              newCalls w w' [CallPutMessages t (textBatch body); CallSetHealth None]) ∧
     (∀ q t w1,
        Nsqd.getTopicFromQuery old req w = (Ok (q, t), w1) →
        q !! "binary"%string = None →
        Nsqd.PutMessages (Nsqd.ctx old) t (textBatch body) = None →
        ∃ w', Nsqd.doMPUB old req w = (Ok "OK"%string, w') ∧
              newCalls w1 w' [CallPutMessages t (textBatch body)])) ∧
  textBatch ["a"; nl; nl; "b"; nl]%byte
    = [NewMessage 0 ["a"%byte]; NewMessage 0 ["b"%byte]] ∧
  textBatch [nl; nl; nl] = [].
Proof.
  split; [exact mpubStep_skip|]. split; [|split; vm_compute; reflexivity].
  intros new old req w body Hbody Hcl Hlen Hfit.
  assert (HreadMax : int64 (MaxBodySize (opts w) + 1) = MaxBodySize (opts w) + 1).
  { apply int64_small. pose proof (len_nonneg body). lia. }
  assert (Hdec : mpubDecode (MaxMsgSize (opts w)) (int64 (MaxBodySize (opts w) + 1))
                   (LimitReader (Body req) (int64 (MaxBodySize (opts w) + 1)))
                 = Ok (textBatch body)).
  { rewrite Hbody. apply mpubDecode_textBatch; [lia|assumption]. }
  split.
  - intros q t Htopic Hbin Hput.
    rewrite (nsqdserver_doMPUB_text new req w q t Hcl Htopic Hbin). cbv zeta.
    rewrite Hdec, Hput. eexists. split; [reflexivity|].
    unfold newCalls. simpl. rewrite <- app_assoc. reflexivity.
  - intros q t w1 Htopic Hbin Hput.
    rewrite (nsqd_doMPUB_text old req w w1 q t Hcl Htopic Hbin). cbv zeta.
    rewrite Hdec, Hput. eexists. split; [reflexivity|].
    unfold newCalls. simpl. reflexivity.
Qed.

Lemma doMPUB_text_skips_empty_chunks_witness :
  let w := Example.world in
  let blank := [nl; nl; nl] in
  let req := Example.post 3 blank in
  Body req = mkReader blank CleanEnd ∧
  ContentLength req ≤ MaxBodySize (opts w) ∧
  len blank ≤ MaxBodySize (opts w) < 2 ^ 63 - 1 ∧
  Forall (λ c, len c ≤ MaxMsgSize (opts w)) (chunks blank) ∧
  (∃ w', NsqdServer.doMPUB Example.nsqdserver req w = (Ok "OK"%string, w') ∧
         newCalls w w' [CallPutMessages Example.topic []; CallSetHealth None]) ∧
  (∃ w', Nsqd.doMPUB Example.nsqd req w = (Ok "OK"%string, w') ∧
         newCalls (call (CallGetTopicIgnPart "orders") w) w'
           [CallPutMessages Example.topic []]).
Proof.
  intros w blank req.
  assert (Hbody : Body req = mkReader blank CleanEnd) by reflexivity.
  assert (Hcl : ContentLength req ≤ MaxBodySize (opts w)) by (vm_compute; discriminate).
  assert (Hlen : len blank ≤ MaxBodySize (opts w) < 2 ^ 63 - 1)
    by (split; vm_compute; congruence).
  assert (Hfit : Forall (λ c, len c ≤ MaxMsgSize (opts w)) (chunks blank)).
  { change (chunks blank) with [@nil byte; []; []; []].
    repeat constructor; vm_compute; discriminate. }
  destruct doMPUB_text_skips_empty_chunks as (_ & Hrun & _).
  destruct (Hrun Example.nsqdserver Example.nsqd req w blank Hbody Hcl Hlen Hfit)
    as [Hnew Hold].
  split; [exact Hbody|]. split; [exact Hcl|]. split; [exact Hlen|].
  split; [exact Hfit|]. split.
  - apply (Hnew Example.query Example.topic); reflexivity.
  - apply (Hold Example.query Example.topic); reflexivity.
Defined.

(** * Routing of a publish in package [nsqdserver] *)

(** The single publish asks [checkForMasterWrite] once the body is decoded:
    on the master the body goes to the local engine, and a failure is a 503
    with the engine's message; elsewhere it goes to the forwarding
    collaborator, once and as it was read, and a failure is a 500 with the
    collaborator's message. *)
Lemma nsqdserver_doPUB_routes s req w q t :
  0 < ContentLength req ≤ MaxMsgSize (opts w) →
  ContentLength req < 2 ^ 63 - 1 →
  NsqdServer.getExistingTopicFromQuery s req w = (Ok (q, t), w) →
  data (Body req) ≠ [] →
  ending (Body req) = CleanEnd ∨ ContentLength req ≤ len (data (Body req)) →
  let body := take (Z.to_nat (ContentLength req)) (data (Body req)) in
  let '(r, w') := NsqdServer.doPUB s req w in
  if NsqdServer.checkForMasterWrite (NsqdServer.ctx s) t
  then
    newCalls w w' [CallPutMessage t body] ∧
    r = match NsqdServer.PutMessage (NsqdServer.ctx s) t body with
        | Some e => Fail (mkErr 503 e)
        | None => Ok "OK"%string
        end
  else
    newCalls w w' [CallForwardPutMessage (GetTopicName t) (GetTopicPart t) body] ∧
    r = match NsqdServer.forwardPutMessage (NsqdServer.ctx s)
                (GetTopicName t) (GetTopicPart t) body with
        | Some e => Fail (mkErr 500 e)
        | None => Ok "OK"%string
        end.
Proof.
  intros Hcl Hmax Htopic Hdata Hend. cbv zeta.
  unfold NsqdServer.doPUB. unfold bind at 1. unfold getOpts at 1.
  destruct (MaxMsgSize (opts w) <? ContentLength req) eqn:E1; zbool; [lia|].
  destruct (ContentLength req <=? 0) eqn:E2; zbool; [lia|].
  unfold bind at 1. rewrite Htopic. simpl snd.
  rewrite (int64_small (ContentLength req + 1)) by lia.
  set (n := Z.to_nat (ContentLength req)).
  assert (Hlim : data (LimitReader (Body req) (ContentLength req + 1))
                 = take (S n) (data (Body req))).
  { simpl. f_equal. unfold n. lia. }
  assert (Hbody : ∀ k, (k ≤ n)%nat →
            take k (take (S n) (data (Body req))) = take k (data (Body req))).
  { intros k Hk. rewrite take_take. f_equal. lia. }
  assert (Hne : ∀ k, (0 < k)%nat → (len (take k (data (Body req))) =? 0) = false).
  { intros k Hk. apply Z.eqb_neq. destruct (data (Body req)); [contradiction|].
    destruct k; [lia|]. unfold len. simpl. lia. }
  assert (Hn : (0 < n)%nat) by (unfold n; lia).
  unfold ReadFull. rewrite Hlim. rewrite length_take.
  case_decide as Hfull.
  - run. rewrite Hbody by lia. rewrite Hne by lia.
    destruct (NsqdServer.checkForMasterWrite _ _); simpl;
      [destruct (NsqdServer.PutMessage _ _ _)|destruct (NsqdServer.forwardPutMessage _ _ _ _)];
      simpl; split; reflexivity.
  - assert (Hshort : (length (data (Body req)) < n)%nat) by lia.
    assert (Hclean : ending (LimitReader (Body req) (ContentLength req + 1)) = CleanEnd).
    { simpl. destruct Hend as [->| Hlong]; [destruct (_ <? _); reflexivity|].
      unfold len in Hlong. unfold n in Hshort. lia. }
    rewrite Hclean.
    assert (Hpos : (0 < length (data (Body req)))%nat).
    { destruct (data (Body req)); [contradiction|]. simpl. lia. }
    rewrite decide_False by lia.
    replace (S n `min` length (data (Body req)))%nat with (length (data (Body req))) by lia.
    run. rewrite Hbody by lia.
    rewrite (take_ge (data (Body req)) n) by lia.
    rewrite firstn_all.
    assert (Hne' : (len (data (Body req)) =? 0) = false).
    { apply Z.eqb_neq. unfold len. lia. }
    rewrite Hne'.
    destruct (NsqdServer.checkForMasterWrite _ _); simpl;
      [destruct (NsqdServer.PutMessage _ _ _)|destruct (NsqdServer.forwardPutMessage _ _ _ _)];
      simpl; split; reflexivity.
Qed.

(** The batch publish never asks [checkForMasterWrite] and never forwards:
    in text mode a decoded batch goes to the local engine whoever the master
    is. *)
Lemma nsqdserver_doMPUB_never_forwards s req w :
  filter (λ c, isForward c = true) (calls (NsqdServer.doMPUB s req w).2)
  = filter (λ c, isForward c = true) (calls w).
Proof.
  unfold NsqdServer.doMPUB. unfold bind at 1. unfold getOpts at 1.
  destruct (MaxBodySize (opts w) <? ContentLength req); [reflexivity|].
  unfold bind at 1.
  pose proof (nsqdserver_getExistingTopicFromQuery_world s req w) as Hw.
  destruct (NsqdServer.getExistingTopicFromQuery s req w) as [[[q t]|e|] w1];
    simpl in Hw; subst w1; try reflexivity.
  case_bool_decide.
  - run. assert (Hlease : ∀ n w0, calls (NsqdServer.leaseBuffers n w0) = calls w0).
    { induction n as [|n IH]; intros w0; simpl; [reflexivity|]. rewrite IH. reflexivity. }
    assert (Hput : ∀ bs w0, calls (NsqdServer.putBuffers bs w0) = calls w0).
    { induction bs as [|b bs IH]; intros w0; simpl; [reflexivity|]. rewrite IH. reflexivity. }
    repeat (case_match; run; simplify_eq/=); rewrite Hput; simpl; rewrite ?Hlease; simpl;
      rewrite ?filter_app; simpl; rewrite ?app_nil_r; reflexivity.
  - rewrite mpubText_run. cbv zeta. run.
    repeat (case_match; simplify_eq/=); rewrite ?filter_app; simpl;
      rewrite ?app_nil_r; reflexivity.
Qed.

(** C1 at a batch publish on a node that is not the master of the topic:
    the one-message batch [a\n] is put to the local engine and nothing is
    forwarded, while the single publish of [a] on the same node is
    forwarded and not put. *)
Lemma doMPUB_not_master_puts_locally :
  let s := Example.nsqdserver in
  let w := Example.world in
  let batch := NsqdServer.doMPUB s (Example.post 2 ["a"%byte; nl]) w in
  let single := NsqdServer.doPUB s (Example.post 1 ["a"%byte]) w in
  NsqdServer.checkForMasterWrite (NsqdServer.ctx s) Example.topic = false ∧
  batch = (Ok "OK"%string,
           call (CallSetHealth None)
             (call (CallPutMessages Example.topic [NewMessage 0 ["a"%byte]])
                (consume 2 w))) ∧
  existsb isLocalPut (calls batch.2) = true ∧
  existsb isForward (calls batch.2) = false ∧
  single = (Ok "OK"%string,
            call (CallForwardPutMessage "orders" 0 ["a"%byte]) (consume 1 w)) ∧
  existsb isLocalPut (calls single.2) = false ∧
  existsb isForward (calls single.2) = true.
Proof.
  vm_compute. repeat split; reflexivity.
Qed.

(** * The check of the declared length *)

Lemma nsqd_doPUB_empty_iff s req w :
  sizeOK (MaxMsgSize (opts w)) →
  ContentLength req ≤ MaxMsgSize (opts w) →
  (Nsqd.doPUB s req w).1 = Fail (mkErr 400 "MSG_EMPTY") ↔
  ReadAll (LimitReader (Body req) (int64 (MaxMsgSize (opts w) + 1))) = ([], None).
Proof.
  intros HM Hcl. split.
  - pose proof (int64_succ (MaxMsgSize (opts w)) HM) as Hsucc.
    unfold Nsqd.doPUB. run.
    destruct (MaxMsgSize (opts w) <? ContentLength req) eqn:E; zbool; [lia|].
    unfold ReadAll. simpl.
    set (body := take _ _).
    destruct (if len (data (Body req)) <? _ then _ else _); simpl; [|discriminate..].
    destruct (len body =? _) eqn:Hfull; simpl; [discriminate|].
    destruct (len body =? 0) eqn:Hzero; simpl.
    + intros _. zbool. destruct body; [reflexivity|]. unfold len in Hzero. simpl in Hzero. lia.
    + unfold Nsqd.getTopicFromQuery. run.
      repeat (case_match; simplify_eq/=); discriminate.
  - intros Hra. pose proof (nsqd_doPUB_decode s req w HM) as H. cbv zeta in H.
    destruct (Nsqd.doPUB s req w) as [r w']. simpl. apply H; assumption.
Qed.

(** C5, as the code has it.  Nothing is read and nothing is called when
    the declared length exceeds the ceiling: the single publish of either
    package answers MSG_TOO_BIG, the batch publish of either package
    BODY_TOO_BIG.  A single publish whose declared length is zero or absent
    is answered MSG_EMPTY without a read in package nsqdserver; in package
    nsqd its body is read through the limited reader, and the answer is
    MSG_EMPTY exactly when the read brings nothing. *)
Theorem declared_length_check
    (new : NsqdServer.httpServer) (old : Nsqd.httpServer) (req : Request) (w : World) :
  sizeOK (MaxMsgSize (opts w)) →
  (MaxMsgSize (opts w) < ContentLength req →
     NsqdServer.doPUB new req w = (Fail (mkErr 413 "MSG_TOO_BIG"), w) ∧
     Nsqd.doPUB old req w = (Fail (mkErr 413 "MSG_TOO_BIG"), w)) ∧
  (MaxBodySize (opts w) < ContentLength req →
     NsqdServer.doMPUB new req w = (Fail (mkErr 413 "BODY_TOO_BIG"), w) ∧
     Nsqd.doMPUB old req w = (Fail (mkErr 413 "BODY_TOO_BIG"), w)) ∧
  (ContentLength req ≤ 0 →
     NsqdServer.doPUB new req w = (Fail (mkErr 400 "MSG_EMPTY"), w) ∧
     ((Nsqd.doPUB old req w).1 = Fail (mkErr 400 "MSG_EMPTY") ↔
      ReadAll (LimitReader (Body req) (int64 (MaxMsgSize (opts w) + 1))) = ([], None))).
Proof.
  intros HM. split; [|split].
  - intros Hbig. apply Z.ltb_lt in Hbig.
    unfold NsqdServer.doPUB, Nsqd.doPUB. run. rewrite Hbig. auto.
  - intros Hbig. apply Z.ltb_lt in Hbig.
    unfold NsqdServer.doMPUB, Nsqd.doMPUB. run. rewrite Hbig. auto.
  - intros Hzero. split.
    + unfold NsqdServer.doPUB. run. unfold sizeOK in HM.
      destruct (MaxMsgSize (opts w) <? ContentLength req) eqn:E; zbool; [lia|].
      apply Z.leb_le in Hzero. rewrite Hzero. reflexivity.
    + apply nsqd_doPUB_empty_iff; [assumption|]. unfold sizeOK in HM. lia.
Qed.

Lemma declared_length_check_witness :
  let w := Example.world in
  sizeOK (MaxMsgSize (opts w)) ∧
  NsqdServer.doPUB Example.nsqdserver (Example.post 2000 []) w
    = (Fail (mkErr 413 "MSG_TOO_BIG"), w) ∧
  NsqdServer.doPUB Example.nsqdserver (Example.post (-1) ["a"%byte]) w
    = (Fail (mkErr 400 "MSG_EMPTY"), w).
Proof.
  intros w.
  assert (HM : sizeOK (MaxMsgSize (opts w))) by (split; vm_compute; congruence).
  split; [exact HM|]. split.
  - destruct (declared_length_check Example.nsqdserver Example.nsqd
                (Example.post 2000 []) w HM) as (Hbig & _ & _).
    apply Hbig. vm_compute. reflexivity.
  - destruct (declared_length_check Example.nsqdserver Example.nsqd
                (Example.post (-1) ["a"%byte]) w HM) as (_ & _ & Hzero).
    apply Hzero. vm_compute. discriminate.
Defined.

(** C5 as it is stated fails in package nsqd: a single publish whose
    length is not declared and whose body is the byte [a] is not rejected;
    its body is read and put to the engine. *)
Lemma nsqd_doPUB_undeclared_length_accepted :
  ContentLength (Example.post (-1) ["a"%byte]) = -1 ∧
  Nsqd.doPUB Example.nsqd (Example.post (-1) ["a"%byte]) Example.world
  = (Ok "OK"%string,
     call (CallTopicPutMessage Example.topic (NewMessage 0 ["a"%byte]))
       (call (CallGetTopicIgnPart "orders") (consume 1 Example.world))) ∧
  (Nsqd.doPUB Example.nsqd (Example.post (-1) ["a"%byte]) Example.world).1
  ≠ Fail (mkErr 400 "MSG_EMPTY") ∧
  bytesRead Example.world
    (Nsqd.doPUB Example.nsqd (Example.post (-1) ["a"%byte]) Example.world).2 = 1.
Proof.
  vm_compute. repeat split; congruence.
Qed.

(** * [ServeHTTP] *)

(** C6, as the code has it.  When TLS is required and the connection has
    none, [ServeHTTP] answers 403 with the message TLS_REQUIRED and does
    nothing else: the router is not entered and the world is as it was.  In
    package nsqd the answer carries the HTTPS port as [https_port]; in
    package nsqdserver it is the message alone. *)
Theorem ServeHTTP_tls_required
    (new : NsqdServer.httpServer) (old : Nsqd.httpServer) (req : Request) (w : World) :
  NsqdServer.tlsEnabled new = false → NsqdServer.tlsRequired new = true →
  Nsqd.tlsEnabled old = false → Nsqd.tlsRequired old = true →
  Nsqd.ServeHTTP old req w
  = (mkResponse 403 ""
       ("{" +:+ dq +:+ "message" +:+ dq +:+ ": " +:+ dq +:+ "TLS_REQUIRED" +:+ dq
        +:+ ", " +:+ dq +:+ "https_port" +:+ dq +:+ ": "
        +:+ decimal (Nsqd.RealHTTPSAddrPort (Nsqd.ctx old)) +:+ "}"), w) ∧
  NsqdServer.ServeHTTP new req w
  = (mkResponse 403 ""
       ("{" +:+ dq +:+ "message" +:+ dq +:+ ": " +:+ dq +:+ "TLS_REQUIRED" +:+ dq
        +:+ "}"), w).
Proof.
  intros Hne Hnr Hoe Hor. unfold Nsqd.ServeHTTP, NsqdServer.ServeHTTP.
  rewrite Hne, Hnr, Hoe, Hor. simpl. split; reflexivity.
Qed.

Lemma ServeHTTP_tls_required_witness :
  NsqdServer.tlsEnabled Example.nsqdserver = false ∧
  NsqdServer.tlsRequired Example.nsqdserver = true ∧
  Nsqd.tlsEnabled Example.nsqd = false ∧
  Nsqd.tlsRequired Example.nsqd = true ∧
  statusCode (Nsqd.ServeHTTP Example.nsqd (Example.get ∅) Example.world).1 = 403 ∧
  mentions "4152" (responseData (Nsqd.ServeHTTP Example.nsqd (Example.get ∅) Example.world).1)
  = true ∧
  statusCode (NsqdServer.ServeHTTP Example.nsqdserver (Example.get ∅) Example.world).1 = 403.
Proof.
  destruct (ServeHTTP_tls_required Example.nsqdserver Example.nsqd (Example.get ∅)
              Example.world eq_refl eq_refl eq_refl eq_refl) as [Hold Hnew].
  rewrite Hold, Hnew. repeat split; reflexivity.
Defined.

(** C6 as it is stated fails in package nsqdserver: the 403 answer is the
    message alone, without a port. *)
Lemma nsqdserver_tls_required_without_port :
  NsqdServer.tlsEnabled Example.nsqdserver = false ∧
  NsqdServer.tlsRequired Example.nsqdserver = true ∧
  (let resp := (NsqdServer.ServeHTTP Example.nsqdserver (Example.get ∅) Example.world).1 in
   statusCode resp = 403 ∧
   mentions "TLS_REQUIRED" (responseData resp) = true ∧
   mentions "port" (responseData resp) = false ∧
   String.length (responseData resp) = 27%nat) ∧
  (let resp := (Nsqd.ServeHTTP Example.nsqd (Example.get ∅) Example.world).1 in
   mentions "https_port" (responseData resp) = true).
Proof.
  vm_compute. repeat split; reflexivity.
Qed.

(** * [doStats] *)

Lemma filterChannel_find channelName cs topicStats :
  filterChannel channelName cs topicStats =
  match findChannel channelName cs with
  | Some channelStats => setChannels topicStats [channelStats]
  | None => topicStats
  end.
Proof.
  unfold findChannel. induction cs as [|ch cs IH]; simpl; [reflexivity|].
  case_decide as Hn.
  - rewrite bool_decide_eq_true_2 by exact Hn. reflexivity.
  - rewrite bool_decide_eq_false_2 by exact Hn. exact IH.
Qed.

Lemma filterTopic_find topicName channelName ts all :
  filterTopic topicName channelName ts all =
  match findTopic topicName ts with
  | Some t =>
      [if decide (0 < String.length channelName)%nat
       then filterChannel channelName (Channels t) t else t]
  | None => all
  end.
Proof.
  unfold findTopic. induction ts as [|t ts IH]; simpl; [reflexivity|].
  destruct (decide (TopicName t = topicName)) as [Hn|Hn].
  - rewrite bool_decide_eq_true_2 by exact Hn. reflexivity.
  - rewrite bool_decide_eq_false_2 by exact Hn. exact IH.
Qed.

Lemma length_pos_iff (s : string) : (0 < String.length s)%nat ↔ s ≠ ""%string.
Proof.
  destruct s; simpl; split; intros H; try lia; congruence.
Qed.

Lemma doStats_run c q w :
  doStats c (Some q) w =
  (Ok (statsReply c q
         (if decide (Get q "topic" = ""%string) then GetStats c
          else filterTopic (Get q "topic") (Get q "channel") (GetStats c) (GetStats c))),
   w).
Proof.
  unfold doStats, statsReply. run.
  destruct (decide (Get q "topic" = ""%string)) as [He|Hne].
  - rewrite He. simpl. case_bool_decide; reflexivity.
  - rewrite decide_True by (apply length_pos_iff; exact Hne).
    case_bool_decide; reflexivity.
Qed.

Lemma NsqdServer_doStats_unfold s req :
  NsqdServer.doStats s req = doStats (NsqdServer.common (NsqdServer.ctx s)) (Query req).
Proof. reflexivity. Qed.

Lemma Nsqd_doStats_unfold s req :
  Nsqd.doStats s req
  = doStats (Nsqd.common (Nsqd.ctx s)) (Nsqd.NewReqParams (Nsqd.ctx s) req).
Proof. reflexivity. Qed.

(** C8, as the code has it.  [doStats] is the handler of both packages, on
    their own statistics and parsed query.  With a topic filter that names
    an entry of the snapshot, the answer holds that entry alone; with a
    channel filter that names one of its channels as well, the entry's
    [Channels] is that channel alone, the very record of the unfiltered
    snapshot.  With a topic filter that names no entry the answer is not an
    error and not empty: it is the whole unfiltered snapshot. *)
Theorem doStats_filters (c : Common) (q : Values) (w : World) :
  Get q "topic" ≠ ""%string →
  (∀ t, findTopic (Get q "topic") (GetStats c) = Some t →
        Get q "channel" = ""%string →
        doStats c (Some q) w = (Ok (statsReply c q [t]), w)) ∧
  (∀ t ch, findTopic (Get q "topic") (GetStats c) = Some t →
           Get q "channel" ≠ ""%string →
           findChannel (Get q "channel") (Channels t) = Some ch →
           doStats c (Some q) w = (Ok (statsReply c q [setChannels t [ch]]), w) ∧
           ch ∈ Channels t ∧ ChannelName ch = Get q "channel") ∧
  (findTopic (Get q "topic") (GetStats c) = None →
   doStats c (Some q) w = (Ok (statsReply c q (GetStats c)), w)).
Proof.
  intros Htopic. rewrite doStats_run. rewrite decide_False by exact Htopic.
  rewrite filterTopic_find. split; [|split].
  - intros t -> Hchan. rewrite decide_False; [reflexivity|].
    rewrite Hchan. simpl. lia.
  - intros t ch -> Hchan Hfind.
    rewrite decide_True by (apply length_pos_iff; exact Hchan).
    rewrite filterChannel_find, Hfind. split; [reflexivity|].
    unfold findChannel in Hfind. apply find_some in Hfind as [Hin Hname].
    apply bool_decide_eq_true_1 in Hname. split; [|exact Hname].
    apply list_elem_of_In. exact Hin.
  - intros ->. reflexivity.
Qed.

Lemma doStats_filters_witness :
  let q : Values := {[ "topic" := ["orders"]; "channel" := ["audit"];
                       "format" := ["json"] ]}%string in
  Get q "topic" ≠ ""%string ∧
  NsqdServer.doStats Example.nsqdserver (Example.get q) Example.world
  = (Ok (StatsJSON "0.3.7" "OK" 1460000000
           [setChannels Example.orders [Example.channel "audit" 5]]),
     Example.world).
Proof.
  intros q.
  assert (Htopic : Get q "topic" ≠ ""%string) by (vm_compute; discriminate).
  split; [exact Htopic|].
  destruct (doStats_filters Example.common q Example.world Htopic) as (_ & Hboth & _).
  destruct (Hboth Example.orders (Example.channel "audit" 5)) as (Hreply & _);
    [reflexivity|vm_compute; discriminate|reflexivity|].
  rewrite NsqdServer_doStats_unfold. exact Hreply.
Defined.

(** C8 as it is stated fails: with a topic filter that names no entry the
    answer is not empty; it holds every topic of the snapshot. *)
Lemma doStats_unknown_topic_not_empty :
  let q : Values := {[ "topic" := ["nope"]; "format" := ["json"] ]}%string in
  findTopic (Get q "topic") (GetStats Example.common) = None ∧
  NsqdServer.doStats Example.nsqdserver (Example.get q) Example.world
  = (Ok (StatsJSON "0.3.7" "OK" 1460000000 [Example.orders; Example.clicks]),
     Example.world) ∧
  Nsqd.doStats Example.nsqd (Example.get q) Example.world
  = (Ok (StatsJSON "0.3.7" "OK" 1460000000 [Example.orders; Example.clicks]),
     Example.world) ∧
  [Example.orders; Example.clicks] ≠ [].
Proof.
  vm_compute. repeat split; congruence.
Qed.

(** C10.  With a topic filter that names an entry of the snapshot and a
    channel filter that names none of its channels, the answer holds that
    entry alone with its complete list of channels: the channel filter is
    passed over, without an error and without an empty list. *)
Theorem doStats_unknown_channel_ignored (c : Common) (q : Values) (w : World)
    (t : TopicStats) :
  Get q "topic" ≠ ""%string →
  findTopic (Get q "topic") (GetStats c) = Some t →
  Get q "channel" ≠ ""%string →
  Forall (λ ch, ChannelName ch ≠ Get q "channel") (Channels t) →
  doStats c (Some q) w = (Ok (statsReply c q [t]), w).
Proof.
  intros Htopic Hfind Hchan Hnone.
  rewrite doStats_run. rewrite decide_False by exact Htopic.
  rewrite filterTopic_find, Hfind.
  rewrite decide_True by (apply length_pos_iff; exact Hchan).
  rewrite filterChannel_find.
  assert (Hnf : findChannel (Get q "channel") (Channels t) = None).
  { unfold findChannel. induction Hnone as [|ch cs Hch Hcs IH]; simpl; [reflexivity|].
    rewrite bool_decide_eq_false_2 by exact Hch. exact IH. }
  rewrite Hnf. reflexivity.
Qed.

Lemma doStats_unknown_channel_ignored_witness :
  let q : Values := {[ "topic" := ["orders"]; "channel" := ["nope"];
                       "format" := ["json"] ]}%string in
  Get q "topic" ≠ ""%string ∧
  findTopic (Get q "topic") (GetStats Example.common) = Some Example.orders ∧
  Get q "channel" ≠ ""%string ∧
  Forall (λ ch, ChannelName ch ≠ Get q "channel") (Channels Example.orders) ∧
  Nsqd.doStats Example.nsqd (Example.get q) Example.world
  = (Ok (StatsJSON "0.3.7" "OK" 1460000000 [Example.orders]), Example.world) ∧
  NsqdServer.doStats Example.nsqdserver (Example.get q) Example.world
  = (Ok (StatsJSON "0.3.7" "OK" 1460000000 [Example.orders]), Example.world).
Proof.
  intros q.
  assert (Htopic : Get q "topic" ≠ ""%string) by (vm_compute; discriminate).
  assert (Hfind : findTopic (Get q "topic") (GetStats Example.common) = Some Example.orders)
    by reflexivity.
  assert (Hchan : Get q "channel" ≠ ""%string) by (vm_compute; discriminate).
  assert (Hnone : Forall (λ ch, ChannelName ch ≠ Get q "channel") (Channels Example.orders))
    by (repeat constructor; vm_compute; discriminate).
  pose proof (doStats_unknown_channel_ignored Example.common q Example.world
                Example.orders Htopic Hfind Hchan Hnone) as Hreply.
  split; [exact Htopic|]. split; [exact Hfind|]. split; [exact Hchan|].
  split; [exact Hnone|]. split.
  - rewrite Nsqd_doStats_unfold. exact Hreply.
  - rewrite NsqdServer_doStats_unfold. exact Hreply.
Defined.

(** * The buffer pool and the reader pool in package [nsqdserver] *)

Lemma leaseBuffers_pool n w :
  buffersOut (NsqdServer.leaseBuffers n w) = buffersOut w + Z.of_nat n ∧
  readersOut (NsqdServer.leaseBuffers n w) = readersOut w.
Proof.
  revert w. induction n as [|n IH]; intros w; simpl; [split; lia|].
  destruct (IH (BufferPoolGet w)) as [-> ->]. simpl. split; lia.
Qed.

Lemma putBuffers_pool bs w :
  buffersOut (NsqdServer.putBuffers bs w) = buffersOut w - len bs ∧
  readersOut (NsqdServer.putBuffers bs w) = readersOut w.
Proof.
  revert w. induction bs as [|b bs IH]; intros w; unfold len; simpl; [split; lia|].
  destruct (IH (BufferPoolPut w)) as [-> ->]. unfold len. simpl. split; lia.
Qed.

Lemma nsqdserver_doPUB_pool s req w :
  buffersOut (NsqdServer.doPUB s req w).2 = buffersOut w ∧
  readersOut (NsqdServer.doPUB s req w).2 = readersOut w.
Proof.
  unfold NsqdServer.doPUB. run.
  destruct (MaxMsgSize (opts w) <? ContentLength req); simpl; [split; reflexivity|].
  destruct (ContentLength req <=? 0); simpl; [split; reflexivity|].
  pose proof (nsqdserver_getExistingTopicFromQuery_world s req w) as Hw.
  destruct (NsqdServer.getExistingTopicFromQuery s req w) as [[rt|e|] w1];
    simpl in Hw; subst w1; simpl; try (split; reflexivity).
  destruct (ReadFull _ _) as [n err].
  destruct err as [[]|]; simpl; repeat (case_match; simplify_eq/=); split; lia.
Qed.

Lemma nsqdserver_doMPUB_pool s req w :
  (∀ t, let r := NsqdServer.readMPUB (NsqdServer.ctx s) (Body req) t (MaxMsgSize (opts w)) in
        NsqdServer.mpubLeased r = length (NsqdServer.mpubBuffers r)) →
  buffersOut (NsqdServer.doMPUB s req w).2 = buffersOut w ∧
  readersOut (NsqdServer.doMPUB s req w).2 = readersOut w.
Proof.
  intros Hlease.
  destruct (NsqdServer.doMPUB s req w) as [res w'] eqn:E. simpl. revert E.
  unfold NsqdServer.doMPUB. unfold bind at 1. unfold getOpts at 1.
  destruct (MaxBodySize (opts w) <? ContentLength req);
    [intros E; injection E as <- <-; split; reflexivity|].
  unfold bind at 1.
  pose proof (nsqdserver_getExistingTopicFromQuery_world s req w) as Hw.
  destruct (NsqdServer.getExistingTopicFromQuery s req w) as [[[q t]|e|] w1];
    simpl in Hw; subst w1; try (intros E; injection E as <- <-; split; reflexivity).
  case_bool_decide.
  - specialize (Hlease t). cbv zeta in Hlease.
    set (r := NsqdServer.readMPUB _ _ _ _) in *.
    unfold bind at 1. unfold getOpts at 1. fold r.
    unfold bind at 1. unfold effect at 1. unfold bind at 1. unfold effect at 1.
    unfold defer.
    set (w0 := NsqdServer.leaseBuffers _ _).
    set (inner := match NsqdServer.mpubErr r with Some _ => _ | None => _ end).
    assert (Hin : buffersOut (inner w0).2 = buffersOut w0 ∧
                  readersOut (inner w0).2 = readersOut w0).
    { unfold inner. run. repeat (case_match; simplify_eq/=); split; reflexivity. }
    destruct (inner w0) as [r0 w2]. simpl in Hin. destruct Hin as [Hb Hr].
    intros E; injection E as <- <-.
    destruct (putBuffers_pool (NsqdServer.mpubBuffers r) w2) as [-> ->].
    rewrite Hb, Hr. unfold w0.
    destruct (leaseBuffers_pool (NsqdServer.mpubLeased r)
                (consume (NsqdServer.mpubRead r) w)) as [-> ->].
    simpl. unfold len. rewrite Hlease. split; lia.
  - rewrite mpubText_run. cbv zeta. run.
    repeat (case_match; simplify_eq/=); intros E; simplify_eq/=; split; lia.
Qed.

(** C9.  Whatever way the publish handlers of package nsqdserver end, with
    OK, with an error or with a panic, as many buffers are checked out of
    the buffer pool and as many readers out of the reader pool afterwards
    as before: [doPUB] returns the one buffer it takes, the text loop of
    [doMPUB] returns its pooled reader, and the binary branch of [doMPUB]
    returns every buffer of the list [readMPUB] hands over, which is taken
    to list the buffers that [readMPUB] took from the pool. *)
Theorem publish_pools_balanced (s : NsqdServer.httpServer) (req : Request) (w : World) :
  (∀ t, let r := NsqdServer.readMPUB (NsqdServer.ctx s) (Body req) t (MaxMsgSize (opts w)) in
        NsqdServer.mpubLeased r = length (NsqdServer.mpubBuffers r)) →
  (buffersOut (NsqdServer.doPUB s req w).2 = buffersOut w ∧
   readersOut (NsqdServer.doPUB s req w).2 = readersOut w) ∧
  (buffersOut (NsqdServer.doMPUB s req w).2 = buffersOut w ∧
   readersOut (NsqdServer.doMPUB s req w).2 = readersOut w).
Proof.
  intros Hlease. split.
  - apply nsqdserver_doPUB_pool.
  - apply nsqdserver_doMPUB_pool. exact Hlease.
Qed.

Lemma publish_pools_balanced_witness :
  let s := Example.nsqdserver in
  let req := Example.postBinary 9 ["a"%byte] in
  let w := Example.world in
  (∀ t, let r := NsqdServer.readMPUB (NsqdServer.ctx s) (Body req) t (MaxMsgSize (opts w)) in
        NsqdServer.mpubLeased r = length (NsqdServer.mpubBuffers r)) ∧
  buffersOut (NsqdServer.doMPUB s req w).2 = buffersOut w ∧
  buffersOut (NsqdServer.doPUB s req w).2 = buffersOut w.
Proof.
  intros s req w.
  assert (Hlease : ∀ t, let r := NsqdServer.readMPUB (NsqdServer.ctx s) (Body req) t
                                   (MaxMsgSize (opts w)) in
                        NsqdServer.mpubLeased r = length (NsqdServer.mpubBuffers r))
    by (intros t; reflexivity).
  split; [exact Hlease|].
  destruct (publish_pools_balanced s req w Hlease) as [[Hpub _] [Hmpub _]].
  split; assumption.
Defined.

(** * [doConfig] *)

(** ** [json.Unmarshal] into a slice of strings *)


Lemma backing_array h v n : backing h {| array := array v; slen := n |} = backing h v.
Proof. reflexivity. Qed.




(** ** The PUT of an option *)

Lemma doConfig_get c req ps w :
  Method req ≠ "PUT"%string →
  doConfig c req ps w =
  (match getOptByCfgName (OptionsType c) (opts w) (ByName ps "opt") with
   | Some v => Ok v
   | None => Fail (mkErr 400 "INVALID_OPTION")
   end, w).
Proof.
  intros Hm. unfold doConfig. rewrite decide_False by exact Hm. run.
  destruct (getOptByCfgName _ _ _); reflexivity.
Qed.

Lemma doConfig_put_run c req ps w :
  let opt := ByName ps "opt" in
  let readMax := int64 (MaxMsgSize (opts w) + 1) in
  let body := data (LimitReader (Body req) readMax) in
  let w0 := consume (length body) w in
  Method req = "PUT"%string →
  ending (LimitReader (Body req) readMax) = CleanEnd →
  doConfig c req ps w =
  if (len body =? readMax) || (len body =? 0)
  then (Fail (mkErr 413 "INVALID_VALUE"), w0)
  else
    match unmarshalOption c opt body (opts w) w0 with
    | (Ok o', w1) =>
        (match getOptByCfgName (OptionsType c) o' opt with
         | Some v => Ok v
         | None => Fail (mkErr 400 "INVALID_OPTION")
         end,
         call CallTriggerOptsNotification (swapOpts o' w1))
    | (Fail e, w1) => (Fail e, w1)
    | (Panic, w1) => (Panic, w1)
    end.
Proof.
  intros opt readMax body w0 Hm Hend. unfold doConfig.
  rewrite decide_True by exact Hm. fold opt. unfold bind at 1.
  unfold bind at 1. unfold getOpts at 1. fold readMax.
  unfold ReadAll. fold body. rewrite Hend.
  unfold bind at 1. unfold effect at 1. fold w0.
  destruct ((len body =? readMax) || (len body =? 0)); [reflexivity|].
  unfold bind at 1. unfold getOpts at 1. change (opts w0) with (opts w).
  unfold bind at 1.
  destruct (unmarshalOption c opt body (opts w) w0) as [[o'|e|] w1]; try reflexivity.
  run. destruct (getOptByCfgName _ _ _); reflexivity.
Qed.













(** The copy [opts := *s.ctx.getOpts()] shares the backing array of the
    address list with the snapshot, and [json.Unmarshal] decodes into it in
    place: a PUT of an array whose second element is a number fails with
    INVALID_VALUE without a swap, yet the first address of the snapshot is
    the one of the body afterwards. *)
Lemma doConfig_failed_put_writes_shared_array :
  let ps : Params := [("opt", "nsqlookupd_tcp_addresses")]%string in
  let w := Example.world in
  let res := doConfig Example.common (Example.put Example.bodyAddressAndNumber) ps w in
  res.1 = Fail (mkErr 400 "INVALID_VALUE") ∧
  opts res.2 = opts w ∧ calls res.2 = calls w ∧
  elements (store w) (NSQLookupdTCPAddresses (opts w))
  = ["10.0.0.1:4160"; "10.0.0.2:4160"]%string ∧
  elements (store res.2) (NSQLookupdTCPAddresses (opts res.2))
  = ["10.0.0.3:4160"; "10.0.0.2:4160"]%string.
Proof.
  vm_compute. repeat split; reflexivity.
Qed.

(** * The text batch: when the loop succeeds, and what it yields *)

Lemma messagesOf_nil : messagesOf [] = [].
Proof. done. Qed.

Lemma runBlocks_inr maxMsgSize readMax bs : ∀ total msgs t m,
  runBlocks maxMsgSize readMax bs total msgs = inr (t, m) →
  Forall (λ msg, len (MsgBody msg) ≤ maxMsgSize) (messagesOf bs) ∧
  t = total + totalLen bs ∧ m = msgs ++ messagesOf bs.
Proof.
  induction bs as [|b bs IH]; intros total msgs t m H; simpl in H.
  - simplify_eq. rewrite messagesOf_nil, app_nil_r. simpl.
    split; [constructor|]. split; [lia|done].
  - rewrite mpubStep_cases in H.
    repeat case_decide; try discriminate.
    + apply IH in H as (Hfits & -> & ->).
      rewrite messagesOf_cons_skip by done. simpl. split; [done|]. split; [lia|done].
    + apply IH in H as (Hfits & -> & ->).
      rewrite messagesOf_cons_message by done. simpl. split; [|split].
      * constructor; [simpl; lia|done].
      * lia.
      * by rewrite <- app_assoc.
Qed.

Lemma runBlocks_ok maxMsgSize readMax bs : ∀ total msgs,
  Forall (λ msg, len (MsgBody msg) ≤ maxMsgSize) (messagesOf bs) →
  total + totalLen bs < readMax →
  runBlocks maxMsgSize readMax bs total msgs
  = inr (total + totalLen bs, msgs ++ messagesOf bs).
Proof.
  induction bs as [|b bs IH]; intros total msgs Hfits Hlt; simpl in *.
  - rewrite messagesOf_nil, app_nil_r. do 2 f_equal. lia.
  - pose proof (totalLen_nonneg bs). pose proof (len_nonneg b).
    rewrite mpubStep_cases.
    case_decide; [lia|]. case_decide as Hc.
    + rewrite messagesOf_cons_skip in * by done.
      rewrite IH by (done || lia). do 2 f_equal. lia.
    + rewrite messagesOf_cons_message in * by done.
      apply Forall_cons in Hfits as [Hb Hfits]. simpl in Hb.
      case_decide; [lia|].
      rewrite IH by (done || lia). rewrite <- app_assoc. simpl. do 2 f_equal. lia.
Qed.

Lemma mpubDecode_blocks maxMsgSize readMax rdr :
  mpubDecode maxMsgSize readMax rdr =
  match ending rdr, runBlocks maxMsgSize readMax (blocksOf (data rdr)) 0 [] with
  | CleanEnd, inr (_, msgs) => Ok msgs
  | CleanEnd, inl err => Fail err
  | _, _ =>
      match (let '(full, _) := ReadBytes (data rdr) in
             runBlocks maxMsgSize readMax full 0 []) with
      | inl err => Fail err
      | inr _ => Fail (mkErr 500 "INTERNAL_ERROR")
      end
  end.
Proof.
  unfold mpubDecode, blocksOf.
  destruct (ReadBytes (data rdr)) as [full rest].
  rewrite mpubLoop_runBlocks, runBlocks_app.
  destruct (runBlocks maxMsgSize readMax full 0 []) as [err|[t m]].
  - by destruct (ending rdr).
  - destruct (ending rdr); [|done..]. simpl.
    by destruct (mpubStep maxMsgSize readMax rest t m) as [err|[t' m']].
Qed.

Lemma mpubDecode_ok_inv maxMsgSize readMax rdr msgs :
  mpubDecode maxMsgSize readMax rdr = Ok msgs →
  ending rdr = CleanEnd ∧ len (data rdr) ≠ readMax ∧
  msgs = textBatch (data rdr) ∧
  Forall (λ msg, len (MsgBody msg) ≤ maxMsgSize) msgs.
Proof.
  intros H.
  assert (ending rdr = CleanEnd) as Hend.
  { rewrite mpubDecode_blocks in H. destruct (ending rdr); [done|..];
      by repeat case_match. }
  split; [done|].
  assert (len (data rdr) ≠ readMax) as Hne.
  { revert H. unfold mpubDecode.
    pose proof (ReadBytes_length (data rdr)) as Hlen. unfold blocksOf in Hlen.
    destruct (ReadBytes (data rdr)) as [full rest].
    rewrite mpubLoop_runBlocks.
    destruct (runBlocks maxMsgSize readMax full 0 []) as [err|[t m]] eqn:E; [done|].
    apply runBlocks_inr in E as (_ & -> & _).
    rewrite Hend, mpubStep_cases.
    rewrite totalLen_app in Hlen. simpl in Hlen.
    case_decide; [done|]. intros _. lia. }
  split; [done|].
  rewrite mpubDecode_blocks, Hend in H.
  destruct (runBlocks maxMsgSize readMax (blocksOf (data rdr)) 0 []) as [err|[t m]] eqn:E;
    [done|].
  apply runBlocks_inr in E as (Hfits & _ & ->). simpl in H. simplify_eq.
  by rewrite textBatch_messagesOf.
Qed.

Lemma mpubDecode_ok_intro maxMsgSize readMax rdr :
  ending rdr = CleanEnd → len (data rdr) < readMax →
  Forall (λ msg, len (MsgBody msg) ≤ maxMsgSize) (textBatch (data rdr)) →
  mpubDecode maxMsgSize readMax rdr = Ok (textBatch (data rdr)).
Proof.
  intros Hend Hlt Hfits.
  rewrite mpubDecode_blocks, Hend.
  rewrite textBatch_messagesOf in *.
  rewrite runBlocks_ok; [done|done|].
  rewrite ReadBytes_length. lia.
Qed.

Lemma LimitReader_short (body : Reader) (readMax : Z) :
  0 ≤ readMax → len (data (LimitReader body readMax)) ≠ readMax →
  len (data body) < readMax.
Proof.
  unfold LimitReader, len. simpl. rewrite length_take. lia.
Qed.

Lemma LimitReader_full (body : Reader) (readMax : Z) :
  0 ≤ readMax → readMax ≤ len (data body) →
  len (data (LimitReader body readMax)) = readMax ∧
  ending (LimitReader body readMax) = CleanEnd.
Proof.
  unfold LimitReader, len. simpl. rewrite length_take. intros H0 Hle. split; [lia|].
  destruct (Z.ltb_spec (Z.of_nat (length (data body))) readMax); [lia|done].
Qed.

Lemma mpubDecode_limited_inv maxMsgSize readMax body msgs :
  0 ≤ readMax →
  mpubDecode maxMsgSize readMax (LimitReader body readMax) = Ok msgs →
  ending body = CleanEnd ∧ len (data body) < readMax ∧
  Forall (λ msg, len (MsgBody msg) ≤ maxMsgSize) (textBatch (data body)) ∧
  msgs = textBatch (data body).
Proof.
  intros H0 H. apply mpubDecode_ok_inv in H as (Hend & Hne & -> & Hfits).
  apply LimitReader_short in Hne; [|done].
  rewrite LimitReader_all in * by done. done.
Qed.

Lemma mpubDecode_limited_intro maxMsgSize readMax body :
  ending body = CleanEnd → len (data body) < readMax →
  Forall (λ msg, len (MsgBody msg) ≤ maxMsgSize) (textBatch (data body)) →
  mpubDecode maxMsgSize readMax (LimitReader body readMax) = Ok (textBatch (data body)).
Proof.
  intros Hend Hlt Hfits. rewrite LimitReader_all by done. by apply mpubDecode_ok_intro.
Qed.

(** X1.  The text loop on a body read through the limited reader succeeds
    exactly when the body ended cleanly, is shorter than [readMax] and every
    message of its batch is within [maxMsgSize]; its result is then the batch
    of the body: the chunks between newlines that are not empty, in order. *)
Theorem mpubDecode_succeeds_iff (maxMsgSize readMax : Z) (body : Reader)
    (msgs : list Message) :
  0 ≤ readMax →
  mpubDecode maxMsgSize readMax (LimitReader body readMax) = Ok msgs ↔
  ending body = CleanEnd ∧ len (data body) < readMax ∧
  Forall (λ msg, len (MsgBody msg) ≤ maxMsgSize) (textBatch (data body)) ∧
  msgs = textBatch (data body).
Proof.
  intros H0. split.
  - intros H.
    destruct (mpubDecode_ok_inv _ _ _ _ H) as (Hend & Hne & Hmsgs & Hfits).
    assert (len (data body) < readMax) as Hlt by (by apply LimitReader_short).
    rewrite LimitReader_all in * by done. subst msgs. done.
  - intros (Hend & Hlt & Hfits & ->).
    rewrite LimitReader_all by done.
    rewrite mpubDecode_blocks, Hend, textBatch_messagesOf in *.
    rewrite runBlocks_ok; [done|done|].
    rewrite ReadBytes_length. lia.
Qed.

Lemma mpubDecode_succeeds_iff_witness :
  0 ≤ 6 ∧
  mpubDecode 2 6 (LimitReader (mkReader ["a"; nl; nl; "b"; "c"]%byte CleanEnd) 6)
  = Ok [NewMessage 0 ["a"%byte]; NewMessage 0 ["b"; "c"]%byte].
Proof.
  split; [lia|].
  apply (mpubDecode_succeeds_iff 2 6 (mkReader ["a"; nl; nl; "b"; "c"]%byte CleanEnd));
    [lia|].
  split; [reflexivity|]. split; [vm_compute; reflexivity|].
  split; [|reflexivity].
  repeat constructor; vm_compute; discriminate.
Defined.

Lemma chunks_no_newline s : Forall (λ c, nl ∉ c) (chunks s).
Proof.
  induction s as [|c s IH]; simpl.
  - constructor; [|constructor]. by intros ?%elem_of_nil.
  - case_decide.
    + constructor; [by intros ?%elem_of_nil|done].
    + destruct (chunks s) as [|chunk cs].
      * constructor; [|constructor]. intros ?%list_elem_of_singleton. done.
      * apply Forall_cons in IH as [Hc Hcs]. constructor; [|done].
        intros [?|?]%elem_of_cons; done.
Qed.

(** X2.  Whatever the reader and the ceilings, every message the text loop
    yields has the id 0 and a body that is not empty, holds no newline and
    is no longer than [maxMsgSize]. *)
Theorem mpubDecode_messages_well_formed (maxMsgSize readMax : Z) (rdr : Reader)
    (msgs : list Message) :
  mpubDecode maxMsgSize readMax rdr = Ok msgs →
  Forall (λ msg, ID msg = 0 ∧ MsgBody msg ≠ [] ∧ (nl ∉ MsgBody msg) ∧
                 len (MsgBody msg) ≤ maxMsgSize) msgs.
Proof.
  intros H. apply mpubDecode_ok_inv in H as (_ & _ & -> & Hfits).
  unfold textBatch in *.
  rewrite Forall_fmap in *. simpl in *.
  rewrite Forall_forall in *. intros c Hc.
  specialize (Hfits c Hc). simpl in Hfits.
  apply list_elem_of_filter in Hc as [Hne Hin].
  pose proof (chunks_no_newline (data rdr)) as Hnl.
  rewrite Forall_forall in Hnl. simpl. auto.
Qed.

Lemma mpubDecode_messages_well_formed_witness :
  mpubDecode 2 6 (mkReader ["a"; nl; nl; "b"; "c"]%byte CleanEnd)
  = Ok [NewMessage 0 ["a"%byte]; NewMessage 0 ["b"; "c"]%byte] ∧
  Forall (λ msg, ID msg = 0 ∧ MsgBody msg ≠ [] ∧ (nl ∉ MsgBody msg) ∧
                 len (MsgBody msg) ≤ 2)
    [NewMessage 0 ["a"%byte]; NewMessage 0 ["b"; "c"]%byte].
Proof.
  split; [reflexivity|].
  apply (mpubDecode_messages_well_formed 2 6 (mkReader ["a"; nl; nl; "b"; "c"]%byte CleanEnd)).
  reflexivity.
Defined.

Lemma chunks_app_newline (b s : list byte) :
  nl ∉ b → chunks (b ++ nl :: s) = b :: chunks s.
Proof.
  induction b as [|c b IH]; intros Hnl; simpl.
  - by destruct (decide (nl = nl)).
  - rewrite decide_False by (intros ->; apply Hnl; left).
    rewrite IH; [done|]. intros ?. apply Hnl. by right.
Qed.

Lemma chunks_encodeText bodies :
  Forall (λ b, nl ∉ b) bodies → chunks (encodeText bodies) = bodies ++ [[]].
Proof.
  induction 1 as [|b bodies Hb _ IH]; [done|].
  unfold encodeText in *. rewrite fmap_cons. simpl.
  rewrite <- app_assoc. simpl. rewrite chunks_app_newline by done. by rewrite IH.
Qed.

Lemma textBatch_encodeText bodies :
  Forall (λ b, b ≠ [] ∧ (nl ∉ b)) bodies →
  textBatch (encodeText bodies) = NewMessage 0 <$> bodies.
Proof.
  intros H. unfold textBatch. rewrite chunks_encodeText.
  - rewrite filter_app. simpl. rewrite filter_cons_False by (intros ?; done).
    rewrite filter_nil, app_nil_r. f_equal.
    induction H as [|b bodies [Hb _] _ IH]; [done|].
    rewrite filter_cons_True by done. by rewrite IH.
  - eapply Forall_impl; [done|]. by intros ? [].
Qed.

(** X3.  Round trip of the text sub-format: payloads that are not empty,
    hold no newline and are within [maxMsgSize], written one after the other
    each with a newline behind it, are decoded to these payloads in this
    order, as long as the body stays below [readMax]. *)
Theorem mpubDecode_encodeText (maxMsgSize readMax : Z) (bodies : list (list byte)) :
  Forall (λ b, b ≠ [] ∧ (nl ∉ b) ∧ len b ≤ maxMsgSize) bodies →
  len (encodeText bodies) < readMax →
  mpubDecode maxMsgSize readMax
    (LimitReader (mkReader (encodeText bodies) CleanEnd) readMax)
  = Ok (NewMessage 0 <$> bodies).
Proof.
  intros H Hlt.
  rewrite LimitReader_all by done.
  rewrite mpubDecode_ok_intro; simpl; try done.
  - f_equal. apply textBatch_encodeText.
    eapply Forall_impl; [done|]. simpl. tauto.
  - rewrite textBatch_encodeText by (eapply Forall_impl; [done|]; simpl; tauto).
    rewrite Forall_fmap. eapply Forall_impl; [done|]. simpl. tauto.
Qed.

Lemma mpubDecode_encodeText_witness :
  Forall (λ b, b ≠ [] ∧ (nl ∉ b) ∧ len b ≤ 2) [["a"]; ["b"; "c"]]%byte ∧
  encodeText [["a"]; ["b"; "c"]]%byte = ["a"; nl; "b"; "c"; nl]%byte ∧
  mpubDecode 2 6 (LimitReader (mkReader ["a"; nl; "b"; "c"; nl]%byte CleanEnd) 6)
  = Ok [NewMessage 0 ["a"%byte]; NewMessage 0 ["b"; "c"]%byte].
Proof.
  assert (Forall (λ b, b ≠ [] ∧ (nl ∉ b) ∧ len b ≤ 2) [["a"]; ["b"; "c"]]%byte) as H.
  { repeat constructor; try discriminate; try (vm_compute; discriminate);
      rewrite ?elem_of_cons, elem_of_nil; intros Hin; repeat destruct Hin as [Hin|Hin];
      try discriminate; done. }
  split; [exact H|]. split; [reflexivity|].
  apply (mpubDecode_encodeText 2 6 [["a"]; ["b"; "c"]]%byte H).
  vm_compute. reflexivity.
Defined.

(** * What the batch publish accepts *)

Lemma readMax_succ (z : Z) : sizeOK z → z < 2 ^ 63 - 1 → int64 (z + 1) = z + 1.
Proof. intros [? ?] ?. apply int64_small. lia. Qed.

Lemma nsqdserver_doMPUB_declared s req w :
  MaxBodySize (opts w) < ContentLength req →
  NsqdServer.doMPUB s req w = (Fail (mkErr 413 "BODY_TOO_BIG"), w).
Proof.
  intros H. unfold NsqdServer.doMPUB. unfold bind at 1. unfold getOpts at 1.
  apply Z.ltb_lt in H. by rewrite H.
Qed.

Lemma nsqd_doMPUB_declared s req w :
  MaxBodySize (opts w) < ContentLength req →
  Nsqd.doMPUB s req w = (Fail (mkErr 413 "BODY_TOO_BIG"), w).
Proof.
  intros H. unfold Nsqd.doMPUB. unfold bind at 1. unfold getOpts at 1.
  apply Z.ltb_lt in H. by rewrite H.
Qed.

(** X4.  The acceptance rule of the text batch in both packages: a batch
    publish in text mode on a topic that the lookup returns is answered OK
    exactly when the declared length is within MaxBodySize, the body ends
    cleanly and is no longer than MaxBodySize, every message of its batch is
    within MaxMsgSize, and the engine takes the batch; the batch handed to
    the engine is then the batch of the body. *)
Theorem doMPUB_text_accepts_iff
    (new : NsqdServer.httpServer) (old : Nsqd.httpServer) (req : Request) (w : World) :
  sizeOK (MaxBodySize (opts w)) → MaxBodySize (opts w) < 2 ^ 63 - 1 →
  let body := data (Body req) in
  let acceptable :=
    ContentLength req ≤ MaxBodySize (opts w) ∧ ending (Body req) = CleanEnd ∧
    len body ≤ MaxBodySize (opts w) ∧
    Forall (λ msg, len (MsgBody msg) ≤ MaxMsgSize (opts w)) (textBatch body) in
  (∀ q t,
     NsqdServer.getExistingTopicFromQuery new req w = (Ok (q, t), w) →
     q !! "binary"%string = None →
     ((NsqdServer.doMPUB new req w).1 = Ok "OK"%string ↔
      acceptable ∧ NsqdServer.PutMessages (NsqdServer.ctx new) t (textBatch body) = None) ∧
     ((NsqdServer.doMPUB new req w).1 = Ok "OK"%string →
      newCalls w (NsqdServer.doMPUB new req w).2
        [CallPutMessages t (textBatch body); CallSetHealth None])) ∧
  (∀ q t w1,
     Nsqd.getTopicFromQuery old req w = (Ok (q, t), w1) →
     q !! "binary"%string = None →
     ((Nsqd.doMPUB old req w).1 = Ok "OK"%string ↔
      acceptable ∧ Nsqd.PutMessages (Nsqd.ctx old) t (textBatch body) = None) ∧
     ((Nsqd.doMPUB old req w).1 = Ok "OK"%string →
      newCalls w1 (Nsqd.doMPUB old req w).2 [CallPutMessages t (textBatch body)])).
Proof.
  intros HB HB'. cbv zeta.
  pose proof (readMax_succ _ HB HB') as Hmax.
  assert (0 ≤ MaxBodySize (opts w) + 1) as H0 by (destruct HB; lia).
  assert (Hiff : ∀ msgs,
    mpubDecode (MaxMsgSize (opts w)) (MaxBodySize (opts w) + 1)
      (LimitReader (Body req) (MaxBodySize (opts w) + 1)) = Ok msgs ↔
    ending (Body req) = CleanEnd ∧ len (data (Body req)) < MaxBodySize (opts w) + 1 ∧
    Forall (λ msg, len (MsgBody msg) ≤ MaxMsgSize (opts w)) (textBatch (data (Body req))) ∧
    msgs = textBatch (data (Body req))).
  { intros msgs. split; [by apply mpubDecode_limited_inv|].
    intros (? & ? & ? & ->). by apply mpubDecode_limited_intro. }
  assert (Hacc : ContentLength req ≤ MaxBodySize (opts w) ∧ ending (Body req) = CleanEnd ∧
    len (data (Body req)) ≤ MaxBodySize (opts w) ∧
    Forall (λ msg, len (MsgBody msg) ≤ MaxMsgSize (opts w)) (textBatch (data (Body req))) →
    mpubDecode (MaxMsgSize (opts w)) (MaxBodySize (opts w) + 1)
      (LimitReader (Body req) (MaxBodySize (opts w) + 1))
    = Ok (textBatch (data (Body req)))).
  { intros (_ & ? & ? & ?). apply Hiff. repeat split; try done. lia. }
  split.
  - intros q t Htopic Hbin.
    destruct (Z.lt_ge_cases (MaxBodySize (opts w)) (ContentLength req)) as [Hcl|Hcl].
    { rewrite nsqdserver_doMPUB_declared by done. simpl. split; [|done].
      split; [done|]. intros [[? _] _]. lia. }
    rewrite (nsqdserver_doMPUB_text new req w q t) by done. cbv zeta. rewrite Hmax.
    destruct (mpubDecode (MaxMsgSize (opts w)) _ _) as [msgs|e|] eqn:E.
    + destruct (proj1 (Hiff msgs) eq_refl) as (Hend & Hlt & Hfits & ->).
      destruct (NsqdServer.PutMessages _ t _) eqn:Eput; simpl.
      * split; [|done]. split; [done|]. by intros [_ ?].
      * split; [|intros _; unfold newCalls; simpl; by rewrite <- app_assoc].
        split; [|done]. intros _. repeat split; try done. lia.
    + simpl. split; [|done]. split; [done|].
      intros [E'%Hacc _]. discriminate.
    + simpl. split; [|done]. split; [done|].
      intros [E'%Hacc _]. discriminate.
  - intros q t w1 Htopic Hbin.
    destruct (Z.lt_ge_cases (MaxBodySize (opts w)) (ContentLength req)) as [Hcl|Hcl].
    { rewrite nsqd_doMPUB_declared by done. simpl. split; [|done].
      split; [done|]. intros [[? _] _]. lia. }
    rewrite (nsqd_doMPUB_text old req w w1 q t) by done. cbv zeta. rewrite Hmax.
    destruct (mpubDecode (MaxMsgSize (opts w)) _ _) as [msgs|e|] eqn:E.
    + destruct (proj1 (Hiff msgs) eq_refl) as (Hend & Hlt & Hfits & ->).
      destruct (Nsqd.PutMessages _ t _) eqn:Eput; simpl.
      * split; [|done]. split; [done|]. by intros [_ ?].
      * split; [|intros _; unfold newCalls; by simpl].
        split; [|done]. intros _. repeat split; try done. lia.
    + simpl. split; [|done]. split; [done|].
      intros [E'%Hacc _]. discriminate.
    + simpl. split; [|done]. split; [done|].
      intros [E'%Hacc _]. discriminate.
Qed.

Lemma doMPUB_text_accepts_iff_witness :
  let w := Example.world in
  let req := Example.post 3 ["a"; nl; "b"]%byte in
  sizeOK (MaxBodySize (opts w)) ∧ MaxBodySize (opts w) < 2 ^ 63 - 1 ∧
  (NsqdServer.doMPUB Example.nsqdserver req w).1 = Ok "OK"%string ∧
  (Nsqd.doMPUB Example.nsqd req w).1 = Ok "OK"%string.
Proof.
  cbv zeta.
  assert (sizeOK (MaxBodySize (opts Example.world))) as H1 by (vm_compute; split; congruence).
  assert (MaxBodySize (opts Example.world) < 2 ^ 63 - 1) as H2 by (vm_compute; reflexivity).
  split; [exact H1|]. split; [exact H2|].
  destruct (doMPUB_text_accepts_iff Example.nsqdserver Example.nsqd
              (Example.post 3 ["a"; nl; "b"]%byte) Example.world H1 H2) as [Hnew Hold].
  assert (Forall (λ msg, len (MsgBody msg) ≤ MaxMsgSize (opts Example.world))
            (textBatch ["a"; nl; "b"]%byte)) as Hfits.
  { vm_compute. repeat constructor; discriminate. }
  split.
  - apply (Hnew Example.query Example.topic); [reflexivity|reflexivity|].
    split; [|reflexivity].
    split; [vm_compute; discriminate|]. split; [reflexivity|].
    split; [vm_compute; discriminate|exact Hfits].
  - apply (Hold Example.query Example.topic
             (call (CallGetTopicIgnPart "orders") Example.world));
      [reflexivity|reflexivity|].
    split; [|reflexivity].
    split; [vm_compute; discriminate|]. split; [reflexivity|].
    split; [vm_compute; discriminate|exact Hfits].
Defined.

(** * What the single publish accepts *)

Lemma nsqd_getTopicFromQuery_consume s req n w :
  Nsqd.getTopicFromQuery s req (consume n w) =
  ((Nsqd.getTopicFromQuery s req w).1, consume n (Nsqd.getTopicFromQuery s req w).2).
Proof.
  unfold Nsqd.getTopicFromQuery. repeat (case_match; run; simplify_eq/=); reflexivity.
Qed.

Lemma nsqd_doPUB_run s req w :
  sizeOK (MaxMsgSize (opts w)) → MaxMsgSize (opts w) < 2 ^ 63 - 1 →
  let body := data (Body req) in
  ((Nsqd.doPUB s req w).1, calls (Nsqd.doPUB s req w).2) =
  if MaxMsgSize (opts w) <? ContentLength req
  then (Fail (mkErr 413 "MSG_TOO_BIG"), calls w)
  else if MaxMsgSize (opts w) <? len body then (Fail (mkErr 413 "MSG_TOO_BIG"), calls w)
  else match ending (Body req) with
       | UnexpectedEnd | BrokenEnd => (Fail (mkErr 500 "INTERNAL_ERROR"), calls w)
       | CleanEnd =>
           if len body =? 0 then (Fail (mkErr 400 "MSG_EMPTY"), calls w)
           else
             match Nsqd.getTopicFromQuery s req w with
             | (Ok (_, t), w1) =>
                 (match Nsqd.PutMessage (Nsqd.ctx s) t (NewMessage 0 body) with
                  | Some _ => Fail (mkErr 503 "EXITING")
                  | None => Ok "OK"%string
                  end, calls w1 ++ [CallTopicPutMessage t (NewMessage 0 body)])
             | (Fail e, w1) => (Fail e, calls w1)
             | (Panic, w1) => (Panic, calls w1)
             end
       end.
Proof.
  intros HM HM'. cbv zeta.
  pose proof (readMax_succ _ HM HM') as Hmax. destruct HM as [HM0 _].
  destruct (Nsqd.doPUB s req w) as [r w'] eqn:E. cbn [fst snd]. revert E.
  unfold Nsqd.doPUB. unfold bind at 1. unfold getOpts at 1.
  destruct (MaxMsgSize (opts w) <? ContentLength req) eqn:E1; [by intros [= <- <-]|].
  unfold bind at 1. unfold getOpts at 1. rewrite Hmax.
  destruct (MaxMsgSize (opts w) <? len (data (Body req))) eqn:E2; zbool.
  - destruct (LimitReader_full (Body req) (MaxMsgSize (opts w) + 1)) as [Hlen Hend];
      [lia|lia|].
    unfold ReadAll. rewrite Hend. unfold bind at 1. unfold effect at 1.
    rewrite Hlen, Z.eqb_refl. by intros [= <- <-].
  - rewrite LimitReader_all by lia. unfold ReadAll.
    unfold bind at 1. unfold effect at 1.
    destruct (ending (Body req)); [|by intros [= <- <-]..].
    destruct (len (data (Body req)) =? MaxMsgSize (opts w) + 1) eqn:E3; zbool; [lia|].
    destruct (len (data (Body req)) =? 0) eqn:E4; [by intros [= <- <-]|].
    unfold bind at 1.
    rewrite nsqd_getTopicFromQuery_consume.
    destruct (Nsqd.getTopicFromQuery s req w) as [[[q t]|e|] w1]; cbn [fst snd];
      try by intros [= <- <-].
    run. destruct (Nsqd.PutMessage _ _ _); by intros [= <- <-].
Qed.

Lemma nsqdserver_doPUB_run s req w :
  sizeOK (MaxMsgSize (opts w)) → MaxMsgSize (opts w) < 2 ^ 63 - 1 →
  let n := Z.to_nat (ContentLength req) in
  let body := take n (data (Body req)) in
  ((NsqdServer.doPUB s req w).1, calls (NsqdServer.doPUB s req w).2) =
  if MaxMsgSize (opts w) <? ContentLength req
  then (Fail (mkErr 413 "MSG_TOO_BIG"), calls w)
  else if ContentLength req <=? 0 then (Fail (mkErr 400 "MSG_EMPTY"), calls w)
  else
    match (NsqdServer.getExistingTopicFromQuery s req w).1 with
    | Fail e => (Fail e, calls w)
    | Panic => (Panic, calls w)
    | Ok (_, t) =>
        if bool_decide (length (data (Body req)) < n)%nat
           && match ending (Body req) with BrokenEnd => true | _ => false end
        then (Fail (mkErr 500 "INTERNAL_ERROR"), calls w)
        else if bool_decide (data (Body req) = [])
        then (Fail (mkErr 400 "MSG_EMPTY"), calls w)
        else if NsqdServer.checkForMasterWrite (NsqdServer.ctx s) t
        then (match NsqdServer.PutMessage (NsqdServer.ctx s) t body with
              | Some e => Fail (mkErr 503 e)
              | None => Ok "OK"%string
              end, calls w ++ [CallPutMessage t body])
        else (match NsqdServer.forwardPutMessage (NsqdServer.ctx s)
                      (GetTopicName t) (GetTopicPart t) body with
              | Some e => Fail (mkErr 500 e)
              | None => Ok "OK"%string
              end,
              calls w ++ [CallForwardPutMessage (GetTopicName t) (GetTopicPart t) body])
    end.
Proof.
  intros HM HM'. cbv zeta. destruct HM as [HM0 _].
  destruct (NsqdServer.doPUB s req w) as [r w'] eqn:E. cbn [fst snd]. revert E.
  unfold NsqdServer.doPUB. unfold bind at 1. unfold getOpts at 1.
  destruct (MaxMsgSize (opts w) <? ContentLength req) eqn:E1; [by intros [= <- <-]|].
  destruct (ContentLength req <=? 0) eqn:E2; [by intros [= <- <-]|]. zbool.
  unfold bind at 1.
  pose proof (nsqdserver_getExistingTopicFromQuery_world s req w) as Hw.
  destruct (NsqdServer.getExistingTopicFromQuery s req w) as [[[q t]|e|] w1];
    simpl in Hw; subst w1; try by intros [= <- <-].
  cbn [fst snd].
  rewrite (int64_small (ContentLength req + 1)) by lia.
  set (n := Z.to_nat (ContentLength req)).
  assert (Hlim : data (LimitReader (Body req) (ContentLength req + 1))
                 = take (S n) (data (Body req))).
  { simpl. f_equal. unfold n. lia. }
  assert (Hbody : ∀ k, (k ≤ n)%nat →
            take k (take (S n) (data (Body req))) = take k (data (Body req))).
  { intros k Hk. rewrite take_take. f_equal. lia. }
  assert (Hn : (0 < n)%nat) by (unfold n; lia).
  assert (Hempty : ∀ k, (0 < k)%nat →
            (len (take k (data (Body req))) =? 0) = bool_decide (data (Body req) = [])).
  { intros k Hk. destruct (data (Body req)) as [|c l].
    - by rewrite take_nil.
    - destruct k; [lia|]. rewrite bool_decide_eq_false_2 by done.
      apply Z.eqb_neq. unfold len. simpl. lia. }
  unfold ReadFull. rewrite Hlim. rewrite length_take.
  case_decide as Hfull.
  - rewrite bool_decide_eq_false_2 by lia. cbn [andb].
    run. rewrite Hbody by lia. rewrite Hempty by lia.
    case_bool_decide; [by intros [= <- <-]|].
    destruct (NsqdServer.checkForMasterWrite _ _); simpl;
      [destruct (NsqdServer.PutMessage _ _ _)|destruct (NsqdServer.forwardPutMessage _ _ _ _)];
      by intros [= <- <-].
  - assert (Hshort : (length (data (Body req)) < n)%nat) by lia.
    assert (Hend : ending (LimitReader (Body req) (ContentLength req + 1))
                   = ending (Body req)).
    { simpl. destruct (Z.ltb_spec (len (data (Body req))) (ContentLength req + 1));
        [done|]. unfold len, n in *. lia. }
    rewrite Hend.
    replace (S n `min` length (data (Body req)))%nat with (length (data (Body req))) by lia.
    assert (take (length (data (Body req))) (take (S n) (data (Body req)))
            = data (Body req)) as Hall.
    { rewrite Hbody by lia. apply firstn_all. }
    assert (take n (data (Body req)) = data (Body req)) as Hall'
      by (apply take_ge; lia).
    assert ((len (data (Body req)) =? 0) = bool_decide (data (Body req) = [])) as Hzero.
    { destruct (data (Body req)); [done|]. rewrite bool_decide_eq_false_2 by done.
      apply Z.eqb_neq. unfold len. simpl. lia. }
    destruct (ending (Body req)) eqn:Ee.
    + rewrite andb_false_r.
      case_decide as Hz; run; rewrite Hall, Hall', Hzero;
        (case_bool_decide; [by intros [= <- <-]|]);
        (destruct (NsqdServer.checkForMasterWrite _ _); simpl;
          [destruct (NsqdServer.PutMessage _ _ _)
          |destruct (NsqdServer.forwardPutMessage _ _ _ _)];
          by intros [= <- <-]).
    + rewrite andb_false_r. run. rewrite Hall, Hall', Hzero.
      case_bool_decide; [by intros [= <- <-]|].
      destruct (NsqdServer.checkForMasterWrite _ _); simpl;
        [destruct (NsqdServer.PutMessage _ _ _)
        |destruct (NsqdServer.forwardPutMessage _ _ _ _)];
        by intros [= <- <-].
    + rewrite bool_decide_eq_true_2 by done. run. by intros [= <- <-].
Qed.

(** X5.  The acceptance rule of the single publish.  Package [nsqd]
    answers OK exactly when the declared length is within MaxMsgSize, the
    body ends with a clean end of stream, is not empty and is no longer than
    MaxMsgSize, the topic arguments are valid and the engine takes the
    message: a body cut short, whose read reports [io.ErrUnexpectedEOF], is
    refused like any other read error.  Package [nsqdserver] answers OK
    exactly when the declared length is positive and within MaxMsgSize, the
    body is not empty and either reaches the declared length or stops before
    it with [io.EOF] or [io.ErrUnexpectedEOF] (the two errors the handler
    lets pass), the topic exists under the requested partition, and the
    engine (on the master) or the forward (elsewhere) takes the first
    ContentLength bytes. *)
Theorem doPUB_accepts_iff
    (new : NsqdServer.httpServer) (old : Nsqd.httpServer) (req : Request) (w : World) :
  sizeOK (MaxMsgSize (opts w)) → MaxMsgSize (opts w) < 2 ^ 63 - 1 →
  let body := data (Body req) in
  let sent := take (Z.to_nat (ContentLength req)) body in
  ((Nsqd.doPUB old req w).1 = Ok "OK"%string ↔
   ContentLength req ≤ MaxMsgSize (opts w) ∧ 0 < len body ≤ MaxMsgSize (opts w) ∧
   ending (Body req) = CleanEnd ∧
   ∃ q t, (Nsqd.getTopicFromQuery old req w).1 = Ok (q, t) ∧
          Nsqd.PutMessage (Nsqd.ctx old) t (NewMessage 0 body) = None) ∧
  ((NsqdServer.doPUB new req w).1 = Ok "OK"%string ↔
   0 < ContentLength req ≤ MaxMsgSize (opts w) ∧ body ≠ [] ∧
   (ContentLength req ≤ len body ∨ ending (Body req) = CleanEnd ∨
    ending (Body req) = UnexpectedEnd) ∧
   ∃ q t, (NsqdServer.getExistingTopicFromQuery new req w).1 = Ok (q, t) ∧
          if NsqdServer.checkForMasterWrite (NsqdServer.ctx new) t
          then NsqdServer.PutMessage (NsqdServer.ctx new) t sent = None
          else NsqdServer.forwardPutMessage (NsqdServer.ctx new)
                 (GetTopicName t) (GetTopicPart t) sent = None).
Proof.
  intros HM HM'. cbv zeta. split.
  - pose proof (nsqd_doPUB_run old req w HM HM') as Hrun. cbv zeta in Hrun.
    apply (f_equal fst) in Hrun. cbn [fst] in Hrun. rewrite Hrun. clear Hrun.
    pose proof (len_nonneg (data (Body req))) as Hlen.
    destruct (MaxMsgSize (opts w) <? ContentLength req) eqn:E1; zbool; simpl.
    { split; [done|]. intros (? & _). lia. }
    destruct (MaxMsgSize (opts w) <? len (data (Body req))) eqn:E2; zbool; simpl.
    { split; [done|]. intros (_ & ? & _). lia. }
    destruct (ending (Body req)); simpl.
    2,3: split; [done|]; by intros (_ & _ & ? & _).
    destruct (len (data (Body req)) =? 0) eqn:E3; zbool; simpl.
    { split; [done|]. intros (_ & ? & _). lia. }
    destruct (Nsqd.getTopicFromQuery old req w) as [[[q t]|e|] w1]; simpl.
    + destruct (Nsqd.PutMessage (Nsqd.ctx old) t _) eqn:Eput; simpl.
      * split; [done|]. intros (_ & _ & _ & q' & t' & [= <- <-] & Hput). congruence.
      * split; [|done]. intros _. repeat split; try done; try lia. by exists q, t.
    + split; [done|]. by intros (_ & _ & _ & q' & t' & ? & _).
    + split; [done|]. by intros (_ & _ & _ & q' & t' & ? & _).
  - pose proof (nsqdserver_doPUB_run new req w HM HM') as Hrun. cbv zeta in Hrun.
    apply (f_equal fst) in Hrun. cbn [fst] in Hrun. rewrite Hrun. clear Hrun.
    destruct (MaxMsgSize (opts w) <? ContentLength req) eqn:E1; zbool; simpl.
    { split; [done|]. intros (? & _). lia. }
    destruct (ContentLength req <=? 0) eqn:E2; zbool; simpl.
    { split; [done|]. intros (? & _). lia. }
    destruct (NsqdServer.getExistingTopicFromQuery new req w) as [[[q t]|e|] w1]; simpl.
    2,3: split; [done|]; by intros (_ & _ & _ & q' & t' & ? & _).
    assert (Hpass :
      bool_decide (length (data (Body req)) < Z.to_nat (ContentLength req))%nat
      && match ending (Body req) with BrokenEnd => true | _ => false end = false ↔
      ContentLength req ≤ len (data (Body req)) ∨ ending (Body req) = CleanEnd ∨
      ending (Body req) = UnexpectedEnd).
    { unfold len. case_bool_decide as Hshort; simpl.
      - destruct (ending (Body req)); split; auto; try done.
        intros [?|[?|?]]; [lia|done..].
      - split; [|done]. intros _. left. lia. }
    destruct (_ && _).
    { split; [done|]. intros (_ & _ & Hp%Hpass & _). done. }
    assert (ContentLength req ≤ len (data (Body req)) ∨ ending (Body req) = CleanEnd ∨
            ending (Body req) = UnexpectedEnd) as Hp by (by apply Hpass).
    case_bool_decide as Hnil; simpl.
    { split; [done|]. by intros (_ & ? & _). }
    destruct (NsqdServer.checkForMasterWrite (NsqdServer.ctx new) t) eqn:Ec; simpl.
    + destruct (NsqdServer.PutMessage _ _ _) eqn:Eput; simpl.
      * split; [done|]. intros (_ & _ & _ & q' & t' & [= <- <-] & Hput).
        rewrite Ec in Hput. congruence.
      * split; [|done]. intros _. split; [lia|]. split; [done|]. split; [done|].
        exists q, t. by rewrite Ec.
    + destruct (NsqdServer.forwardPutMessage _ _ _ _) eqn:Eput; simpl.
      * split; [done|]. intros (_ & _ & _ & q' & t' & [= <- <-] & Hput).
        rewrite Ec in Hput. congruence.
      * split; [|done]. intros _. split; [lia|]. split; [done|]. split; [done|].
        exists q, t. by rewrite Ec.
Qed.

Lemma doPUB_accepts_iff_witness :
  let w := Example.world in
  let req := Example.post 2 ["a"; "b"]%byte in
  let short := mkRequest "POST" 3 (mkReader ["a"; "b"]%byte UnexpectedEnd)
                 (Some Example.query) in
  sizeOK (MaxMsgSize (opts w)) ∧ MaxMsgSize (opts w) < 2 ^ 63 - 1 ∧
  (Nsqd.doPUB Example.nsqd req w).1 = Ok "OK"%string ∧
  (NsqdServer.doPUB Example.nsqdserver req w).1 = Ok "OK"%string ∧
  (NsqdServer.doPUB Example.nsqdserver short w).1 = Ok "OK"%string ∧
  (Nsqd.doPUB Example.nsqd short w).1 = Fail (mkErr 500 "INTERNAL_ERROR").
Proof.
  cbv zeta.
  assert (sizeOK (MaxMsgSize (opts Example.world))) as H1 by (vm_compute; split; congruence).
  assert (MaxMsgSize (opts Example.world) < 2 ^ 63 - 1) as H2 by (vm_compute; reflexivity).
  split; [exact H1|]. split; [exact H2|].
  destruct (doPUB_accepts_iff Example.nsqdserver Example.nsqd
              (Example.post 2 ["a"; "b"]%byte) Example.world H1 H2) as [Hold Hnew].
  destruct (doPUB_accepts_iff Example.nsqdserver Example.nsqd
              (mkRequest "POST" 3 (mkReader ["a"; "b"]%byte UnexpectedEnd)
                 (Some Example.query)) Example.world H1 H2) as [_ Hshort].
  split; [|split; [|split]].
  - apply Hold. split; [vm_compute; discriminate|].
    split; [split; vm_compute; [reflexivity|discriminate]|].
    split; [reflexivity|]. exists Example.query, Example.topic. split; reflexivity.
  - apply Hnew. split; [split; vm_compute; [reflexivity|discriminate]|].
    split; [discriminate|]. split; [right; left; reflexivity|].
    exists Example.query, Example.topic. split; reflexivity.
  - apply Hshort. split; [split; vm_compute; [reflexivity|discriminate]|].
    split; [discriminate|]. split; [right; right; reflexivity|].
    exists Example.query, Example.topic. split; reflexivity.
  - reflexivity.
Defined.

(** * What the single publish of [nsqdserver] writes, and where *)

Lemma nsqdserver_lookup_inv s req w q t :
  (NsqdServer.getExistingTopicFromQuery s req w).1 = Ok (q, t) →
  Query req = Some q ∧
  ∃ name, NsqdServer.GetTopicPartitionArgs (NsqdServer.ctx s) q = inl (name, GetTopicPart t) ∧
          NsqdServer.getExistingTopic (NsqdServer.ctx s) name = inl t.
Proof.
  unfold NsqdServer.getExistingTopicFromQuery.
  destruct (Query req) as [q0|]; [|done].
  destruct (NsqdServer.GetTopicPartitionArgs (NsqdServer.ctx s) q0) as [[name part]|e] eqn:Ea;
    [|done].
  destruct (NsqdServer.getExistingTopic (NsqdServer.ctx s) name) as [t0|e] eqn:Et; [|done].
  case_decide as Hp; run; [done|].
  intros [= <- <-]. split; [done|]. exists name. by rewrite Ea, Hp.
Qed.

(** X6.  [getExistingTopicFromQuery] of package [nsqdserver] returns a
    topic exactly when the query parses, names a topic that exists, and asks
    for the partition this topic has; the topic and the parsed query are then
    its result. *)
Theorem nsqdserver_getExistingTopicFromQuery_ok
    (s : NsqdServer.httpServer) (req : Request) (w : World) (q : Values) (t : Topic) :
  (NsqdServer.getExistingTopicFromQuery s req w).1 = Ok (q, t) ↔
  Query req = Some q ∧
  ∃ name, NsqdServer.GetTopicPartitionArgs (NsqdServer.ctx s) q = inl (name, GetTopicPart t) ∧
          NsqdServer.getExistingTopic (NsqdServer.ctx s) name = inl t.
Proof.
  unfold NsqdServer.getExistingTopicFromQuery.
  destruct (Query req) as [q0|]; [|split; [done|by intros [? _]]].
  destruct (NsqdServer.GetTopicPartitionArgs (NsqdServer.ctx s) q0) as [[name part]|e] eqn:Ea.
  2:{ split; [done|]. intros ([= ->] & name & Hargs & _). congruence. }
  destruct (NsqdServer.getExistingTopic (NsqdServer.ctx s) name) as [t0|e] eqn:Et.
  2:{ split; [done|]. intros ([= ->] & name' & Hargs & Ht). congruence. }
  case_decide as Hp; run.
  - split; [done|]. intros ([= ->] & name' & Hargs & Ht).
    rewrite Ea in Hargs. simplify_eq. rewrite Et in Ht. by simplify_eq.
  - split.
    + intros [= <- <-]. split; [done|]. exists name. by rewrite Ea, Hp.
    + intros ([= ->] & name' & Hargs & Ht). rewrite Ea in Hargs. simplify_eq.
      rewrite Et in Ht. by simplify_eq.
Qed.

(** X7.  A single publish of package [nsqdserver] makes at most one call,
    and one when it answers OK.  The call is a put on the master and a
    forward elsewhere; its body is not empty and no longer than the declared
    length and MaxMsgSize; its topic is the one that exists under the name
    and the partition of the query. *)
Theorem nsqdserver_doPUB_writes_once (s : NsqdServer.httpServer) (req : Request) (w : World) :
  sizeOK (MaxMsgSize (opts w)) → MaxMsgSize (opts w) < 2 ^ 63 - 1 →
  ∃ cs, newCalls w (NsqdServer.doPUB s req w).2 cs ∧ (length cs ≤ 1)%nat ∧
    ((NsqdServer.doPUB s req w).1 = Ok "OK"%string → length cs = 1%nat) ∧
    Forall (λ c, ∃ q name t body,
        Query req = Some q ∧
        NsqdServer.GetTopicPartitionArgs (NsqdServer.ctx s) q = inl (name, GetTopicPart t) ∧
        NsqdServer.getExistingTopic (NsqdServer.ctx s) name = inl t ∧
        0 < len body ∧ len body ≤ ContentLength req ∧ len body ≤ MaxMsgSize (opts w) ∧
        c = if NsqdServer.checkForMasterWrite (NsqdServer.ctx s) t
            then CallPutMessage t body
            else CallForwardPutMessage (GetTopicName t) (GetTopicPart t) body) cs.
Proof.
  intros HM HM'.
  pose proof (nsqdserver_doPUB_run s req w HM HM') as Hrun. cbv zeta in Hrun.
  unfold newCalls.
  destruct (NsqdServer.doPUB s req w) as [r w'] eqn:E. cbn [fst snd] in *.
  assert (Hnone : ∀ (r0 : Result string), r0 ≠ Ok "OK"%string →
            (r, calls w') = (r0, calls w) → ∃ cs, calls w' = calls w ++ cs ∧
              (length cs ≤ 1)%nat ∧ (r = Ok "OK"%string → length cs = 1%nat) ∧
              Forall (λ c, ∃ q name t body,
                Query req = Some q ∧
                NsqdServer.GetTopicPartitionArgs (NsqdServer.ctx s) q
                  = inl (name, GetTopicPart t) ∧
                NsqdServer.getExistingTopic (NsqdServer.ctx s) name = inl t ∧
                0 < len body ∧ len body ≤ ContentLength req ∧
                len body ≤ MaxMsgSize (opts w) ∧
                c = if NsqdServer.checkForMasterWrite (NsqdServer.ctx s) t
                    then CallPutMessage t body
                    else CallForwardPutMessage (GetTopicName t) (GetTopicPart t) body) cs).
  { intros r0 Hr0 [= -> ->]. exists []. rewrite app_nil_r. simpl.
    split; [done|]. split; [lia|]. split; [done|constructor]. }
  destruct (MaxMsgSize (opts w) <? ContentLength req) eqn:E1; [by (eapply Hnone; [|exact Hrun])|].
  destruct (ContentLength req <=? 0) eqn:E2; [by (eapply Hnone; [|exact Hrun])|]. zbool.
  destruct (NsqdServer.getExistingTopicFromQuery s req w).1 as [[q t]|e|] eqn:Elook;
    [|by (eapply Hnone; [|exact Hrun])..].
  apply nsqdserver_lookup_inv in Elook as (Hq & name & Hargs & Htopic).
  destruct (_ && _); [by (eapply Hnone; [|exact Hrun])|].
  case_bool_decide as Hnil; [by (eapply Hnone; [|exact Hrun])|].
  set (body := take (Z.to_nat (ContentLength req)) (data (Body req))) in *.
  assert (0 < len body ∧ len body ≤ ContentLength req) as [Hpos Hle].
  { unfold body, len. rewrite length_take.
    destruct (data (Body req)); [done|]. simpl. lia. }
  exists [if NsqdServer.checkForMasterWrite (NsqdServer.ctx s) t
          then CallPutMessage t body
          else CallForwardPutMessage (GetTopicName t) (GetTopicPart t) body].
  split; [by destruct (NsqdServer.checkForMasterWrite _ _); simplify_eq|].
  split; [simpl; lia|]. split; [done|].
  constructor; [|constructor]. exists q, name, t, body. repeat split; try done. lia.
Qed.

Lemma nsqdserver_doPUB_writes_once_witness :
  let w := Example.world in
  let req := Example.post 2 ["a"; "b"; "c"]%byte in
  sizeOK (MaxMsgSize (opts w)) ∧ MaxMsgSize (opts w) < 2 ^ 63 - 1 ∧
  calls (NsqdServer.doPUB Example.nsqdserver req w).2
  = [CallForwardPutMessage "orders" 0 ["a"; "b"]%byte] ∧
  ∃ cs, newCalls w (NsqdServer.doPUB Example.nsqdserver req w).2 cs ∧ (length cs ≤ 1)%nat.
Proof.
  cbv zeta.
  assert (sizeOK (MaxMsgSize (opts Example.world))) as H1 by (vm_compute; split; congruence).
  assert (MaxMsgSize (opts Example.world) < 2 ^ 63 - 1) as H2 by (vm_compute; reflexivity).
  split; [exact H1|]. split; [exact H2|]. split; [reflexivity|].
  destruct (nsqdserver_doPUB_writes_once Example.nsqdserver
              (Example.post 2 ["a"; "b"; "c"]%byte) Example.world H1 H2)
    as (cs & Hcs & Hlen & _).
  exists cs. split; [exact Hcs|exact Hlen].
Defined.

(** * Topics created through package [nsqd] *)

Lemma nsqd_getTopicFromQuery_cases s req w :
  match Nsqd.getTopicFromQuery s req w with
  | (Ok (q, t), w') =>
      Query req = Some q ∧
      ∃ name rest, q !! "topic"%string = Some (name :: rest) ∧
        Nsqd.IsValidTopicName (Nsqd.ctx s) name = true ∧
        ((q !! "partition"%string = None ∧ t = Nsqd.GetTopicIgnPart (Nsqd.ctx s) name ∧
          w' = call (CallGetTopicIgnPart name) w) ∨
         (∃ p ps part, q !! "partition"%string = Some (p :: ps) ∧
            Nsqd.Atoi (Nsqd.ctx s) p = Some part ∧
            t = Nsqd.GetTopic (Nsqd.ctx s) name part ∧
            w' = call (CallGetTopic name part) w))
  | (_, w') => w' = w
  end.
Proof.
  unfold Nsqd.getTopicFromQuery.
  destruct (Query req) as [q|]; [|done].
  destruct (q !! "topic"%string) as [[|name rest]|] eqn:Et; try done.
  destruct (Nsqd.IsValidTopicName (Nsqd.ctx s) name) eqn:Ev; [|done]. cbn [negb].
  destruct (q !! "partition"%string) as [[|p ps]|] eqn:Ep; try done.
  - destruct (Nsqd.Atoi (Nsqd.ctx s) p) as [part|] eqn:Ea; [|done]. run.
    split; [done|]. exists name, rest. split; [done|]. split; [done|]. right.
    by exists p, ps, part.
  - run. split; [done|]. exists name, rest. split; [done|]. split; [done|]. by left.
Qed.

(** X8.  [doCreateTopic] of package [nsqd] answers without error exactly
    when it has asked the engine for one topic, and the name it asks for is
    the first [topic] argument of the query and is a valid topic name; the
    topic is asked for whatever its partition when the query has no
    [partition] argument, and under the partition [strconv.Atoi] reads
    otherwise.  A request answered with an error has asked for nothing. *)
Theorem nsqd_doCreateTopic_creates (s : Nsqd.httpServer) (req : Request) (w : World) :
  let '(r, w') := NsqdAdmin.doCreateTopic s req w in
  (r = Ok tt →
   ∃ q name rest, Query req = Some q ∧ q !! "topic"%string = Some (name :: rest) ∧
     Nsqd.IsValidTopicName (Nsqd.ctx s) name = true ∧
     ((q !! "partition"%string = None ∧ w' = call (CallGetTopicIgnPart name) w) ∨
      (∃ p ps part, q !! "partition"%string = Some (p :: ps) ∧
         Nsqd.Atoi (Nsqd.ctx s) p = Some part ∧ w' = call (CallGetTopic name part) w))) ∧
  (r ≠ Ok tt → w' = w).
Proof.
  unfold NsqdAdmin.doCreateTopic, bind.
  pose proof (nsqd_getTopicFromQuery_cases s req w) as H.
  destruct (Nsqd.getTopicFromQuery s req w) as [[[q t]|e|] w1]; run.
  - destruct H as (Hq & name & rest & Ht & Hv & H). split; [|done]. intros _.
    exists q, name, rest. split; [done|]. split; [done|]. split; [done|].
    destruct H as [(? & _ & ?)|(p & ps & part & ? & ? & _ & ?)]; [by left|right].
    by exists p, ps, part.
  - by subst.
  - by subst.
Qed.

(** X9.  The order of lookup and decode in package [nsqd].  A single
    publish asks for the topic after the body is accepted: unless it answers
    OK or EXITING, it has made no call, so a rejected message creates no
    topic.  A batch publish checks the declared length first and asks for
    the topic before it reads the body: with a declared length over
    MaxBodySize it answers BODY_TOO_BIG and makes no call; with a declared
    length within MaxBodySize and valid topic arguments, the call that gets
    or creates the topic is made whatever becomes of the body. *)
Theorem nsqd_publish_creates_topic (old : Nsqd.httpServer) (req : Request) (w : World) :
  sizeOK (MaxMsgSize (opts w)) → MaxMsgSize (opts w) < 2 ^ 63 - 1 →
  ((Nsqd.doPUB old req w).1 = Ok "OK"%string ∨
   (Nsqd.doPUB old req w).1 = Fail (mkErr 503 "EXITING") ∨
   calls (Nsqd.doPUB old req w).2 = calls w) ∧
  (ContentLength req ≤ MaxBodySize (opts w) →
   ∀ q t w1, Nsqd.getTopicFromQuery old req w = (Ok (q, t), w1) →
     ∃ c cs, calls w1 = calls w ++ [c] ∧
             calls (Nsqd.doMPUB old req w).2 = calls w ++ c :: cs) ∧
  (MaxBodySize (opts w) < ContentLength req →
   Nsqd.doMPUB old req w = (Fail (mkErr 413 "BODY_TOO_BIG"), w)).
Proof.
  intros HM HM'. split; [|split].
  3:{ intros Hover. unfold Nsqd.doMPUB. unfold bind at 1. unfold getOpts at 1.
      apply Z.ltb_lt in Hover. by rewrite Hover. }
  - pose proof (nsqd_doPUB_run old req w HM HM') as Hrun. cbv zeta in Hrun.
    destruct (Nsqd.doPUB old req w) as [r w']. cbn [fst snd] in *.
    pose proof (nsqd_getTopicFromQuery_cases old req w) as Hcases.
    repeat (case_match; simplify_eq/=); auto.
  - intros Hcl q t w1 Htopic.
    pose proof (nsqd_getTopicFromQuery_cases old req w) as Hcases.
    rewrite Htopic in Hcases.
    assert (∃ c, w1 = call c w) as [c ->].
    { destruct Hcases as (_ & name & rest & _ & _ & [(_ & _ & ->)|(p & ps & part & _ & _ & _ & ->)]);
        eauto. }
    exists c. simpl.
    destruct (q !! "binary"%string) eqn:Ebin.
    + destruct (Nsqd.doMPUB old req w) as [r w'] eqn:E. cbn [snd]. revert E.
      unfold Nsqd.doMPUB. unfold bind at 1. unfold getOpts at 1.
      apply Z.leb_le in Hcl. rewrite Z.leb_antisym in Hcl.
      apply negb_true_iff in Hcl. rewrite Hcl.
      unfold bind at 1. rewrite Htopic.
      rewrite bool_decide_eq_true_2 by (rewrite Ebin; eauto).
      run.
      repeat (case_match; run; simplify_eq/=); intros [= <- <-]; simpl;
        first [by exists [] | eexists; by rewrite <- app_assoc].
    + rewrite (nsqd_doMPUB_text old req w (call c w) q t) by done. cbv zeta.
      destruct (mpubDecode _ _ _); simpl;
        first [by exists [] | eexists; by rewrite <- app_assoc].
Qed.

Lemma nsqd_publish_creates_topic_witness :
  let w := Example.tight in
  sizeOK (MaxMsgSize (opts w)) ∧ MaxMsgSize (opts w) < 2 ^ 63 - 1 ∧
  Nsqd.doPUB Example.nsqd (Example.post (-1) ["a"; "b"]%byte) w
  = (Fail (mkErr 413 "MSG_TOO_BIG"), consume 2 w) ∧
  (Nsqd.doMPUB Example.nsqd (Example.post (-1) ["a"; "b"]%byte) w).1
  = Fail (mkErr 413 "MSG_TOO_BIG") ∧
  (∃ cs, calls (Nsqd.doMPUB Example.nsqd (Example.post (-1) ["a"; "b"]%byte) w).2
         = calls w ++ CallGetTopicIgnPart "orders" :: cs) ∧
  Nsqd.doMPUB Example.nsqd (Example.post 3 ["a"; "b"; "c"]%byte) w
  = (Fail (mkErr 413 "BODY_TOO_BIG"), w).
Proof.
  cbv zeta.
  assert (sizeOK (MaxMsgSize (opts Example.tight))) as H1 by (vm_compute; split; congruence).
  assert (MaxMsgSize (opts Example.tight) < 2 ^ 63 - 1) as H2 by (vm_compute; reflexivity).
  split; [exact H1|]. split; [exact H2|]. split; [reflexivity|]. split; [reflexivity|].
  destruct (nsqd_publish_creates_topic Example.nsqd (Example.post (-1) ["a"; "b"]%byte)
              Example.tight H1 H2) as (_ & Hbatch & _).
  destruct (nsqd_publish_creates_topic Example.nsqd (Example.post 3 ["a"; "b"; "c"]%byte)
              Example.tight H1 H2) as (_ & _ & Hover).
  split; [|apply Hover; vm_compute; reflexivity].
  destruct (Hbatch ltac:(vm_compute; discriminate) Example.query Example.topic
              (call (CallGetTopicIgnPart "orders") Example.tight) eq_refl)
    as (c & cs & Hc & Hcs).
  exists cs. simpl in Hc. injection Hc as <-. exact Hcs.
Defined.

(** * The calls of a batch publish in package [nsqdserver] *)

Lemma leaseBuffers_calls n : ∀ w, calls (NsqdServer.leaseBuffers n w) = calls w.
Proof. induction n as [|n IH]; intros w; simpl; [done|]. by rewrite IH. Qed.

Lemma putBuffers_calls bs : ∀ w, calls (NsqdServer.putBuffers bs w) = calls w.
Proof. induction bs as [|b bs IH]; intros w; simpl; [done|]. by rewrite IH. Qed.

(** X10.  A batch publish of package [nsqdserver] either makes no call, or
    puts one batch to the local engine and then sets the health of the node
    to the outcome of this put.  It answers OK exactly when the put was made
    and the engine took it, and EXITING whenever the put was made and
    refused; it never forwards and never puts a single message. *)
Theorem nsqdserver_doMPUB_calls (s : NsqdServer.httpServer) (req : Request) (w : World) :
  let '(r, w') := NsqdServer.doMPUB s req w in
  (newCalls w w' [] ∧ r ≠ Ok "OK"%string) ∨
  (∃ t msgs,
     let err := NsqdServer.PutMessages (NsqdServer.ctx s) t msgs in
     newCalls w w' [CallPutMessages t msgs; CallSetHealth err] ∧
     r = match err with
         | Some _ => Fail (mkErr 503 "EXITING")
         | None => Ok "OK"%string
         end).
Proof.
  destruct (NsqdServer.doMPUB s req w) as [r w'] eqn:E. revert E.
  unfold NsqdServer.doMPUB, newCalls. unfold bind at 1. unfold getOpts at 1.
  destruct (MaxBodySize (opts w) <? ContentLength req).
  { intros [= <- <-]. left. by rewrite app_nil_r. }
  unfold bind at 1.
  pose proof (nsqdserver_getExistingTopicFromQuery_world s req w) as Hw.
  destruct (NsqdServer.getExistingTopicFromQuery s req w) as [[[q t]|e|] w1];
    simpl in Hw; subst w1; try (intros [= <- <-]; left; by rewrite app_nil_r).
  case_bool_decide.
  - run.
    destruct (NsqdServer.mpubErr _) as [code|].
    + case_decide; intros [= <- <-]; left;
        rewrite putBuffers_calls, leaseBuffers_calls; simpl; by rewrite app_nil_r.
    + match goal with |- context [NsqdServer.PutMessages ?c ?t ?m] =>
        destruct (NsqdServer.PutMessages c t m) eqn:Eput end;
        intros [= <- <-]; right; eexists _, _; rewrite Eput;
        rewrite putBuffers_calls; simpl; rewrite leaseBuffers_calls; simpl;
        by rewrite <- app_assoc.
  - rewrite mpubText_run. cbv zeta.
    destruct (mpubDecode _ _ _) as [msgs| |].
    + run.
      destruct (NsqdServer.PutMessages (NsqdServer.ctx s) t msgs) eqn:Eput;
        intros [= <- <-]; right; exists t, msgs; rewrite Eput; simpl;
        by rewrite <- app_assoc.
    + intros [= <- <-]. left. simpl. by rewrite app_nil_r.
    + intros [= <- <-]. left. simpl. by rewrite app_nil_r.
Qed.

(** X11.  The binary batch in package [nsqdserver]: once the topic is
    found and the query has a [binary] argument, the answer is taken from
    [readMPUB] alone.  An error of [readMPUB] is answered 413 with the code
    of the error less its first two characters (a run-time panic when the
    code is shorter), and nothing is put; otherwise the messages [readMPUB]
    returned are put as one batch.  The bytes taken off the body are those
    [readMPUB] took: the text loop and its limited reader play no part. *)
Theorem nsqdserver_doMPUB_binary
    (s : NsqdServer.httpServer) (req : Request) (w : World) (q : Values) (t : Topic) :
  ContentLength req ≤ MaxBodySize (opts w) →
  NsqdServer.getExistingTopicFromQuery s req w = (Ok (q, t), w) →
  is_Some (q !! "binary"%string) →
  let decoded := NsqdServer.readMPUB (NsqdServer.ctx s) (Body req) t (MaxMsgSize (opts w)) in
  let '(r, w') := NsqdServer.doMPUB s req w in
  bytesRead w w' = Z.of_nat (NsqdServer.mpubRead decoded) ∧
  match NsqdServer.mpubErr decoded with
  | Some code =>
      newCalls w w' [] ∧
      r = if decide (String.length code < 2)%nat then Panic
          else Fail (mkErr 413 (substring 2 (String.length code - 2) code))
  | None =>
      let err := NsqdServer.PutMessages (NsqdServer.ctx s) t (NsqdServer.mpubMsgs decoded) in
      newCalls w w' [CallPutMessages t (NsqdServer.mpubMsgs decoded); CallSetHealth err] ∧
      r = match err with
          | Some _ => Fail (mkErr 503 "EXITING")
          | None => Ok "OK"%string
          end
  end.
Proof.
  intros Hcl Htopic Hbin. cbv zeta.
  assert (Hlc : ∀ n w0, consumed (NsqdServer.leaseBuffers n w0) = consumed w0).
  { induction n as [|n IH]; intros w0; simpl; [done|]. by rewrite IH. }
  assert (Hpc : ∀ bs w0, consumed (NsqdServer.putBuffers bs w0) = consumed w0).
  { induction bs as [|b bs IH]; intros w0; simpl; [done|]. by rewrite IH. }
  destruct (NsqdServer.doMPUB s req w) as [r w'] eqn:E. revert E.
  unfold NsqdServer.doMPUB, newCalls, bytesRead. unfold bind at 1. unfold getOpts at 1.
  apply Z.leb_le in Hcl. rewrite Z.leb_antisym in Hcl.
  apply negb_true_iff in Hcl. rewrite Hcl.
  unfold bind at 1. rewrite Htopic.
  rewrite bool_decide_eq_true_2 by done. run.
  destruct (NsqdServer.mpubErr _) as [code|].
  - case_decide; intros [= <- <-];
      rewrite putBuffers_calls, leaseBuffers_calls, Hpc, Hlc; simpl;
      rewrite app_nil_r; (split; [lia|done]).
  - match goal with |- context [NsqdServer.PutMessages ?c ?t ?m] =>
      destruct (NsqdServer.PutMessages c t m) eqn:Eput end;
      intros [= <- <-]; rewrite putBuffers_calls, Hpc; simpl;
      rewrite leaseBuffers_calls, Hlc; simpl; rewrite <- app_assoc;
      (split; [lia|done]).
Qed.

Lemma nsqdserver_doMPUB_binary_witness :
  let w := Example.world in
  let req := Example.postBinary 9 ["a"%byte] in
  ContentLength req ≤ MaxBodySize (opts w) ∧
  bytesRead w (NsqdServer.doMPUB Example.nsqdserver req w).2 = 9 ∧
  (NsqdServer.doMPUB Example.nsqdserver req w).1 = Ok "OK"%string.
Proof.
  cbv zeta.
  assert (ContentLength (Example.postBinary 9 ["a"%byte]) ≤ MaxBodySize (opts Example.world))
    as H1 by (vm_compute; discriminate).
  split; [exact H1|].
  pose proof (nsqdserver_doMPUB_binary Example.nsqdserver (Example.postBinary 9 ["a"%byte])
                Example.world (<[ "binary"%string := ["true"%string] ]> Example.query)
                Example.topic H1 eq_refl) as H.
  cbv zeta in H.
  destruct (NsqdServer.doMPUB Example.nsqdserver (Example.postBinary 9 ["a"%byte])
              Example.world) as [r w'].
  destruct H as [Hread Hrest].
  - rewrite lookup_insert. eauto.
  - simpl in Hrest. destruct Hrest as [_ ->]. split; [exact Hread|reflexivity].
Defined.

(** * The filter of [doStats] *)

Lemma findTopic_Some name stats t :
  findTopic name stats = Some t → t ∈ stats ∧ TopicName t = name.
Proof.
  unfold findTopic. induction stats as [|t0 stats IH]; simpl; [done|].
  case_bool_decide as Hn.
  - intros [= ->]. split; [left|done].
  - intros [Hin ?]%IH. split; [by right|done].
Qed.

Lemma findChannel_Some name cs ch :
  findChannel name cs = Some ch → ch ∈ cs ∧ ChannelName ch = name.
Proof.
  unfold findChannel. induction cs as [|c0 cs IH]; simpl; [done|].
  case_bool_decide as Hn.
  - intros [= ->]. split; [left|done].
  - intros [Hin ?]%IH. split; [by right|done].
Qed.

(** X12.  The filter of [doStats] is idempotent: filtering the filtered
    snapshot by the same topic and channel names gives the filtered snapshot
    again. *)
Theorem filterTopic_idempotent (topicName channelName : string) (stats : list TopicStats) :
  let once := filterTopic topicName channelName stats stats in
  filterTopic topicName channelName once once = once.
Proof.
  cbv zeta. rewrite (filterTopic_find topicName channelName stats stats).
  destruct (findTopic topicName stats) as [t|] eqn:Et.
  - apply findTopic_Some in Et as [_ Hname].
    case_decide as Hc.
    + rewrite filterChannel_find.
      destruct (findChannel channelName (Channels t)) as [ch|] eqn:Ec.
      * apply findChannel_Some in Ec as [_ Hch].
        simpl. rewrite decide_True by done. rewrite decide_True by done.
        simpl. rewrite decide_True by done. done.
      * simpl. rewrite decide_True by done. rewrite decide_True by done.
        rewrite filterChannel_find, Ec. done.
    + simpl. rewrite decide_True by done. by rewrite decide_False by done.
  - rewrite filterTopic_find, Et. done.
Qed.

(** X13.  The filter of [doStats] only removes: the filtered snapshot is no
    longer than the snapshot, is not empty unless the snapshot is, and each
    of its entries is an entry of the snapshot with the same counters whose
    channels are channels of that entry. *)
Theorem filterTopic_only_removes (topicName channelName : string) (stats : list TopicStats) :
  let out := filterTopic topicName channelName stats stats in
  (length out ≤ length stats)%nat ∧ (stats ≠ [] → out ≠ []) ∧
  Forall (λ t', ∃ t, t ∈ stats ∧ t' = setChannels t (Channels t') ∧
                     Channels t' ⊆ Channels t) out.
Proof.
  cbv zeta. rewrite filterTopic_find.
  assert (Hself : ∀ t : TopicStats, t = setChannels t (Channels t)) by (by intros []).
  destruct (findTopic topicName stats) as [t|] eqn:Et.
  - apply findTopic_Some in Et as [Hin _].
    split; [destruct stats; [by apply elem_of_nil in Hin|simpl; lia]|].
    split; [done|]. constructor; [|constructor]. exists t. split; [done|].
    case_decide; [|done].
    rewrite filterChannel_find.
    destruct (findChannel channelName (Channels t)) as [ch|] eqn:Ec; [|done].
    apply findChannel_Some in Ec as [Hch _]. split; [done|]. simpl.
    intros c ->%list_elem_of_singleton. done.
  - split; [done|]. split; [done|].
    apply Forall_forall. intros t Hin. exists t. done.
Qed.

(** X14.  A channel filter without a topic filter is ignored: when the
    query has no [topic] argument (or an empty one), [doStats] answers with
    the whole snapshot whatever its [channel] argument; and a query that
    does not parse is answered 400 INVALID_REQUEST. *)
Theorem doStats_channel_needs_topic (c : Common) (q : Values) (w : World) :
  Get q "topic" = ""%string →
  doStats c (Some q) w = (Ok (statsReply c q (GetStats c)), w) ∧
  doStats c None w = (Fail (mkErr 400 "INVALID_REQUEST"), w).
Proof.
  intros Ht. split; [|done]. rewrite doStats_run. by rewrite decide_True.
Qed.

Lemma doStats_channel_needs_topic_witness :
  let q : Values := {[ "channel" := ["audit"]; "format" := ["json"] ]}%string in
  Get q "topic" = ""%string ∧ Get q "channel" = "audit"%string ∧
  NsqdServer.doStats Example.nsqdserver (Example.get q) Example.world
  = (Ok (StatsJSON "0.3.7" "OK" 1460000000 [Example.orders; Example.clicks]),
     Example.world).
Proof.
  cbv zeta.
  assert (Get ({[ "channel" := ["audit"]; "format" := ["json"] ]}%string : Values) "topic"
          = ""%string) as Ht by reflexivity.
  split; [exact Ht|]. split; [reflexivity|].
  rewrite NsqdServer_doStats_unfold.
  destruct (doStats_channel_needs_topic Example.common _ Example.world Ht) as [H _].
  exact H.
Defined.

(** * Reading an option *)

(** X15.  [getOptByCfgName] returns the value of the first field of the
    struct that has a flag tag and whose config name is the name asked for.
    Fields without a flag tag are never found, whatever their [cfg] tag. *)
Theorem getOptByCfgName_first_match (fields : list StructField) (o : Options)
    (name : string) :
  getOptByCfgName fields o name =
  (λ field, Interface field o) <$>
    find (λ field, negb (bool_decide (flagTag field = ""%string))
                   && bool_decide (cfgNameOf field = name)) fields.
Proof.
  induction fields as [|field fields IH]; [done|].
  simpl. unfold cfgNameOf at 1.
  case_decide as Hflag.
  - rewrite bool_decide_eq_true_2 by done. simpl. exact IH.
  - rewrite bool_decide_eq_false_2 by done. simpl.
    destruct (decide (name ≠ _)) as [Hname|Hname].
    + rewrite bool_decide_eq_false_2 by (intros ?; by apply Hname). exact IH.
    + apply dec_stable in Hname. by rewrite bool_decide_eq_true_2.
Qed.

Lemma dashesToUnderscores_no_dash s : hasChar "-" (dashesToUnderscores s) = false.
Proof.
  induction s as [|a s IH]; [done|]. simpl. rewrite IH, orb_false_r.
  case_decide as Ha; apply bool_decide_eq_false_2; [done|congruence].
Qed.

Lemma getOptByCfgName_dashed fields o name :
  hasChar "-" name = true → Forall (λ field, cfgTag field ≠ name) fields →
  getOptByCfgName fields o name = None.
Proof.
  intros Hdash. induction 1 as [|field fields Hcfg _ IH]; [done|].
  simpl. case_decide; [done|].
  rewrite decide_True; [done|].
  destruct (decide (cfgTag field = ""%string)) as [Hc|Hc]; [|congruence].
  intros ->. by rewrite dashesToUnderscores_no_dash in Hdash.
Qed.

(** X16.  Reading an option leaves the world as it is: a request with a
    method other than PUT reads no body, swaps nothing and notifies nobody.
    A name that holds a dash is answered INVALID_OPTION unless it is the
    [cfg] tag of a field: the names derived from flags have underscores for
    the dashes of the flag. *)
Theorem doConfig_read_only (c : Common) (req : Request) (ps : Params) (w : World) :
  Method req ≠ "PUT"%string →
  (doConfig c req ps w).2 = w ∧
  (hasChar "-" (ByName ps "opt") = true →
   Forall (λ field, cfgTag field ≠ ByName ps "opt") (OptionsType c) →
   doConfig c req ps w = (Fail (mkErr 400 "INVALID_OPTION"), w)).
Proof.
  intros Hm. rewrite doConfig_get by done. split; [done|].
  intros Hdash Hcfg. by rewrite getOptByCfgName_dashed.
Qed.

Lemma doConfig_read_only_witness :
  let ps : Params := [("opt", "max-msg-size")]%string in
  Method (Example.get ∅) ≠ "PUT"%string ∧
  hasChar "-" (ByName ps "opt") = true ∧
  doConfig Example.common (Example.get ∅) ps Example.world
  = (Fail (mkErr 400 "INVALID_OPTION"), Example.world) ∧
  doConfig Example.common (Example.get ∅) [("opt", "max_msg_size")]%string Example.world
  = (Ok (VInt 1024), Example.world).
Proof.
  cbv zeta.
  assert (Method (Example.get ∅) ≠ "PUT"%string) as Hm by discriminate.
  split; [exact Hm|]. split; [reflexivity|]. split; [|reflexivity].
  destruct (doConfig_read_only Example.common (Example.get ∅)
              [("opt", "max-msg-size")]%string Example.world Hm) as [_ H].
  apply H; [reflexivity|].
  repeat constructor; discriminate.
Defined.

(** * Writing the address list in place *)

Lemma unmarshalElems_in_place ss : ∀ i h v p arr,
  array v = Some p → h !! p = Some arr → (i + length ss ≤ length arr)%nat →
  array (unmarshalElems i (JValue <$> ss) (h, v)).2 = Some p ∧
  (unmarshalElems i (JValue <$> ss) (h, v)).1
  = <[p := take i arr ++ ss ++ drop (i + length ss) arr]> h.
Proof.
  induction ss as [|s ss IH]; intros i h v p arr Hv Hp Hlen.
  - simpl. split; [done|]. rewrite Nat.add_0_r, take_drop.
    symmetry. by apply list_insert_id.
  - rewrite fmap_cons. cbn [unmarshalElems length] in *.
    assert (backing h v = arr) as Hb by (unfold backing; by rewrite Hv, Hp).
    assert (p < length h)%nat as Hlt by (by eapply lookup_lt_Some).
    assert (unmarshalElem i (JValue s) (h, v)
            = (<[p := <[i := s]> arr]> h,
               if decide (slen v ≤ i)%nat then {| array := array v; slen := S i |} else v))
      as ->.
    { unfold unmarshalElem. rewrite Hb. rewrite decide_False by lia.
      case_decide; simpl; rewrite ?backing_array, ?Hb, Hv; done. }
    set (v1 := if decide (slen v ≤ i)%nat then {| array := array v; slen := S i |} else v).
    assert (array v1 = Some p) as Hv1 by (unfold v1; case_decide; done).
    destruct (IH (S i) (<[p := <[i := s]> arr]> h) v1 p (<[i := s]> arr)) as [Ha Hs].
    + done.
    + by rewrite list_lookup_insert_eq.
    + rewrite length_insert. lia.
    + split; [done|]. rewrite Hs, list_insert_insert_eq. f_equal.
      rewrite (take_S_r _ _ s) by (apply list_lookup_insert_eq; lia).
      rewrite take_insert_ge by lia. rewrite drop_insert_lt by lia.
      rewrite <- app_assoc. simpl. by rewrite Nat.add_succ_r.
Qed.

(** X17.  A PUT of a list of addresses that is not empty and fits the
    capacity of the current list is decoded into the array of the current
    list: the slice of the new snapshot points to the same array, and a
    holder of the previous snapshot reads the new addresses through its own
    slice.  Snapshots of the options are not immutable under this write. *)
Theorem doConfig_put_addresses_in_place
    (c : Common) (req : Request) (ps : Params) (w : World) (vs : list string) :
  let readMax := int64 (MaxMsgSize (opts w) + 1) in
  let body := data (LimitReader (Body req) readMax) in
  let v0 := NSQLookupdTCPAddresses (opts w) in
  let w' := (doConfig c req ps w).2 in
  Method req = "PUT"%string →
  ByName ps "opt" = "nsqlookupd_tcp_addresses"%string →
  ending (LimitReader (Body req) readMax) = CleanEnd →
  len body ≠ 0 → len body ≠ readMax →
  jsonStrings c body = JSArray (JValue <$> vs) →
  vs ≠ [] → (length vs ≤ length (backing (store w) v0))%nat →
  array (NSQLookupdTCPAddresses (opts w')) = array v0 ∧
  slen (NSQLookupdTCPAddresses (opts w')) = length vs ∧
  backing (store w') v0 = vs ++ drop (length vs) (backing (store w) v0) ∧
  elements (store w') v0 = take (slen v0) (vs ++ drop (length vs) (backing (store w) v0)).
Proof.
  cbv zeta. intros Hm Hopt Hend Hn0 Hnmax Hjson Hvs Hcap.
  rewrite doConfig_put_run by done. cbv zeta.
  apply Z.eqb_neq in Hn0, Hnmax. rewrite Hn0, Hnmax. cbn [orb].
  rewrite Hopt. unfold unmarshalOption. rewrite decide_True by done.
  rewrite Hjson. cbn [store consume].
  set (v0 := NSQLookupdTCPAddresses (opts w)) in *.
  set (h := store w) in *.
  assert (∃ p, array v0 = Some p ∧ h !! p = Some (backing h v0)) as (p & Hp & Hh).
  { unfold backing in *. destruct (array v0) as [p|]; [|destruct vs; simpl in *; [done|lia]].
    exists p. split; [done|]. destruct (h !! p); [done|].
    destruct vs; simpl in *; [done|lia]. }
  destruct (unmarshalElems_in_place vs 0 h v0 p (backing h v0) Hp Hh) as [Ha Hs]; [lia|].
  unfold unmarshalStrings.
  destruct (JValue <$> vs) as [|e es] eqn:Ees; [by destruct vs|].
  rewrite <- Ees in *.
  destruct (unmarshalElems 0 (JValue <$> vs) (h, v0)) as [h' v'] eqn:Eu.
  cbn [fst snd] in Ha, Hs.
  assert (forallb (λ e : JsonScalar string, match e with JError => false | _ => true end)
            (JValue <$> vs) = true) as ->.
  { clear. induction vs; [done|]. by simpl. }
  simpl. rewrite Ha, length_fmap. split; [done|]. split; [done|].
  assert (backing h' v0 = vs ++ drop (length vs) (backing h v0)) as Hb.
  { unfold backing at 1. rewrite Hp, Hs.
    rewrite list_lookup_insert_eq by (by eapply lookup_lt_Some). done. }
  split; [done|]. unfold elements. by rewrite Hb.
Qed.

Lemma doConfig_put_addresses_in_place_witness :
  let c := Example.common in
  let req := Example.put Example.bodyOneAddress in
  let ps : Params := [("opt", "nsqlookupd_tcp_addresses")]%string in
  let w := Example.world in
  let v0 := NSQLookupdTCPAddresses (opts w) in
  let w' := (doConfig c req ps w).2 in
  elements (store w) v0 = ["10.0.0.1:4160"; "10.0.0.2:4160"]%string ∧
  elements (store w') v0 = ["10.0.0.3:4160"; "10.0.0.2:4160"]%string ∧
  array (NSQLookupdTCPAddresses (opts w')) = array v0.
Proof.
  cbv zeta. split; [reflexivity|].
  destruct (doConfig_put_addresses_in_place Example.common
              (Example.put Example.bodyOneAddress)
              [("opt", "nsqlookupd_tcp_addresses")]%string Example.world
              ["10.0.0.3:4160"%string])
    as (Harr & _ & _ & Helems).
  - reflexivity.
  - reflexivity.
  - reflexivity.
  - vm_compute. discriminate.
  - vm_compute. discriminate.
  - reflexivity.
  - discriminate.
  - simpl. lia.
  - split; [|exact Harr]. rewrite Helems. reflexivity.
Defined.

(** * Pausing, creating, deleting and emptying *)






(** * The text batch loses nothing and is put whole or not at all *)

Lemma chunks_nonempty s : chunks s ≠ [].
Proof.
  destruct s as [|c s]; simpl; [done|]. case_decide; [done|]. by destruct (chunks s).
Qed.

Lemma concat_chunks s : concat (chunks s) = filter (λ b, b ≠ nl) s.
Proof.
  induction s as [|c s IH]; [done|]. simpl. case_decide as Hc.
  - rewrite filter_cons_False by (intros ?; done). exact IH.
  - rewrite filter_cons_True by done. rewrite <- IH.
    pose proof (chunks_nonempty s). by destruct (chunks s).
Qed.

Lemma concat_filter_nonempty {A} (l : list (list A)) :
  concat (filter (λ c, c ≠ []) l) = concat l.
Proof.
  induction l as [|c l IH]; [done|]. destruct c as [|a c].
  - rewrite filter_cons_False by (intros ?; done). exact IH.
  - rewrite filter_cons_True by done. simpl. by rewrite IH.
Qed.

(** X21.  The text loop neither loses nor reorders a byte: the bodies of
    the messages it yields, put end to end, are the bytes of the body
    without its newlines. *)
Theorem mpubDecode_keeps_bytes (maxMsgSize readMax : Z) (rdr : Reader)
    (msgs : list Message) :
  mpubDecode maxMsgSize readMax rdr = Ok msgs →
  concat (MsgBody <$> msgs) = filter (λ b, b ≠ nl) (data rdr).
Proof.
  intros H. apply mpubDecode_ok_inv in H as (_ & _ & -> & _).
  unfold textBatch. rewrite <- list_fmap_compose.
  replace (MsgBody ∘ NewMessage 0) with (@id (list byte)) by done.
  rewrite list_fmap_id, concat_filter_nonempty. apply concat_chunks.
Qed.

Lemma mpubDecode_keeps_bytes_witness :
  mpubDecode 2 6 (mkReader ["a"; nl; nl; "b"; "c"]%byte CleanEnd)
  = Ok [NewMessage 0 ["a"%byte]; NewMessage 0 ["b"; "c"]%byte] ∧
  concat (MsgBody <$> [NewMessage 0 ["a"%byte]; NewMessage 0 ["b"; "c"]%byte])
  = filter (λ b, b ≠ nl) ["a"; nl; nl; "b"; "c"]%byte.
Proof.
  split; [reflexivity|].
  apply (mpubDecode_keeps_bytes 2 6 (mkReader ["a"; nl; nl; "b"; "c"]%byte CleanEnd)).
  reflexivity.
Defined.




(** * Ceilings at the largest int64 *)

(** X23.  With a ceiling of 2^63 - 1 the [+ 1] of [readMax] wraps around to
    a negative number, and the limited reader gives nothing.  A text batch
    of package [nsqdserver] then reads no byte and puts the empty batch
    whatever the body holds; a single publish of package [nsqd] reads no
    byte and answers MSG_EMPTY whatever the body holds. *)
Theorem ceilings_at_max_int64
    (new : NsqdServer.httpServer) (old : Nsqd.httpServer) (req : Request) (w : World) :
  ContentLength req ≤ 2 ^ 63 - 1 →
  (MaxBodySize (opts w) = 2 ^ 63 - 1 →
   ∀ q t, NsqdServer.getExistingTopicFromQuery new req w = (Ok (q, t), w) →
     q !! "binary"%string = None →
     bytesRead w (NsqdServer.doMPUB new req w).2 = 0 ∧
     newCalls w (NsqdServer.doMPUB new req w).2
       [CallPutMessages t [];
        CallSetHealth (NsqdServer.PutMessages (NsqdServer.ctx new) t [])]) ∧
  (MaxMsgSize (opts w) = 2 ^ 63 - 1 →
   (Nsqd.doPUB old req w).1 = Fail (mkErr 400 "MSG_EMPTY") ∧
   bytesRead w (Nsqd.doPUB old req w).2 = 0 ∧
   newCalls w (Nsqd.doPUB old req w).2 []).
Proof.
  intros Hcl.
  assert (int64 (2 ^ 63 - 1 + 1) = - 2 ^ 63) as Hwrap by (vm_compute; reflexivity).
  split.
  - intros HB q t Htopic Hbin.
    rewrite (nsqdserver_doMPUB_text new req w q t) by (done || lia). cbv zeta.
    rewrite HB, Hwrap.
    assert (LimitReader (Body req) (- 2 ^ 63) = mkReader [] CleanEnd) as ->.
    { unfold LimitReader. f_equal.
      pose proof (len_nonneg (data (Body req))).
      destruct (Z.ltb_spec (len (data (Body req))) (- 2 ^ 63)); [lia|done]. }
    unfold bytesRead, newCalls. simpl. rewrite <- app_assoc. split; [lia|done].
  - intros HM. unfold bytesRead, newCalls.
    destruct (Nsqd.doPUB old req w) as [r w'] eqn:E. cbn [fst snd]. revert E.
    unfold Nsqd.doPUB. unfold bind at 1. unfold getOpts at 1.
    destruct (Z.ltb_spec (MaxMsgSize (opts w)) (ContentLength req)); [lia|].
    unfold bind at 1. unfold getOpts at 1. rewrite HM, Hwrap.
    assert (LimitReader (Body req) (- 2 ^ 63) = mkReader [] CleanEnd) as ->.
    { unfold LimitReader. f_equal.
      pose proof (len_nonneg (data (Body req))).
      destruct (Z.ltb_spec (len (data (Body req))) (- 2 ^ 63)); [lia|done]. }
    run. intros [= <- <-]. simpl. rewrite app_nil_r. split; [done|]. split; [lia|done].
Qed.

Lemma ceilings_at_max_int64_witness :
  let w := {| opts := {| MaxMsgSize := 2 ^ 63 - 1; MaxBodySize := 2 ^ 63 - 1;
                         NSQLookupdTCPAddresses := {| array := None; slen := 0 |};
                         Verbose := false; LogLevel := 2; BroadcastAddress := "" |};
              store := []; consumed := 0; buffersOut := 0; readersOut := 0;
              calls := [] |} in
  let req := Example.post 3 ["a"; "b"; "c"]%byte in
  ContentLength req ≤ 2 ^ 63 - 1 ∧
  MaxBodySize (opts w) = 2 ^ 63 - 1 ∧
  calls (NsqdServer.doMPUB Example.nsqdserver req w).2
  = [CallPutMessages Example.topic []; CallSetHealth None] ∧
  (Nsqd.doPUB Example.nsqd req w).1 = Fail (mkErr 400 "MSG_EMPTY").
Proof.
  cbv zeta.
  assert (ContentLength (Example.post 3 ["a"; "b"; "c"]%byte) ≤ 2 ^ 63 - 1) as H1
    by (vm_compute; discriminate).
  split; [exact H1|]. split; [reflexivity|].
  match goal with |- calls (NsqdServer.doMPUB _ _ ?w).2 = _ ∧ _ =>
    destruct (ceilings_at_max_int64 Example.nsqdserver Example.nsqd
                (Example.post 3 ["a"; "b"; "c"]%byte) w H1) as [Hnew Hold] end.
  split.
  - destruct (Hnew eq_refl Example.query Example.topic eq_refl eq_refl) as [_ Hcalls].
    exact Hcalls.
  - destruct (Hold eq_refl) as [Hr _]. exact Hr.
Defined.

(** * The ways the text loop ends, and the two encodings of the statistics *)

Lemma runBlocks_inl maxMsgSize readMax bs : ∀ total msgs err,
  runBlocks maxMsgSize readMax bs total msgs = inl err →
  err = mkErr 413 "BODY_TOO_BIG" ∨ err = mkErr 413 "MSG_TOO_BIG".
Proof.
  induction bs as [|b bs IH]; intros total msgs err H; simpl in H; [done|].
  rewrite mpubStep_cases in H.
  repeat case_decide; simplify_eq; eauto.
Qed.

(** X24.  The text loop ends in one of four ways, whatever the reader and
    the ceilings: with a batch, with 413 BODY_TOO_BIG, with 413 MSG_TOO_BIG,
    or, on a stream that is cut short or breaks, with 500 INTERNAL_ERROR.
    It never panics, and a stream that ends cleanly is never answered
    INTERNAL_ERROR. *)
Theorem mpubDecode_outcomes (maxMsgSize readMax : Z) (rdr : Reader) :
  (∃ msgs, mpubDecode maxMsgSize readMax rdr = Ok msgs) ∨
  mpubDecode maxMsgSize readMax rdr = Fail (mkErr 413 "BODY_TOO_BIG") ∨
  mpubDecode maxMsgSize readMax rdr = Fail (mkErr 413 "MSG_TOO_BIG") ∨
  (mpubDecode maxMsgSize readMax rdr = Fail (mkErr 500 "INTERNAL_ERROR") ∧
   ending rdr ≠ CleanEnd).
Proof.
  rewrite mpubDecode_blocks. destruct (ending rdr).
  - destruct (runBlocks maxMsgSize readMax (blocksOf (data rdr)) 0 [])
      as [err|[t msgs]] eqn:E; [|eauto].
    apply runBlocks_inl in E as [-> | ->]; auto.
  - destruct (ReadBytes (data rdr)) as [full rest].
    destruct (runBlocks maxMsgSize readMax full 0 []) as [err|[t msgs]] eqn:E; [|auto 6].
    apply runBlocks_inl in E as [-> | ->]; auto.
  - destruct (ReadBytes (data rdr)) as [full rest].
    destruct (runBlocks maxMsgSize readMax full 0 []) as [err|[t msgs]] eqn:E; [|auto 6].
    apply runBlocks_inl in E as [-> | ->]; auto.
Qed.

(** X25.  The two encodings of the statistics carry the same snapshot: two
    queries with the same [topic] and [channel] arguments are answered from
    the same list of topics, whatever their [format]; the format decides
    between the text of [printStats] and the JSON struct and nothing else. *)
Theorem doStats_format_only_presents (c : Common) (q1 q2 : Values) (w : World) :
  Get q1 "topic" = Get q2 "topic" → Get q1 "channel" = Get q2 "channel" →
  ∃ topics,
    doStats c (Some q1) w = (Ok (statsReply c q1 topics), w) ∧
    doStats c (Some q2) w = (Ok (statsReply c q2 topics), w) ∧
    (Get q1 "format" = "json"%string →
     statsReply c q1 topics
     = StatsJSON (versionBinary c) (GetHealth c) (GetStartTime c) topics) ∧
    (Get q2 "format" ≠ "json"%string →
     statsReply c q2 topics
     = StatsText (renderStats c topics (GetHealth c) (GetStartTime c) (uptime c))).
Proof.
  intros Ht Hc. rewrite !doStats_run, Ht, Hc.
  eexists. split; [done|]. split; [done|]. unfold statsReply. split; intros Hf.
  - by rewrite bool_decide_eq_true_2.
  - by rewrite bool_decide_eq_false_2.
Qed.

Lemma doStats_format_only_presents_witness :
  let q1 : Values := {[ "topic" := ["orders"]; "format" := ["json"] ]}%string in
  let q2 : Values := {[ "topic" := ["orders"] ]}%string in
  Get q1 "topic" = Get q2 "topic" ∧ Get q1 "channel" = Get q2 "channel" ∧
  ∃ topics,
    doStats Example.common (Some q1) Example.world
    = (Ok (StatsJSON "0.3.7" "OK" 1460000000 topics), Example.world) ∧
    doStats Example.common (Some q2) Example.world
    = (Ok (StatsText (renderStats Example.common topics "OK" 1460000000 60)),
       Example.world).
Proof.
  cbv zeta.
  assert (Get ({[ "topic" := ["orders"]; "format" := ["json"] ]}%string : Values) "topic"
          = Get ({[ "topic" := ["orders"] ]}%string : Values) "topic") as H1 by reflexivity.
  assert (Get ({[ "topic" := ["orders"]; "format" := ["json"] ]}%string : Values) "channel"
          = Get ({[ "topic" := ["orders"] ]}%string : Values) "channel") as H2 by reflexivity.
  split; [exact H1|]. split; [exact H2|].
  destruct (doStats_format_only_presents Example.common _ _ Example.world H1 H2)
    as (topics & Hj & Ht & Hjson & Htext).
  exists topics. split.
  - rewrite Hj, Hjson; reflexivity.
  - rewrite Ht, Htext; [reflexivity|discriminate].
Defined.

